(** * wineSVG: the SVG document resource of d2d1 and its Unix-side librsvg/cairo bridge

    A shallow embedding of [dlls/d2d1/unixlib.c] (the native side: lazy
    loading of librsvg and cairo, the three unix-call handlers) and of
    [dlls/d2d1/svg.c] (the PE side: the reference-counted document object),
    followed by the properties of the load, create, free, render and
    reference-counting paths.

    Pointers are integers with [NULL = 0].  The C globals of the Unix side
    form a record that is threaded through a small state monad; every call
    that leaves the program (the dynamic loader, librsvg, glib, cairo, the
    process heap, COM calls on other objects, the [fninit] instruction) is
    recorded as an event.  What the outside answers is read from a [world].
    A call through a function pointer that is [NULL], or a COM call on an
    interface pointer that is [NULL], is a fault: the caller does not
    return.

    Left out: the debug-channel output ([TRACE], [ERR], [WARN], [FIXME],
    with the [dlerror] call inside one of them), which changes no state. *)

From Stdlib Require Import ZArith List String Bool Lia.
From Stdlib Require Import PrimFloat Uint63 SpecFloat FloatOps FloatAxioms.
From stdpp Require Import base option gmap.

Set Warnings "-inexact-float".
Open Scope Z_scope.

(** ** Pointers and machine integers *)

Definition ptr := Z.
Definition NULL : ptr := 0.

(** [!p] and [p] used as a C condition. *)
Definition is_null (p : ptr) : bool := p =? NULL.
Definition non_null (p : ptr) : bool := negb (p =? NULL).

(** A 32-bit unsigned value ([ULONG], [UINT32]; [LONG] is stored by its bits). *)
Definition wrap32 (z : Z) : Z := z mod 2 ^ 32.

(** [(double)x] for a [UINT32] x: exact, since every 32-bit integer is a
    binary64 value. *)
Definition double_of_UINT32 (x : Z) : float := PrimFloat.of_uint63 (Uint63.of_Z x).

(** ** Status codes *)

(** The [NTSTATUS] values the handlers return (macros of ntstatus.h). *)
Inductive NTSTATUS : Set :=
| STATUS_SUCCESS
| STATUS_UNSUCCESSFUL
| STATUS_NOT_SUPPORTED
| STATUS_INVALID_PARAMETER.

(** [if (status)]: every status but [STATUS_SUCCESS] (which is 0) is non-zero. *)
Definition NTSTATUS_nonzero (s : NTSTATUS) : bool :=
  match s with STATUS_SUCCESS => false | _ => true end.

(** The [HRESULT] values the PE side returns (macros of winerror.h). *)
Inductive HRESULT : Set :=
| S_OK
| E_NOTIMPL
| E_FAIL
| E_OUTOFMEMORY
| E_NOINTERFACE.

(** ** Events: every call that leaves the program *)

Record RsvgRectangle : Set := mkRsvgRectangle {
  rect_x : float;
  rect_y : float;
  rect_width : float;
  rect_height : float
}.

Inductive event : Set :=
(* the dynamic loader *)
| Ev_dlopen (name : string) (result : ptr)
| Ev_dlsym (lib : ptr) (name : string) (result : ptr)
| Ev_dlclose (lib : ptr)
(* librsvg and glib, through the p_ pointers *)
| Ev_rsvg_handle_new_from_data (data : ptr) (data_len : Z) (result error : ptr)
| Ev_g_error_free (error : ptr)
| Ev_g_object_unref (object : ptr)
| Ev_rsvg_handle_render_document (handle cr : ptr) (viewport : RsvgRectangle)
(* cairo, through the p_ pointers *)
| Ev_cairo_image_surface_create_for_data
    (data : ptr) (format width height stride : Z) (result : ptr)
| Ev_cairo_create (surface : ptr) (result : ptr)
| Ev_cairo_destroy (cr : ptr)
| Ev_cairo_surface_destroy (surface : ptr)
| Ev_cairo_scale (cr : ptr) (sx sy : float)
(* the x87 reset *)
| Ev_fninit
(* the PE side: process heap, the input stream, the owning factory *)
| Ev_HeapAlloc (zero : bool) (size : Z) (result : ptr)
| Ev_HeapFree (mem : ptr)
| Ev_IStream_Stat (stream : ptr)
| Ev_IStream_Read (stream buffer : ptr) (len : Z)
| Ev_ID2D1Factory_AddRef (factory : ptr)
| Ev_ID2D1Factory_Release (factory : ptr).

Definition trace := list event.

(** Calls into librsvg, glib or cairo (the calls made through a cached
    function pointer). *)
Definition is_native_call (e : event) : bool :=
  match e with
  | Ev_rsvg_handle_new_from_data _ _ _ _ | Ev_g_error_free _ | Ev_g_object_unref _
  | Ev_rsvg_handle_render_document _ _ _
  | Ev_cairo_image_surface_create_for_data _ _ _ _ _ _ | Ev_cairo_create _ _
  | Ev_cairo_destroy _ | Ev_cairo_surface_destroy _ | Ev_cairo_scale _ _ _ => true
  | _ => false
  end.

(** Calls to the dynamic loader. *)
Definition is_loader_call (e : event) : bool :=
  match e with
  | Ev_dlopen _ _ | Ev_dlsym _ _ _ | Ev_dlclose _ => true
  | _ => false
  end.

(** The calls that draw: scaling the context and rendering the document. *)
Definition is_drawing_call (e : event) : bool :=
  match e with
  | Ev_cairo_scale _ _ _ | Ev_rsvg_handle_render_document _ _ _ => true
  | _ => false
  end.

Definition is_cairo_destroy (e : event) : bool :=
  match e with Ev_cairo_destroy _ => true | _ => false end.

Definition is_cairo_surface_destroy (e : event) : bool :=
  match e with Ev_cairo_surface_destroy _ => true | _ => false end.

Definition is_fninit (e : event) : bool :=
  match e with Ev_fninit => true | _ => false end.

Definition is_dlopen (e : event) : bool :=
  match e with Ev_dlopen _ _ => true | _ => false end.

Definition is_dlsym (e : event) : bool :=
  match e with Ev_dlsym _ _ _ => true | _ => false end.

Definition count (f : event -> bool) (t : trace) : nat :=
  List.length (List.filter f t).

(** ** The monad: state, trace of events, faults *)

Inductive outcome (S A : Type) : Type :=
| Returned (a : A) (s : S) (t : trace)
| Fault (t : trace).
Arguments Returned {S A} a s t.
Arguments Fault {S A} t.

Definition M (S A : Type) : Type := S -> outcome S A.

Definition ret {S A} (a : A) : M S A := fun s => Returned a s [].

Definition bind {S A B} (m : M S A) (k : A -> M S B) : M S B :=
  fun s =>
    match m s with
    | Returned a s1 t1 =>
        match k a s1 with
        | Returned b s2 t2 => Returned b s2 (t1 ++ t2)
        | Fault t2 => Fault (t1 ++ t2)
        end
    | Fault t1 => Fault t1
    end.

Definition gets {S A} (f : S -> A) : M S A := fun s => Returned (f s) s [].
Definition modify {S} (f : S -> S) : M S unit := fun s => Returned tt (f s) [].
Definition emit {S} (e : event) : M S unit := fun s => Returned tt s [e].
Definition fault {S A} : M S A := fun _ => Fault [].

(** [if (c) stmt;] *)
Definition when {S} (c : bool) (m : M S unit) : M S unit :=
  if c then m else ret tt.

(** A call through the function pointer [fp]. *)
Definition call_through {S A} (fp : ptr) (m : M S A) : M S A :=
  if is_null fp then fault else m.

Declare Scope monad_scope.
Delimit Scope monad_scope with monad.
Notation "x <- m ;; k" := (bind m (fun x => k))
  (at level 100, m at next level, right associativity) : monad_scope.
Notation "m ;;; k" := (bind m (fun _ => k))
  (at level 100, right associativity) : monad_scope.
Open Scope monad_scope.

(** ** The outside world *)

(** What the environment answers during one call.  Nothing here is fixed by
    the program: whether a library can be opened, which symbols it exports,
    whether a document parses, whether cairo can create a surface or a
    context, what the heap and the stream return. *)
Record world : Type := mkWorld {
  w_dlopen : string -> ptr;
  w_dlsym : ptr -> string -> ptr;
  (* the returned handle and the error object stored through [GError **] *)
  w_rsvg_handle_new_from_data : ptr -> Z -> ptr * ptr;
  w_cairo_image_surface_create_for_data : ptr -> Z -> Z -> Z -> Z -> ptr;
  w_cairo_create : ptr -> ptr;
  (* PE side *)
  w_unixlib_handle : Z;                       (* __wine_unixlib_handle *)
  w_IStream_Stat : ptr -> option Z;           (* cbSize, or FAILED *)
  w_IStream_Read : ptr -> ptr -> Z -> option Z; (* read_len, or FAILED *)
  w_HeapAlloc : bool -> Z -> ptr
}.

(** * The Unix side (unixlib.c) *)

(** The file's static variables. *)
Record unix_globals : Set := mkGlobals {
  libcairo : ptr;
  p_cairo_image_surface_create_for_data : ptr;
  p_cairo_create : ptr;
  p_cairo_destroy : ptr;
  p_cairo_surface_destroy : ptr;
  p_cairo_scale : ptr;
  librsvg_so : ptr;
  p_rsvg_handle_new_from_data : ptr;
  p_rsvg_handle_render_document : ptr;
  p_g_object_unref : ptr;
  p_g_error_free : ptr
}.

(** Static storage starts zeroed. *)
Definition initial_globals : unix_globals :=
  mkGlobals NULL NULL NULL NULL NULL NULL NULL NULL NULL NULL NULL.

Definition set_libcairo (v : ptr) (g : unix_globals) : unix_globals :=
  mkGlobals v (p_cairo_image_surface_create_for_data g) (p_cairo_create g)
    (p_cairo_destroy g) (p_cairo_surface_destroy g) (p_cairo_scale g)
    (librsvg_so g) (p_rsvg_handle_new_from_data g)
    (p_rsvg_handle_render_document g) (p_g_object_unref g) (p_g_error_free g).

Definition set_p_cairo_image_surface_create_for_data (v : ptr) (g : unix_globals) :=
  mkGlobals (libcairo g) v (p_cairo_create g)
    (p_cairo_destroy g) (p_cairo_surface_destroy g) (p_cairo_scale g)
    (librsvg_so g) (p_rsvg_handle_new_from_data g)
    (p_rsvg_handle_render_document g) (p_g_object_unref g) (p_g_error_free g).

Definition set_p_cairo_create (v : ptr) (g : unix_globals) :=
  mkGlobals (libcairo g) (p_cairo_image_surface_create_for_data g) v
    (p_cairo_destroy g) (p_cairo_surface_destroy g) (p_cairo_scale g)
    (librsvg_so g) (p_rsvg_handle_new_from_data g)
    (p_rsvg_handle_render_document g) (p_g_object_unref g) (p_g_error_free g).

Definition set_p_cairo_destroy (v : ptr) (g : unix_globals) :=
  mkGlobals (libcairo g) (p_cairo_image_surface_create_for_data g) (p_cairo_create g)
    v (p_cairo_surface_destroy g) (p_cairo_scale g)
    (librsvg_so g) (p_rsvg_handle_new_from_data g)
    (p_rsvg_handle_render_document g) (p_g_object_unref g) (p_g_error_free g).

Definition set_p_cairo_surface_destroy (v : ptr) (g : unix_globals) :=
  mkGlobals (libcairo g) (p_cairo_image_surface_create_for_data g) (p_cairo_create g)
    (p_cairo_destroy g) v (p_cairo_scale g)
    (librsvg_so g) (p_rsvg_handle_new_from_data g)
    (p_rsvg_handle_render_document g) (p_g_object_unref g) (p_g_error_free g).

Definition set_p_cairo_scale (v : ptr) (g : unix_globals) :=
  mkGlobals (libcairo g) (p_cairo_image_surface_create_for_data g) (p_cairo_create g)
    (p_cairo_destroy g) (p_cairo_surface_destroy g) v
    (librsvg_so g) (p_rsvg_handle_new_from_data g)
    (p_rsvg_handle_render_document g) (p_g_object_unref g) (p_g_error_free g).

Definition set_librsvg_so (v : ptr) (g : unix_globals) :=
  mkGlobals (libcairo g) (p_cairo_image_surface_create_for_data g) (p_cairo_create g)
    (p_cairo_destroy g) (p_cairo_surface_destroy g) (p_cairo_scale g)
    v (p_rsvg_handle_new_from_data g)
    (p_rsvg_handle_render_document g) (p_g_object_unref g) (p_g_error_free g).

Definition set_p_rsvg_handle_new_from_data (v : ptr) (g : unix_globals) :=
  mkGlobals (libcairo g) (p_cairo_image_surface_create_for_data g) (p_cairo_create g)
    (p_cairo_destroy g) (p_cairo_surface_destroy g) (p_cairo_scale g)
    (librsvg_so g) v
    (p_rsvg_handle_render_document g) (p_g_object_unref g) (p_g_error_free g).

Definition set_p_rsvg_handle_render_document (v : ptr) (g : unix_globals) :=
  mkGlobals (libcairo g) (p_cairo_image_surface_create_for_data g) (p_cairo_create g)
    (p_cairo_destroy g) (p_cairo_surface_destroy g) (p_cairo_scale g)
    (librsvg_so g) (p_rsvg_handle_new_from_data g)
    v (p_g_object_unref g) (p_g_error_free g).

Definition set_p_g_object_unref (v : ptr) (g : unix_globals) :=
  mkGlobals (libcairo g) (p_cairo_image_surface_create_for_data g) (p_cairo_create g)
    (p_cairo_destroy g) (p_cairo_surface_destroy g) (p_cairo_scale g)
    (librsvg_so g) (p_rsvg_handle_new_from_data g)
    (p_rsvg_handle_render_document g) v (p_g_error_free g).

Definition set_p_g_error_free (v : ptr) (g : unix_globals) :=
  mkGlobals (libcairo g) (p_cairo_image_surface_create_for_data g) (p_cairo_create g)
    (p_cairo_destroy g) (p_cairo_surface_destroy g) (p_cairo_scale g)
    (librsvg_so g) (p_rsvg_handle_new_from_data g)
    (p_rsvg_handle_render_document g) (p_g_object_unref g) v.

(** The parameter blocks of unixlib.h. *)
Record rsvg_create_params : Set := mkCreateParams {
  create_data : ptr;    (* in:  SVG XML data *)
  create_size : Z;      (* in:  size of data *)
  create_handle : ptr   (* out: RsvgHandle* on success *)
}.

Record rsvg_free_params : Set := mkFreeParams {
  free_handle : ptr     (* in: RsvgHandle* to free *)
}.

Record rsvg_render_params : Set := mkRenderParams {
  render_handle : ptr;  (* in: RsvgHandle* *)
  pixels : ptr;         (* in: pointer to bitmap pixels *)
  svg_width : float;    (* in: viewport width *)
  svg_height : float;   (* in: viewport height *)
  width : Z;            (* in: bitmap width *)
  height : Z;           (* in: bitmap height *)
  stride : Z;           (* in: bytes per row *)
  padding : Z
}.

(** A [UINT32] argument passed where the callee takes an [int]. *)
Definition int_of_UINT32 (x : Z) : Z := if x <? 2 ^ 31 then x else x - 2 ^ 32.

(** The viewport gate of [rsvg_render]: [svg_width <= 0.01 && svg_height <= 0.01]. *)
Definition viewport_rejected (params : rsvg_render_params) : bool :=
  (svg_width params <=? 0.01)%float && (svg_height params <=? 0.01)%float.

(** The dimension gate: [width == 0 || height == 0 || stride == 0]. *)
Definition dimensions_rejected (params : rsvg_render_params) : bool :=
  (width params =? 0) || (height params =? 0) || (stride params =? 0).

Definition scale_x (params : rsvg_render_params) : float :=
  (double_of_UINT32 (width params) / svg_width params)%float.

Definition scale_y (params : rsvg_render_params) : float :=
  (double_of_UINT32 (height params) / svg_height params)%float.

(** The scale gate:
    [scale_x <= 0.0 || scale_x > 1000.0 || scale_y <= 0.0 || scale_y > 1000.0]. *)
Definition scale_rejected (params : rsvg_render_params) : bool :=
  (scale_x params <=? 0)%float || (1000 <? scale_x params)%float
  || (scale_y params <=? 0)%float || (1000 <? scale_y params)%float.

Section Unixlib.
Variable w : world.

(** *** The dynamic loader *)

Definition dlopen (name : string) : M unix_globals ptr :=
  emit (Ev_dlopen name (w_dlopen w name)) ;;; ret (w_dlopen w name).

Definition dlsym (lib : ptr) (name : string) : M unix_globals ptr :=
  emit (Ev_dlsym lib name (w_dlsym w lib name)) ;;; ret (w_dlsym w lib name).

Definition dlclose (lib : ptr) : M unix_globals unit := emit (Ev_dlclose lib).

(** *** Calls through the cached function pointers *)

Definition call_rsvg_handle_new_from_data (data : ptr) (data_len : Z)
  : M unix_globals (ptr * ptr) :=
  fp <- gets p_rsvg_handle_new_from_data ;;
  call_through fp
    (let r := w_rsvg_handle_new_from_data w data data_len in
     emit (Ev_rsvg_handle_new_from_data data data_len (fst r) (snd r)) ;;; ret r).

Definition call_g_error_free (error : ptr) : M unix_globals unit :=
  fp <- gets p_g_error_free ;;
  call_through fp (emit (Ev_g_error_free error)).

Definition call_g_object_unref (object : ptr) : M unix_globals unit :=
  fp <- gets p_g_object_unref ;;
  call_through fp (emit (Ev_g_object_unref object)).

Definition call_rsvg_handle_render_document (handle cr : ptr) (viewport : RsvgRectangle)
  : M unix_globals unit :=
  fp <- gets p_rsvg_handle_render_document ;;
  call_through fp (emit (Ev_rsvg_handle_render_document handle cr viewport)).

Definition call_cairo_image_surface_create_for_data
    (data : ptr) (format width height stride : Z) : M unix_globals ptr :=
  fp <- gets p_cairo_image_surface_create_for_data ;;
  call_through fp
    (let r := w_cairo_image_surface_create_for_data w data format width height stride in
     emit (Ev_cairo_image_surface_create_for_data data format width height stride r) ;;;
     ret r).

Definition call_cairo_create (surface : ptr) : M unix_globals ptr :=
  fp <- gets p_cairo_create ;;
  call_through fp
    (emit (Ev_cairo_create surface (w_cairo_create w surface)) ;;;
     ret (w_cairo_create w surface)).

Definition call_cairo_destroy (cr : ptr) : M unix_globals unit :=
  fp <- gets p_cairo_destroy ;;
  call_through fp (emit (Ev_cairo_destroy cr)).

Definition call_cairo_surface_destroy (surface : ptr) : M unix_globals unit :=
  fp <- gets p_cairo_surface_destroy ;;
  call_through fp (emit (Ev_cairo_surface_destroy surface)).

Definition call_cairo_scale (cr : ptr) (sx sy : float) : M unix_globals unit :=
  fp <- gets p_cairo_scale ;;
  call_through fp (emit (Ev_cairo_scale cr sx sy)).

(** [__asm__ volatile ("fninit")] *)
Definition fninit : M unix_globals unit := emit Ev_fninit.

(** *** load_librsvg *)

(** The check after the four [dlsym] calls. *)
Definition librsvg_symbol_missing (g : unix_globals) : bool :=
  is_null (p_rsvg_handle_new_from_data g) || is_null (p_g_object_unref g)
  || is_null (p_g_error_free g) || is_null (p_rsvg_handle_render_document g).

Definition load_librsvg : M unix_globals bool :=
  so <- gets librsvg_so ;;
  if non_null so then ret true else
  so <- dlopen "librsvg-2.so.2" ;;
  modify (set_librsvg_so so) ;;;
  if is_null so then ret false else
  f <- dlsym so "rsvg_handle_new_from_data" ;;
  modify (set_p_rsvg_handle_new_from_data f) ;;;
  f <- dlsym so "g_object_unref" ;;
  modify (set_p_g_object_unref f) ;;;
  f <- dlsym so "g_error_free" ;;
  modify (set_p_g_error_free f) ;;;
  f <- dlsym so "rsvg_handle_render_document" ;;
  modify (set_p_rsvg_handle_render_document f) ;;;
  missing <- gets librsvg_symbol_missing ;;
  if missing then
    dlclose so ;;;
    modify (set_librsvg_so NULL) ;;;
    ret false
  else ret true.

(** *** load_cairo *)

(** The check after the five [dlsym] calls. *)
Definition cairo_symbol_missing (g : unix_globals) : bool :=
  is_null (p_cairo_image_surface_create_for_data g) || is_null (p_cairo_create g).

Definition load_cairo : M unix_globals bool :=
  so <- gets libcairo ;;
  if non_null so then ret true else
  so <- dlopen "libcairo.so.2" ;;
  modify (set_libcairo so) ;;;
  if is_null so then ret false else
  f <- dlsym so "cairo_image_surface_create_for_data" ;;
  modify (set_p_cairo_image_surface_create_for_data f) ;;;
  f <- dlsym so "cairo_create" ;;
  modify (set_p_cairo_create f) ;;;
  f <- dlsym so "cairo_destroy" ;;
  modify (set_p_cairo_destroy f) ;;;
  f <- dlsym so "cairo_surface_destroy" ;;
  modify (set_p_cairo_surface_destroy f) ;;;
  f <- dlsym so "cairo_scale" ;;
  modify (set_p_cairo_scale f) ;;;
  missing <- gets cairo_symbol_missing ;;
  if missing then
    dlclose so ;;;
    modify (set_libcairo NULL) ;;;
    ret false
  else ret true.

(** *** rsvg_create_handle *)

(** Returns the status and the parameter block as the handler leaves it. *)
Definition rsvg_create_handle (params : rsvg_create_params)
  : M unix_globals (NTSTATUS * rsvg_create_params) :=
  let params := mkCreateParams (create_data params) (create_size params) NULL in
  loaded <- load_librsvg ;;
  if negb loaded then ret (STATUS_NOT_SUPPORTED, params) else
  r <- call_rsvg_handle_new_from_data (create_data params) (create_size params) ;;
  let error := snd r in
  let params := mkCreateParams (create_data params) (create_size params) (fst r) in
  if is_null (create_handle params) then
    when (non_null error) (call_g_error_free error) ;;;
    ret (STATUS_UNSUCCESSFUL, params)
  else ret (STATUS_SUCCESS, params).

(** *** rsvg_free_handle *)

Definition rsvg_free_handle (params : rsvg_free_params) : M unix_globals NTSTATUS :=
  fp <- gets p_g_object_unref ;;
  when (non_null (free_handle params) && non_null fp)
    (call_g_object_unref (free_handle params)) ;;;
  ret STATUS_SUCCESS.

(** *** rsvg_render *)

(** The condition [!load_librsvg() || !load_cairo()]: cairo is tried only
    once librsvg is loaded. *)
Definition libraries_unavailable : M unix_globals bool :=
  rsvg_loaded <- load_librsvg ;;
  if negb rsvg_loaded then ret true else
  cairo_loaded <- load_cairo ;;
  ret (negb cairo_loaded).

(** The locals that are live at the label [done]. *)
Record render_locals : Set := mkLocals {
  l_ret : NTSTATUS;
  l_surface : ptr;
  l_cr : ptr
}.

(** The function up to the label [done]: every [goto done] and the fall
    through return the locals as they are at that point. *)
Definition rsvg_render_gates (params : rsvg_render_params) : M unix_globals render_locals :=
  if is_null (render_handle params) || is_null (pixels params) then
    ret (mkLocals STATUS_INVALID_PARAMETER NULL NULL)
  else if viewport_rejected params then
    ret (mkLocals STATUS_INVALID_PARAMETER NULL NULL)
  else if dimensions_rejected params then
    ret (mkLocals STATUS_INVALID_PARAMETER NULL NULL)
  else
    unavailable <- libraries_unavailable ;;
    if unavailable then ret (mkLocals STATUS_NOT_SUPPORTED NULL NULL) else
    fp <- gets p_rsvg_handle_render_document ;;
    if is_null fp then ret (mkLocals STATUS_NOT_SUPPORTED NULL NULL) else
    surface <- call_cairo_image_surface_create_for_data (pixels params)
                 0 (* CAIRO_FORMAT_ARGB32 *)
                 (int_of_UINT32 (width params)) (int_of_UINT32 (height params))
                 (int_of_UINT32 (stride params)) ;;
    if is_null surface then ret (mkLocals STATUS_UNSUCCESSFUL surface NULL) else
    cr <- call_cairo_create surface ;;
    if is_null cr then
      call_cairo_surface_destroy surface ;;;
      ret (mkLocals STATUS_UNSUCCESSFUL surface cr)
    else
    if scale_rejected params then
      ret (mkLocals STATUS_INVALID_PARAMETER surface cr)
    else
    call_cairo_scale cr (scale_x params) (scale_y params) ;;;
    let viewport := mkRsvgRectangle 0 0 (svg_width params) (svg_height params) in
    call_rsvg_handle_render_document (render_handle params) cr viewport ;;;
    ret (mkLocals STATUS_SUCCESS surface cr).

(** The code from [done:] to the return. *)
Definition rsvg_render_done (l : render_locals) : M unix_globals NTSTATUS :=
  when (non_null (l_cr l)) (call_cairo_destroy (l_cr l)) ;;;
  when (non_null (l_surface l)) (call_cairo_surface_destroy (l_surface l)) ;;;
  fninit ;;;
  ret (l_ret l).

Definition rsvg_render (params : rsvg_render_params) : M unix_globals NTSTATUS :=
  l <- rsvg_render_gates params ;;
  rsvg_render_done l.

End Unixlib.

(** The table [__wine_unix_call_funcs], indexed by [enum d2d1_unix_funcs].
    Each handler receives the parameter block of its own command. *)
Inductive d2d1_unix_funcs : Set :=
| unix_rsvg_create_handle
| unix_rsvg_free_handle
| unix_rsvg_render.

Definition unix_args (code : d2d1_unix_funcs) : Set :=
  match code with
  | unix_rsvg_create_handle => rsvg_create_params
  | unix_rsvg_free_handle => rsvg_free_params
  | unix_rsvg_render => rsvg_render_params
  end.

Definition unix_result (code : d2d1_unix_funcs) : Set :=
  match code with
  | unix_rsvg_create_handle => (NTSTATUS * rsvg_create_params)%type
  | unix_rsvg_free_handle => NTSTATUS
  | unix_rsvg_render => NTSTATUS
  end.

Definition __wine_unix_call_funcs (w : world) (code : d2d1_unix_funcs)
  : unix_args code -> M unix_globals (unix_result code) :=
  match code with
  | unix_rsvg_create_handle => rsvg_create_handle w
  | unix_rsvg_free_handle => rsvg_free_handle
  | unix_rsvg_render => rsvg_render w
  end.

(** * The PE side (svg.c) *)

(** [struct d2d_svg_document], by the fields svg.c reads and writes (the
    vtable pointer of [ID2D1Resource_iface] is constant and left out; the
    interface is the object's first member, so [impl_from_ID2D1Resource]
    maps an interface pointer to the same address). *)
Record d2d_svg_document : Set := mkDocument {
  refcount : Z;                   (* LONG, kept by its 32 bits *)
  viewport_size : float * float;  (* D2D1_SIZE_F *)
  rsvg_handle : ptr;
  factory : ptr
}.

Definition set_refcount (n : Z) (d : d2d_svg_document) : d2d_svg_document :=
  mkDocument n (viewport_size d) (rsvg_handle d) (factory d).

(** The process: the Unix side's globals and the live document objects on
    the process heap, by address. *)
Record process : Type := mkProcess {
  unix : unix_globals;
  objects : gmap Z d2d_svg_document
}.

Definition set_objects (os : gmap Z d2d_svg_document) (s : process) : process :=
  mkProcess (unix s) os.

(** Running a Unix-side computation inside the process. *)
Definition on_unix {A} (m : M unix_globals A) : M process A :=
  fun s =>
    match m (unix s) with
    | Returned a g t => Returned a (mkProcess g (objects s)) t
    | Fault t => Fault t
    end.

Section Svg.
Variable w : world.
(** [sizeof(struct d2d_svg_document)] *)
Variable sizeof_d2d_svg_document : Z.

(** [UNIX_CALL(func, params)] *)
Definition UNIX_CALL (code : d2d1_unix_funcs) (params : unix_args code)
  : M process (unix_result code) :=
  on_unix (__wine_unix_call_funcs w code params).

Definition heap_alloc (size : Z) : M process ptr :=
  emit (Ev_HeapAlloc false size (w_HeapAlloc w false size)) ;;;
  ret (w_HeapAlloc w false size).

Definition heap_alloc_zero (size : Z) : M process ptr :=
  emit (Ev_HeapAlloc true size (w_HeapAlloc w true size)) ;;;
  ret (w_HeapAlloc w true size).

(** [heap_free]: the block is returned to the heap; a document that lived
    there is gone. *)
Definition heap_free (mem : ptr) : M process unit :=
  emit (Ev_HeapFree mem) ;;;
  os <- gets objects ;;
  modify (set_objects (delete mem os)).

(** Reading a field of the document at [obj]; touching memory that holds no
    live document is a fault. *)
Definition load_document (obj : ptr) : M process d2d_svg_document :=
  os <- gets objects ;;
  match os !! obj with
  | Some d => ret d
  | None => fault
  end.

Definition InterlockedIncrement_refcount (obj : ptr) : M process Z :=
  d <- load_document obj ;;
  let n := wrap32 (refcount d + 1) in
  os <- gets objects ;;
  modify (set_objects (<[obj := set_refcount n d]> os)) ;;;
  ret n.

Definition InterlockedDecrement_refcount (obj : ptr) : M process Z :=
  d <- load_document obj ;;
  let n := wrap32 (refcount d - 1) in
  os <- gets objects ;;
  modify (set_objects (<[obj := set_refcount n d]> os)) ;;;
  ret n.

Definition d2d_svg_document_AddRef (iface : ptr) : M process Z :=
  let document := iface in
  refcount <- InterlockedIncrement_refcount document ;;
  ret refcount.

Definition d2d_svg_document_Release (iface : ptr) : M process Z :=
  let document := iface in
  refcount <- InterlockedDecrement_refcount document ;;
  when (refcount =? 0)
    (d <- load_document document ;;
     (* Free the librsvg handle via the unix lib *)
     when (non_null (rsvg_handle d) && negb (w_unixlib_handle w =? 0))
       (UNIX_CALL unix_rsvg_free_handle (mkFreeParams (rsvg_handle d)) ;;; ret tt) ;;;
     when (non_null (factory d)) (emit (Ev_ID2D1Factory_Release (factory d))) ;;;
     heap_free document) ;;;
  ret refcount.

(** [IStream_Stat] and [IStream_Read] are COM calls: the method is fetched
    through [stream->lpVtbl], so on a null [stream] no call is made and the
    caller does not return. *)
Definition IStream_Stat (stream : ptr) : M process (option Z) :=
  call_through stream
    (emit (Ev_IStream_Stat stream) ;;; ret (w_IStream_Stat w stream)).

Definition IStream_Read (stream buffer : ptr) (cb : Z) : M process (option Z) :=
  call_through stream
    (emit (Ev_IStream_Read stream buffer cb) ;;; ret (w_IStream_Read w stream buffer cb)).

(** [d2d_svg_document_create]: the [HRESULT], and the object stored through
    [document] when one is ([document] is written only on success).
    [context_factory] is [context->factory]. *)
Definition d2d_svg_document_create (context_factory stream : ptr)
    (viewport : float * float) : M process (HRESULT * option ptr) :=
  (* Check unix lib is available *)
  if w_unixlib_handle w =? 0 then ret (E_NOTIMPL, None) else
  (* Read the SVG stream into a buffer *)
  stat <- IStream_Stat stream ;;
  match stat with
  | None => ret (E_FAIL, None)
  | Some cbSize =>
      buffer <- heap_alloc cbSize ;;
      if is_null buffer then ret (E_OUTOFMEMORY, None) else
      rd <- IStream_Read stream buffer (wrap32 cbSize) ;;
      match rd with
      | None => heap_free buffer ;;; ret (E_FAIL, None)
      | Some read_len =>
          (* Ask the Unix side to parse the SVG with librsvg *)
          r <- UNIX_CALL unix_rsvg_create_handle (mkCreateParams buffer read_len NULL) ;;
          let status := fst r in
          let params := snd r in
          heap_free buffer ;;;
          if NTSTATUS_nonzero status then ret (E_FAIL, None) else
          (* Allocate our COM object *)
          object <- heap_alloc_zero sizeof_d2d_svg_document ;;
          if is_null object then
            (* Free the rsvg handle we just created *)
            UNIX_CALL unix_rsvg_free_handle (mkFreeParams (create_handle params)) ;;;
            ret (E_OUTOFMEMORY, None)
          else
            os <- gets objects ;;
            modify (set_objects
                      (<[object := mkDocument 1 viewport (create_handle params)
                                     context_factory]> os)) ;;;
            call_through context_factory (emit (Ev_ID2D1Factory_AddRef context_factory)) ;;;
            ret (S_OK, Some object)
      end
  end.

End Svg.

(** ** The rest of the COM interface *)

(** A [GUID], by the four members of the Windows structure. *)
Record GUID : Set := mkGUID {
  Data1 : Z;
  Data2 : Z;
  Data3 : Z;
  Data4 : list Z
}.

(** [IsEqualGUID]: the sixteen bytes compared. *)
Definition IsEqualGUID (a b : GUID) : bool :=
  (Data1 a =? Data1 b) && (Data2 a =? Data2 b) && (Data3 a =? Data3 b)
  && bool_decide (Data4 a = Data4 b).

Section SvgInterface.
(** The two interface identifiers the object answers to (constants of the
    Windows headers). *)
Variable IID_ID2D1Resource : GUID.
Variable IID_IUnknown : GUID.

(** [d2d_svg_document_QueryInterface]: the [HRESULT] and the pointer stored
    through [out].  [ID2D1Resource_AddRef] on this object is
    [d2d_svg_document_AddRef], the entry of its vtable. *)
Definition d2d_svg_document_QueryInterface (iface : ptr) (iid : GUID)
  : M process (HRESULT * ptr) :=
  if IsEqualGUID iid IID_ID2D1Resource || IsEqualGUID iid IID_IUnknown then
    d2d_svg_document_AddRef iface ;;;
    ret (S_OK, iface)
  else ret (E_NOINTERFACE, NULL).

End SvgInterface.

(** [d2d_svg_document_GetFactory]: the pointer stored through [factory]. *)
Definition d2d_svg_document_GetFactory (iface : ptr) : M process ptr :=
  let document := iface in
  d <- load_document document ;;
  call_through (factory d) (emit (Ev_ID2D1Factory_AddRef (factory d))) ;;;
  ret (factory d).

(** * Scenarios *)

(** Concrete environments and requests used to run the handlers. *)

Definition addr_librsvg : ptr := 0x7f1000.
Definition addr_libcairo : ptr := 0x7f2000.

(** Where a library that exports everything keeps its symbols. *)
Definition symbol_address (name : string) : ptr :=
  if String.eqb name "rsvg_handle_new_from_data" then 0x7f1010
  else if String.eqb name "g_object_unref" then 0x7f1020
  else if String.eqb name "g_error_free" then 0x7f1030
  else if String.eqb name "rsvg_handle_render_document" then 0x7f1040
  else if String.eqb name "cairo_image_surface_create_for_data" then 0x7f2010
  else if String.eqb name "cairo_create" then 0x7f2020
  else if String.eqb name "cairo_destroy" then 0x7f2030
  else if String.eqb name "cairo_surface_destroy" then 0x7f2040
  else if String.eqb name "cairo_scale" then 0x7f2050
  else NULL.

Definition dlopen_installed (name : string) : ptr :=
  if String.eqb name "librsvg-2.so.2" then addr_librsvg
  else if String.eqb name "libcairo.so.2" then addr_libcairo
  else NULL.

(** Both libraries installed and complete; a non-empty buffer parses to the
    handle [0x5000], an empty one fails with the error object [0xe000];
    cairo creates the surface [0x6000] and the context [0x6100]; the stream
    holds 100 bytes; the heap serves the buffer at [0x8000] and the object
    at [0x9000]. *)
Definition world_ok : world :=
  mkWorld dlopen_installed (fun _ name => symbol_address name)
    (fun _ len => if len =? 0 then (NULL, 0xe000) else (0x5000, NULL))
    (fun _ _ _ _ _ => 0x6000) (fun _ => 0x6100)
    1 (fun _ => Some 100) (fun _ _ cb => Some cb)
    (fun zero _ => if zero then 0x9000 else 0x8000).

(** Neither library can be opened. *)
Definition world_no_libraries : world :=
  mkWorld (fun _ => NULL) (fun _ _ => NULL)
    (fun _ _ => (NULL, NULL)) (fun _ _ _ _ _ => NULL) (fun _ => NULL)
    1 (fun _ => Some 100) (fun _ _ cb => Some cb)
    (fun zero _ => if zero then 0x9000 else 0x8000).

(** As [world_ok], but libcairo does not export [cairo_destroy]. *)
Definition world_cairo_without_destroy : world :=
  mkWorld dlopen_installed
    (fun _ name => if String.eqb name "cairo_destroy" then NULL else symbol_address name)
    (w_rsvg_handle_new_from_data world_ok)
    (w_cairo_image_surface_create_for_data world_ok) (w_cairo_create world_ok)
    1 (w_IStream_Stat world_ok) (w_IStream_Read world_ok) (w_HeapAlloc world_ok).

(** As [world_ok], but librsvg does not export [rsvg_handle_render_document]. *)
Definition world_rsvg_without_render : world :=
  mkWorld dlopen_installed
    (fun _ name =>
       if String.eqb name "rsvg_handle_render_document" then NULL else symbol_address name)
    (w_rsvg_handle_new_from_data world_ok)
    (w_cairo_image_surface_create_for_data world_ok) (w_cairo_create world_ok)
    1 (w_IStream_Stat world_ok) (w_IStream_Read world_ok) (w_HeapAlloc world_ok).

(** As [world_ok], but cairo cannot create a drawing context. *)
Definition world_no_context : world :=
  mkWorld dlopen_installed (fun _ name => symbol_address name)
    (w_rsvg_handle_new_from_data world_ok)
    (w_cairo_image_surface_create_for_data world_ok) (fun _ => NULL)
    1 (w_IStream_Stat world_ok) (w_IStream_Read world_ok) (w_HeapAlloc world_ok).

(** As [world_ok], but the heap cannot serve the document object. *)
Definition world_no_object_memory : world :=
  mkWorld dlopen_installed (fun _ name => symbol_address name)
    (w_rsvg_handle_new_from_data world_ok)
    (w_cairo_image_surface_create_for_data world_ok) (w_cairo_create world_ok)
    1 (w_IStream_Stat world_ok) (w_IStream_Read world_ok)
    (fun zero _ => if zero then NULL else 0x8000).

(** As [world_ok], but the unix library of the module is not there. *)
Definition world_no_unixlib : world :=
  mkWorld dlopen_installed (fun _ name => symbol_address name)
    (w_rsvg_handle_new_from_data world_ok)
    (w_cairo_image_surface_create_for_data world_ok) (w_cairo_create world_ok)
    0 (w_IStream_Stat world_ok) (w_IStream_Read world_ok) (w_HeapAlloc world_ok).

(** As [world_ok], but the stream is empty. *)
Definition world_empty_stream : world :=
  mkWorld dlopen_installed (fun _ name => symbol_address name)
    (w_rsvg_handle_new_from_data world_ok)
    (w_cairo_image_surface_create_for_data world_ok) (w_cairo_create world_ok)
    1 (fun _ => Some 0) (w_IStream_Read world_ok) (w_HeapAlloc world_ok).

(** The globals once both libraries are loaded from [world_ok]. *)
Definition loaded_globals : unix_globals :=
  mkGlobals addr_libcairo 0x7f2010 0x7f2020 0x7f2030 0x7f2040 0x7f2050
    addr_librsvg 0x7f1010 0x7f1040 0x7f1020 0x7f1030.

(** A 50x50 bitmap, stride 200, viewport 100x100: scale (0.5, 0.5). *)
Definition request_50x50 : rsvg_render_params :=
  mkRenderParams 0x5000 0xa000 100 100 50 50 200 0.

(** The same bitmap with a viewport 1/64 wide: the horizontal scale is 3200. *)
Definition request_scale_3200 : rsvg_render_params :=
  mkRenderParams 0x5000 0xa000 0.015625 100 50 50 200 0.

(** A one-pixel-wide bitmap with a viewport 1/128 wide (below the 0.01
    threshold) and 100 high: scale (128, 0.5). *)
Definition request_thin_viewport : rsvg_render_params :=
  mkRenderParams 0x5000 0xa000 0.0078125 100 1 50 4 0.

(** A viewport of zero width and zero height. *)
Definition request_zero_viewport : rsvg_render_params :=
  mkRenderParams 0x5000 0xa000 0 0 50 50 200 0.

(** No target buffer. *)
Definition request_null_pixels : rsvg_render_params :=
  mkRenderParams 0x5000 NULL 100 100 50 50 200 0.

(** A process holding one document at [0x9000], as Create leaves it. *)
Definition document_fresh : d2d_svg_document :=
  mkDocument 1 (100%float, 100%float) 0x5000 0xf000.

Definition process_fresh : process :=
  mkProcess loaded_globals {[ 0x9000 := document_fresh ]}.

(** The same document with its 32-bit reference count at its maximum. *)
Definition process_max_refcount : process :=
  mkProcess loaded_globals {[ 0x9000 := set_refcount (2 ^ 32 - 1) document_fresh ]}.

(** A request with a row stride of zero. *)
Definition request_zero_stride : rsvg_render_params :=
  mkRenderParams 0x5000 0xa000 100 100 50 50 0 0.

(** A request whose viewport width is not a number. *)
Definition request_nan_viewport : rsvg_render_params :=
  mkRenderParams 0x5000 0xa000 nan 100 50 50 200 0.

(** As [world_ok], but libcairo cannot be opened. *)
Definition world_no_cairo : world :=
  mkWorld (fun name => if String.eqb name "librsvg-2.so.2" then addr_librsvg else NULL)
    (fun _ name => symbol_address name)
    (w_rsvg_handle_new_from_data world_ok)
    (w_cairo_image_surface_create_for_data world_ok) (w_cairo_create world_ok)
    1 (w_IStream_Stat world_ok) (w_IStream_Read world_ok) (w_HeapAlloc world_ok).

(** As [world_ok], but cairo cannot create a surface. *)
Definition world_no_surface : world :=
  mkWorld dlopen_installed (fun _ name => symbol_address name)
    (w_rsvg_handle_new_from_data world_ok)
    (fun _ _ _ _ _ => NULL) (w_cairo_create world_ok)
    1 (w_IStream_Stat world_ok) (w_IStream_Read world_ok) (w_HeapAlloc world_ok).

(** The globals once librsvg alone is loaded from [world_ok]. *)
Definition librsvg_loaded_globals : unix_globals :=
  mkGlobals NULL NULL NULL NULL NULL NULL
    addr_librsvg 0x7f1010 0x7f1040 0x7f1020 0x7f1030.

(** The interface identifiers as the Windows headers define them, and one
    the object does not implement ([IID_ID2D1Bitmap]). *)
Definition iid_IUnknown : GUID :=
  mkGUID 0x00000000 0x0000 0x0000 [0xc0; 0x00; 0x00; 0x00; 0x00; 0x00; 0x00; 0x46].

Definition iid_ID2D1Resource : GUID :=
  mkGUID 0x2cd90691 0x12e2 0x11dc [0x9f; 0xed; 0x00; 0x11; 0x43; 0xa0; 0x55; 0xf9].

Definition iid_ID2D1Bitmap : GUID :=
  mkGUID 0xa2296057 0xea42 0x4099 [0x98; 0x3b; 0x53; 0x9f; 0xb6; 0x50; 0x54; 0x26].

(** * Vocabulary of the properties *)

(** ** The loaders *)

(** The globals after the four [dlsym] calls of [load_librsvg] on the
    library [so], and the events of those calls. *)
Definition with_librsvg_symbols (w : world) (so : ptr) (g : unix_globals) : unix_globals :=
  set_p_rsvg_handle_render_document (w_dlsym w so "rsvg_handle_render_document")
    (set_p_g_error_free (w_dlsym w so "g_error_free")
       (set_p_g_object_unref (w_dlsym w so "g_object_unref")
          (set_p_rsvg_handle_new_from_data (w_dlsym w so "rsvg_handle_new_from_data")
             (set_librsvg_so so g)))).

Definition librsvg_dlsym_events (w : world) (so : ptr) : trace :=
  [Ev_dlsym so "rsvg_handle_new_from_data" (w_dlsym w so "rsvg_handle_new_from_data");
   Ev_dlsym so "g_object_unref" (w_dlsym w so "g_object_unref");
   Ev_dlsym so "g_error_free" (w_dlsym w so "g_error_free");
   Ev_dlsym so "rsvg_handle_render_document" (w_dlsym w so "rsvg_handle_render_document")].

(** The same for the five [dlsym] calls of [load_cairo]. *)
Definition with_cairo_symbols (w : world) (so : ptr) (g : unix_globals) : unix_globals :=
  set_p_cairo_scale (w_dlsym w so "cairo_scale")
    (set_p_cairo_surface_destroy (w_dlsym w so "cairo_surface_destroy")
       (set_p_cairo_destroy (w_dlsym w so "cairo_destroy")
          (set_p_cairo_create (w_dlsym w so "cairo_create")
             (set_p_cairo_image_surface_create_for_data
                (w_dlsym w so "cairo_image_surface_create_for_data")
                (set_libcairo so g))))).

Definition cairo_dlsym_events (w : world) (so : ptr) : trace :=
  [Ev_dlsym so "cairo_image_surface_create_for_data"
     (w_dlsym w so "cairo_image_surface_create_for_data");
   Ev_dlsym so "cairo_create" (w_dlsym w so "cairo_create");
   Ev_dlsym so "cairo_destroy" (w_dlsym w so "cairo_destroy");
   Ev_dlsym so "cairo_surface_destroy" (w_dlsym w so "cairo_surface_destroy");
   Ev_dlsym so "cairo_scale" (w_dlsym w so "cairo_scale")].

(** The library [name] can be opened in [w] and exports every symbol of [symbols]. *)
Definition exports (w : world) (name : string) (symbols : list string) : Prop :=
  w_dlopen w name <> NULL /\
  forall sym, In sym symbols -> w_dlsym w (w_dlopen w name) sym <> NULL.

Definition librsvg_symbols : list string :=
  ["rsvg_handle_new_from_data"; "g_object_unref"; "g_error_free";
   "rsvg_handle_render_document"]%string.

(** The five symbols [load_cairo] resolves, and the two it checks. *)
Definition cairo_symbols : list string :=
  ["cairo_image_surface_create_for_data"; "cairo_create"; "cairo_destroy";
   "cairo_surface_destroy"; "cairo_scale"]%string.

Definition cairo_checked_symbols : list string :=
  ["cairo_image_surface_create_for_data"; "cairo_create"]%string.

(** The state of a library as the loaders keep it: loaded means the handle
    is non-null. *)
Definition librsvg_inv (g : unix_globals) : Prop :=
  librsvg_so g <> NULL -> librsvg_symbol_missing g = false.

Definition cairo_inv (g : unix_globals) : Prop :=
  libcairo g <> NULL -> cairo_symbol_missing g = false.

(** All five cairo entry points are bound. *)
Definition cairo_complete (g : unix_globals) : bool :=
  non_null (p_cairo_image_surface_create_for_data g) && non_null (p_cairo_create g)
  && non_null (p_cairo_destroy g) && non_null (p_cairo_surface_destroy g)
  && non_null (p_cairo_scale g).

(** What a load operation promises: [load] is the operation, [handle] reads
    the library's handle in the globals, [name] is the shared object and
    [checked] the symbols whose absence fails the load. *)
Record loader_contract (load : world -> M unix_globals bool)
    (handle : unix_globals -> ptr) (name : string) (checked : list string) : Prop := {
  (* already loaded: success at once, nothing resolved again, nothing changed *)
  loader_idempotent : forall w g,
    handle g <> NULL -> load w g = Returned true g [];
  (* the operation always returns *)
  loader_returns : forall w g, exists ok g' t, load w g = Returned ok g' t;
  (* success leaves the library loaded *)
  loader_success : forall w g g' t,
    load w g = Returned true g' t -> handle g' <> NULL;
  (* a load attempt fails exactly when the library or a checked symbol is absent *)
  loader_failure_iff : forall w g g' t ok,
    handle g = NULL -> load w g = Returned ok g' t ->
    (ok = false <-> ~ exports w name checked);
  (* failure: the handle is null again and a library that was opened is closed *)
  loader_failure : forall w g g' t,
    load w g = Returned false g' t ->
    handle g' = NULL /\
    (forall so, In (Ev_dlopen name so) t -> so <> NULL -> In (Ev_dlclose so) t);
  (* after a failure the next call opens the library again, and succeeds if
     the library is by then present with its checked symbols *)
  loader_retry : forall w g g' t w',
    load w g = Returned false g' t ->
    exists ok g'' t',
      load w' g' = Returned ok g'' (Ev_dlopen name (w_dlopen w' name) :: t') /\
      (exports w' name checked -> ok = true)
}.

(** The states of the Unix side a process can be in: the zeroed statics,
    and whatever a command of the dispatch table leaves behind, whatever
    the environment answers. *)
Inductive reachable : unix_globals -> Prop :=
| reachable_initial : reachable initial_globals
| reachable_call (w : world) (code : d2d1_unix_funcs) (args : unix_args code)
    (g g' : unix_globals) (r : unix_result code) (t : trace) :
    reachable g ->
    __wine_unix_call_funcs w code args g = Returned r g' t ->
    reachable g'.

(** ** Resources held across a trace *)

Inductive resource : Set :=
| R_memory (mem : ptr)        (* a block of the process heap *)
| R_handle (handle : ptr)     (* an RsvgHandle *)
| R_error (error : ptr).      (* a GError *)

Definition resource_eqb (a b : resource) : bool :=
  match a, b with
  | R_memory x, R_memory y | R_handle x, R_handle y | R_error x, R_error y => x =? y
  | _, _ => false
  end.

(** What an event hands to the program.  An error object is set only when
    the parse fails (the GError convention). *)
Definition acquired (e : event) : list resource :=
  match e with
  | Ev_HeapAlloc _ _ mem => if is_null mem then [] else [R_memory mem]
  | Ev_rsvg_handle_new_from_data _ _ handle error =>
      if is_null handle then (if is_null error then [] else [R_error error])
      else [R_handle handle]
  | _ => []
  end.

(** What an event gives back. *)
Definition released (e : event) : option resource :=
  match e with
  | Ev_HeapFree mem => Some (R_memory mem)
  | Ev_g_object_unref handle => Some (R_handle handle)
  | Ev_g_error_free error => Some (R_error error)
  | _ => None
  end.

(** Removes the first occurrence. *)
Fixpoint give_back (r : resource) (held : list resource) : list resource :=
  match held with
  | [] => []
  | x :: rest => if resource_eqb r x then rest else x :: give_back r rest
  end.

Fixpoint held_after (held : list resource) (t : trace) : list resource :=
  match t with
  | [] => held
  | e :: rest =>
      let held := match released e with
                  | Some r => give_back r held
                  | None => held
                  end in
      held_after (held ++ acquired e) rest
  end.

(** The resources acquired during [t] and not given back by its end. *)
Definition leaked (t : trace) : list resource := held_after [] t.

(** ** Rendering *)

(** The request's viewport dimensions each exceed the threshold. *)
Definition viewport_exceeds_threshold (params : rsvg_render_params) : bool :=
  (0.01 <? svg_width params)%float && (0.01 <? svg_height params)%float.

(** A scale strictly above 0 and at most 1000. *)
Definition scale_in_range (s : float) : bool := (0 <? s)%float && (s <=? 1000)%float.

(** ** The document object *)

Definition is_HeapFree (e : event) : bool :=
  match e with Ev_HeapFree _ => true | _ => false end.

(** The events of the teardown in [d2d_svg_document_Release]. *)
Definition teardown_events (w : world) (g : unix_globals) (iface : ptr)
    (d : d2d_svg_document) : trace :=
  (if non_null (rsvg_handle d) && negb (w_unixlib_handle w =? 0)
      && non_null (p_g_object_unref g)
   then [Ev_g_object_unref (rsvg_handle d)] else [])
  ++ (if non_null (factory d) then [Ev_ID2D1Factory_Release (factory d)] else [])
  ++ [Ev_HeapFree iface].

(** [n] calls of [m] in a row. *)
Fixpoint times {S A} (n : nat) (m : M S A) : M S unit :=
  match n with
  | O => ret tt
  | Datatypes.S k => m ;;; times k m
  end.

(** The surface and the context cairo hands out for a request, and the
    events of the calls that create them and that draw. *)
Definition request_surface (w : world) (params : rsvg_render_params) : ptr :=
  w_cairo_image_surface_create_for_data w (pixels params) 0
    (int_of_UINT32 (width params)) (int_of_UINT32 (height params))
    (int_of_UINT32 (stride params)).

Definition request_context (w : world) (params : rsvg_render_params) : ptr :=
  w_cairo_create w (request_surface w params).

Definition create_surface (w : world) (params : rsvg_render_params) : event :=
  Ev_cairo_image_surface_create_for_data (pixels params) 0
    (int_of_UINT32 (width params)) (int_of_UINT32 (height params))
    (int_of_UINT32 (stride params)) (request_surface w params).

Definition create_context (w : world) (params : rsvg_render_params) : event :=
  Ev_cairo_create (request_surface w params) (request_context w params).

Definition draw (w : world) (params : rsvg_render_params) : trace :=
  [Ev_cairo_scale (request_context w params) (scale_x params) (scale_y params);
   Ev_rsvg_handle_render_document (render_handle params) (request_context w params)
     (mkRsvgRectangle 0 0 (svg_width params) (svg_height params))].

(** The three gates that precede the loading of the libraries. *)
Definition early_rejected (params : rsvg_render_params) : bool :=
  is_null (render_handle params) || is_null (pixels params)
  || viewport_rejected params || dimensions_rejected params.

(** The ways [rsvg_render] returns: the status, and the events that follow
    those of the loaders, in order. *)
Inductive render_path (w : world) (params : rsvg_render_params)
  : NTSTATUS -> trace -> Prop :=
| path_early_gate :
    early_rejected params = true ->
    render_path w params STATUS_INVALID_PARAMETER [Ev_fninit]
| path_unavailable :
    early_rejected params = false ->
    render_path w params STATUS_NOT_SUPPORTED [Ev_fninit]
| path_no_surface :
    early_rejected params = false ->
    request_surface w params = NULL ->
    render_path w params STATUS_UNSUCCESSFUL [create_surface w params; Ev_fninit]
| path_no_context :
    early_rejected params = false ->
    request_surface w params <> NULL ->
    request_context w params = NULL ->
    render_path w params STATUS_UNSUCCESSFUL
      [create_surface w params; create_context w params;
       Ev_cairo_surface_destroy (request_surface w params);
       Ev_cairo_surface_destroy (request_surface w params);
       Ev_fninit]
| path_scale_rejected :
    early_rejected params = false ->
    request_surface w params <> NULL ->
    request_context w params <> NULL ->
    scale_rejected params = true ->
    render_path w params STATUS_INVALID_PARAMETER
      [create_surface w params; create_context w params;
       Ev_cairo_destroy (request_context w params);
       Ev_cairo_surface_destroy (request_surface w params);
       Ev_fninit]
| path_rendered :
    early_rejected params = false ->
    request_surface w params <> NULL ->
    request_context w params <> NULL ->
    scale_rejected params = false ->
    render_path w params STATUS_SUCCESS
      ([create_surface w params; create_context w params] ++ draw w params ++
       [Ev_cairo_destroy (request_context w params);
        Ev_cairo_surface_destroy (request_surface w params);
        Ev_fninit]).


(** The event [b] directly follows the event [a] in [t]. *)
Definition followed_at_once (a b : event) (t : trace) : Prop :=
  exists t1 t2, t = t1 ++ a :: b :: t2.

(** The process [s] with the reference count of the document [d] at
    [iface] set to [n], and with that document gone. *)
Definition with_refcount (iface : ptr) (n : Z) (d : d2d_svg_document) (s : process)
  : process :=
  mkProcess (unix s) (<[iface := set_refcount n d]> (objects s)).

Definition without_document (iface : ptr) (s : process) : process :=
  mkProcess (unix s) (delete iface (objects s)).

(** A document as [d2d_svg_document_create] builds it, in a process where
    librsvg is loaded: the handle, the factory and the unix library are
    there, and [g_object_unref] is bound. *)
Definition created_document (w : world) (s : process) (d : d2d_svg_document) : Prop :=
  rsvg_handle d <> NULL /\ factory d <> NULL /\
  w_unixlib_handle w <> 0 /\ p_g_object_unref (unix s) <> NULL.

(** ** Vocabulary of the further properties *)

(** What the globals hold about each library. *)
Definition librsvg_part (g : unix_globals) : ptr * ptr * ptr * ptr * ptr :=
  (librsvg_so g, p_rsvg_handle_new_from_data g, p_rsvg_handle_render_document g,
   p_g_object_unref g, p_g_error_free g).

Definition cairo_part (g : unix_globals) : ptr * ptr * ptr * ptr * ptr * ptr :=
  (libcairo g, p_cairo_image_surface_create_for_data g, p_cairo_create g,
   p_cairo_destroy g, p_cairo_surface_destroy g, p_cairo_scale g).

(** Calls that create, consume or release what the parser hands out. *)
Definition is_parser_call (e : event) : bool :=
  match e with
  | Ev_rsvg_handle_new_from_data _ _ _ _ | Ev_g_error_free _ | Ev_g_object_unref _ => true
  | _ => false
  end.

Definition is_factory_call (e : event) : bool :=
  match e with
  | Ev_ID2D1Factory_AddRef _ | Ev_ID2D1Factory_Release _ => true
  | _ => false
  end.

(** The references to the factory a trace leaves taken: AddRefs less
    Releases. *)
Fixpoint factory_references (f : ptr) (t : trace) : Z :=
  match t with
  | [] => 0
  | Ev_ID2D1Factory_AddRef f' :: rest =>
      (if f' =? f then 1 else 0) + factory_references f rest
  | Ev_ID2D1Factory_Release f' :: rest =>
      (if f' =? f then -1 else 0) + factory_references f rest
  | _ :: rest => factory_references f rest
  end.

(** * Properties *)

(** Unfolds the monad and the handlers down to nested conditionals. *)
Ltac step_monad :=
  cbv beta iota zeta delta
    [bind ret gets modify emit when call_through fault dlopen dlsym dlclose fninit
     rsvg_render rsvg_render_gates rsvg_render_done
     rsvg_create_handle rsvg_free_handle
     call_rsvg_handle_new_from_data call_g_error_free call_g_object_unref
     call_rsvg_handle_render_document call_cairo_image_surface_create_for_data
     call_cairo_create call_cairo_destroy call_cairo_surface_destroy call_cairo_scale
     l_ret l_surface l_cr fst snd create_handle create_data create_size free_handle];
  change (non_null NULL) with false;
  change (is_null NULL) with true;
  cbv beta iota.

(** Brings a trace to the form [t1 ++ t2 ++ ... ++ [e1; ...; en]]. *)
Ltac norm_trace := repeat rewrite <- app_assoc; cbn [app]; rewrite ?app_nil_r.


(** Splits on the outermost undecided condition. *)
Ltac case_head :=
  match goal with
  | |- context [if ?c then _ else _] =>
      lazymatch c with
      | context [if _ then _ else _] => fail
      | _ => destruct c eqn:?
      end
  end.

Lemma is_null_true p : is_null p = true <-> p = NULL.
Proof. unfold is_null. apply Z.eqb_eq. Qed.

Lemma is_null_false p : is_null p = false <-> p <> NULL.
Proof. unfold is_null. apply Z.eqb_neq. Qed.

Lemma non_null_true p : non_null p = true <-> p <> NULL.
Proof. unfold non_null. rewrite negb_true_iff. apply Z.eqb_neq. Qed.

Lemma non_null_false p : non_null p = false <-> p = NULL.
Proof. unfold non_null. rewrite negb_false_iff. apply Z.eqb_eq. Qed.

Lemma non_null_is_null p : non_null p = negb (is_null p).
Proof. reflexivity. Qed.

(** Turns the recorded outcomes of null tests into (in)equalities. *)
Ltac null_facts :=
  repeat match goal with
         | H : is_null _ = true |- _ => apply is_null_true in H
         | H : is_null _ = false |- _ => apply is_null_false in H
         | H : non_null _ = true |- _ => apply non_null_true in H
         | H : non_null _ = false |- _ => apply non_null_false in H
         end.

(** ** The loaders *)

Section Loaders.
Variable w : world.

Lemma load_librsvg_loaded g :
  librsvg_so g <> NULL -> load_librsvg w g = Returned true g [].
Proof.
  intros H. apply non_null_true in H. unfold load_librsvg. step_monad. now rewrite H.
Qed.

Lemma load_librsvg_attempt g :
  librsvg_so g = NULL ->
  load_librsvg w g =
    let so := w_dlopen w "librsvg-2.so.2" in
    if is_null so then Returned false (set_librsvg_so so g) [Ev_dlopen "librsvg-2.so.2" so]
    else
      let g1 := with_librsvg_symbols w so g in
      if librsvg_symbol_missing g1 then
        Returned false (set_librsvg_so NULL g1)
          (Ev_dlopen "librsvg-2.so.2" so :: librsvg_dlsym_events w so ++ [Ev_dlclose so])
      else
        Returned true g1 (Ev_dlopen "librsvg-2.so.2" so :: librsvg_dlsym_events w so).
Proof.
  intros H. apply non_null_false in H. unfold load_librsvg. step_monad. rewrite H.
  destruct (is_null (w_dlopen w "librsvg-2.so.2")); [reflexivity|].
  fold (with_librsvg_symbols w (w_dlopen w "librsvg-2.so.2") g).
  destruct (librsvg_symbol_missing _); reflexivity.
Qed.

Lemma load_cairo_loaded g :
  libcairo g <> NULL -> load_cairo w g = Returned true g [].
Proof.
  intros H. apply non_null_true in H. unfold load_cairo. step_monad. now rewrite H.
Qed.

Lemma load_cairo_attempt g :
  libcairo g = NULL ->
  load_cairo w g =
    let so := w_dlopen w "libcairo.so.2" in
    if is_null so then Returned false (set_libcairo so g) [Ev_dlopen "libcairo.so.2" so]
    else
      let g1 := with_cairo_symbols w so g in
      if cairo_symbol_missing g1 then
        Returned false (set_libcairo NULL g1)
          (Ev_dlopen "libcairo.so.2" so :: cairo_dlsym_events w so ++ [Ev_dlclose so])
      else
        Returned true g1 (Ev_dlopen "libcairo.so.2" so :: cairo_dlsym_events w so).
Proof.
  intros H. apply non_null_false in H. unfold load_cairo. step_monad. rewrite H.
  destruct (is_null (w_dlopen w "libcairo.so.2")); [reflexivity|].
  fold (with_cairo_symbols w (w_dlopen w "libcairo.so.2") g).
  destruct (cairo_symbol_missing _); reflexivity.
Qed.

(** The check of [load_librsvg] fails exactly when a symbol is missing from
    the library. *)
Lemma librsvg_symbol_missing_iff so g :
  librsvg_symbol_missing (with_librsvg_symbols w so g) = false <->
  (forall sym, In sym librsvg_symbols -> w_dlsym w so sym <> NULL).
Proof.
  unfold librsvg_symbol_missing, with_librsvg_symbols; cbn.
  rewrite !orb_false_iff, !is_null_false. split.
  - intros [[[H1 H2] H3] H4] sym [<-|[<-|[<-|[<-|[]]]]]; assumption.
  - intros H. repeat split; apply H; cbn; tauto.
Qed.

Lemma cairo_symbol_missing_iff so g :
  cairo_symbol_missing (with_cairo_symbols w so g) = false <->
  (forall sym, In sym cairo_checked_symbols -> w_dlsym w so sym <> NULL).
Proof.
  unfold cairo_symbol_missing, with_cairo_symbols; cbn.
  rewrite !orb_false_iff, !is_null_false. split.
  - intros [H1 H2] sym [<-|[<-|[]]]; assumption.
  - intros H. split; apply H; cbn; tauto.
Qed.

End Loaders.

(** Both loaders have the same shape: the contract is proved once, from the
    two unfolding equations and the meaning of the symbol check. *)
Section LoaderShape.
Variable load : world -> M unix_globals bool.
Variable handle : unix_globals -> ptr.
Variable set_handle : ptr -> unix_globals -> unix_globals.
Variable name : string.
Variable checked : list string.
Variable with_symbols : world -> ptr -> unix_globals -> unix_globals.
Variable symbol_missing : unix_globals -> bool.
Variable dlsym_events : world -> ptr -> trace.

Hypothesis load_loaded : forall w g,
  handle g <> NULL -> load w g = Returned true g [].
Hypothesis load_attempt : forall w g,
  handle g = NULL ->
  load w g =
    let so := w_dlopen w name in
    if is_null so then Returned false (set_handle so g) [Ev_dlopen name so]
    else
      let g1 := with_symbols w so g in
      if symbol_missing g1 then
        Returned false (set_handle NULL g1)
          (Ev_dlopen name so :: dlsym_events w so ++ [Ev_dlclose so])
      else Returned true g1 (Ev_dlopen name so :: dlsym_events w so).
Hypothesis handle_set : forall v g, handle (set_handle v g) = v.
Hypothesis handle_with_symbols : forall w so g, handle (with_symbols w so g) = so.
Hypothesis dlsym_events_not_dlopen : forall w so e,
  In e (dlsym_events w so) -> is_dlopen e = false.
Hypothesis symbol_missing_iff : forall w so g,
  symbol_missing (with_symbols w so g) = false <->
  (forall sym, In sym checked -> w_dlsym w so sym <> NULL).

(** The three ways a load attempt ends. *)
Lemma load_attempt_cases w g :
  handle g = NULL ->
  (w_dlopen w name = NULL /\
   load w g = Returned false (set_handle (w_dlopen w name) g)
                [Ev_dlopen name (w_dlopen w name)]) \/
  (w_dlopen w name <> NULL /\ ~ exports w name checked /\
   load w g = Returned false (set_handle NULL (with_symbols w (w_dlopen w name) g))
                (Ev_dlopen name (w_dlopen w name)
                   :: dlsym_events w (w_dlopen w name) ++ [Ev_dlclose (w_dlopen w name)])) \/
  (exports w name checked /\
   load w g = Returned true (with_symbols w (w_dlopen w name) g)
                (Ev_dlopen name (w_dlopen w name) :: dlsym_events w (w_dlopen w name))).
Proof.
  intros E. rewrite (load_attempt w g E); cbv zeta. unfold exports.
  destruct (is_null (w_dlopen w name)) eqn:Hso.
  - left. apply is_null_true in Hso. auto.
  - right. apply is_null_false in Hso.
    destruct (symbol_missing _) eqn:Hm.
    + left. repeat split; trivial. intros [_ H].
      apply symbol_missing_iff with (g := g) in H. congruence.
    + right. split; [|reflexivity]. split; [assumption|].
      now apply symbol_missing_iff with (g := g).
Qed.

Lemma loader_contract_of_shape : loader_contract load handle name checked.
Proof.
  split.
  - exact load_loaded.
  - intros w g. destruct (Z.eq_dec (handle g) NULL) as [E|E].
    + destruct (load_attempt_cases w g E) as [[_ ->]|[(_ & _ & ->)|[_ ->]]]; eauto.
    + rewrite (load_loaded w g E); eauto.
  - intros w g g' t. destruct (Z.eq_dec (handle g) NULL) as [E|E].
    + destruct (load_attempt_cases w g E) as [[_ ->]|[(_ & _ & ->)|[[Hx _] ->]]];
        intros [= <- <-]. now rewrite handle_with_symbols.
    + rewrite (load_loaded w g E). now intros [= <- <-].
  - intros w g g' t ok E.
    destruct (load_attempt_cases w g E) as [[Hso ->]|[(_ & Hx & ->)|[Hx ->]]];
      intros [= <- <- <-].
    + split; [|reflexivity]. intros _ [H _]. contradiction.
    + tauto.
    + split; [discriminate|contradiction].
  - intros w g g' t. destruct (Z.eq_dec (handle g) NULL) as [E|E].
    + destruct (load_attempt_cases w g E) as [[Hso ->]|[(_ & _ & ->)|[_ ->]]];
        intros [= <- <-]; rewrite handle_set.
      * split; [assumption|]. intros so [[= <-]|[]] Hnn. contradiction.
      * split; [reflexivity|]. intros so [[= <-]|H] _; [|exfalso].
        -- right. apply in_or_app. right. now left.
        -- apply in_app_or in H. destruct H as [H|[H|[]]]; [|discriminate H].
           now apply dlsym_events_not_dlopen in H.
    + rewrite (load_loaded w g E). discriminate.
  - intros w g g' t w' H.
    assert (E' : handle g' = NULL).
    { revert H. destruct (Z.eq_dec (handle g) NULL) as [E|E].
      - destruct (load_attempt_cases w g E) as [[Hso ->]|[(_ & _ & ->)|[_ ->]]];
          intros [= <- <-]; now rewrite handle_set.
      - rewrite (load_loaded w g E). discriminate. }
    destruct (load_attempt_cases w' g' E') as [[Hso ->]|[(_ & Hx & ->)|[Hx ->]]];
      do 3 eexists; (split; [reflexivity|]); try reflexivity; try tauto.
    intros [Hc _]. contradiction.
Qed.

End LoaderShape.

Lemma load_librsvg_contract :
  loader_contract load_librsvg librsvg_so "librsvg-2.so.2" librsvg_symbols.
Proof.
  apply loader_contract_of_shape
    with (set_handle := set_librsvg_so) (with_symbols := with_librsvg_symbols)
         (symbol_missing := librsvg_symbol_missing) (dlsym_events := librsvg_dlsym_events).
  - apply load_librsvg_loaded.
  - apply load_librsvg_attempt.
  - reflexivity.
  - reflexivity.
  - intros w so e H. cbn in H. repeat (destruct H as [<-|H]; [reflexivity|]). destruct H.
  - apply librsvg_symbol_missing_iff.
Qed.

Lemma load_cairo_contract :
  loader_contract load_cairo libcairo "libcairo.so.2" cairo_checked_symbols.
Proof.
  apply loader_contract_of_shape
    with (set_handle := set_libcairo) (with_symbols := with_cairo_symbols)
         (symbol_missing := cairo_symbol_missing) (dlsym_events := cairo_dlsym_events).
  - apply load_cairo_loaded.
  - apply load_cairo_attempt.
  - reflexivity.
  - reflexivity.
  - intros w so e H. cbn in H. repeat (destruct H as [<-|H]; [reflexivity|]). destruct H.
  - apply cairo_symbol_missing_iff.
Qed.

(** C7: the load operation is idempotent and recovers from failure.  For
    the parser library and for the rasterizer library alike: a library
    that is already loaded is reported loaded without touching the
    loader or the globals; a load attempt always returns; it fails exactly
    when the library cannot be opened or a symbol the loader checks is
    missing (for librsvg, any of its four symbols); on failure the handle
    is null again and the library, if it had been opened, is closed; and
    the next call opens the library again instead of remembering the
    failure, succeeding once the library is present with those symbols. *)
Theorem load_idempotent_and_recoverable :
  loader_contract load_librsvg librsvg_so "librsvg-2.so.2" librsvg_symbols /\
  loader_contract load_cairo libcairo "libcairo.so.2" cairo_checked_symbols.
Proof. split; [apply load_librsvg_contract | apply load_cairo_contract]. Qed.

(** A failed first attempt is not remembered: with the libraries installed
    afterwards the same call loads them. *)
Example load_librsvg_retry :
  exists g1 t1 g2 t2,
    load_librsvg world_no_libraries initial_globals = Returned false g1 t1 /\
    librsvg_so g1 = NULL /\
    load_librsvg world_ok g1 = Returned true g2 t2 /\
    librsvg_so g2 = addr_librsvg /\ count is_dlopen t2 = 1%nat.
Proof. do 4 eexists. repeat split; reflexivity. Qed.

(** ** What the loaders guarantee about the cached symbols *)

Section Invariants.
Variable w : world.

(** librsvg: loaded implies all four symbols bound.  Holds initially and is
    kept by the loader. *)
Lemma librsvg_inv_initial : librsvg_inv initial_globals.
Proof. intros H. now contradiction H. Qed.

Lemma load_librsvg_inv g ok g' t :
  librsvg_inv g -> load_librsvg w g = Returned ok g' t ->
  librsvg_inv g' /\ (ok = true -> librsvg_so g' <> NULL /\ librsvg_symbol_missing g' = false)
  /\ libcairo g' = libcairo g
  /\ p_cairo_image_surface_create_for_data g' = p_cairo_image_surface_create_for_data g
  /\ p_cairo_create g' = p_cairo_create g
  /\ p_cairo_destroy g' = p_cairo_destroy g
  /\ p_cairo_surface_destroy g' = p_cairo_surface_destroy g
  /\ p_cairo_scale g' = p_cairo_scale g.
Proof.
  intros Hinv. destruct (Z.eq_dec (librsvg_so g) NULL) as [E|E].
  - rewrite (load_librsvg_attempt w g E); cbv zeta.
    destruct (is_null (w_dlopen w "librsvg-2.so.2")) eqn:Hso;
      [|destruct (librsvg_symbol_missing _) eqn:Hm]; intros [= <- <- <-];
      (split; [|split; [|repeat split; reflexivity]]); try discriminate.
    + intros H. apply is_null_true in Hso. now contradiction H.
    + intros H. now contradiction H.
    + intros _. exact Hm.
    + intros _. split; [|exact Hm]. now apply is_null_false.
  - rewrite (load_librsvg_loaded w g E). intros [= <- <- <-].
    split; [assumption|]. split; [|repeat split; reflexivity]. auto.
Qed.

(** cairo: loaded implies the two checked symbols bound. *)
Lemma cairo_inv_initial : cairo_inv initial_globals.
Proof. intros H. now contradiction H. Qed.

Lemma load_cairo_inv g ok g' t :
  cairo_inv g -> load_cairo w g = Returned ok g' t ->
  cairo_inv g' /\ (ok = true -> libcairo g' <> NULL /\ cairo_symbol_missing g' = false)
  /\ librsvg_so g' = librsvg_so g
  /\ p_rsvg_handle_new_from_data g' = p_rsvg_handle_new_from_data g
  /\ p_rsvg_handle_render_document g' = p_rsvg_handle_render_document g
  /\ p_g_object_unref g' = p_g_object_unref g
  /\ p_g_error_free g' = p_g_error_free g.
Proof.
  intros Hinv. destruct (Z.eq_dec (libcairo g) NULL) as [E|E].
  - rewrite (load_cairo_attempt w g E); cbv zeta.
    destruct (is_null (w_dlopen w "libcairo.so.2")) eqn:Hso;
      [|destruct (cairo_symbol_missing _) eqn:Hm]; intros [= <- <- <-];
      (split; [|split; [|repeat split; reflexivity]]); try discriminate.
    + intros H. apply is_null_true in Hso. now contradiction H.
    + intros H. now contradiction H.
    + intros _. exact Hm.
    + intros _. split; [|exact Hm]. now apply is_null_false.
  - rewrite (load_cairo_loaded w g E). intros [= <- <- <-].
    split; [assumption|]. split; [|repeat split; reflexivity]. auto.
Qed.

End Invariants.

(** C2, evaluated where it fails: libcairo opens and exports everything but
    [cairo_destroy].  [load_cairo] reports success, keeps the library handle,
    never closes the library, and leaves [p_cairo_destroy] null: the library
    counts as loaded with a required symbol unbound. *)
Theorem load_cairo_accepts_missing_symbol :
  exists g' t,
    load_cairo world_cairo_without_destroy initial_globals = Returned true g' t /\
    libcairo g' = addr_libcairo /\
    p_cairo_destroy g' = NULL /\
    cairo_complete g' = false /\
    ~ In (Ev_dlclose addr_libcairo) t.
Proof.
  do 2 eexists. split; [reflexivity|]. repeat split.
  cbn. intros H. repeat (destruct H as [H|H]; [discriminate H|]). destruct H.
Qed.

(** With that library state a render that reaches the teardown calls
    through the null [p_cairo_destroy]: the handler faults after drawing. *)
Example rsvg_render_faults_on_missing_destroy :
  exists t, rsvg_render world_cairo_without_destroy request_50x50 initial_globals = Fault t
            /\ count is_drawing_call t = 2%nat /\ count is_fninit t = 0%nat.
Proof. eexists. repeat split; reflexivity. Qed.

(** A failed load of librsvg leaves the symbols it did resolve in the
    globals: the handle is null while three pointers into the closed
    library are still cached. *)
Example load_librsvg_failure_keeps_symbols :
  exists g' t,
    load_librsvg world_rsvg_without_render initial_globals = Returned false g' t /\
    librsvg_so g' = NULL /\ p_g_object_unref g' = 0x7f1020 /\
    In (Ev_dlclose addr_librsvg) t.
Proof. do 2 eexists. repeat split; try reflexivity. cbn. tauto. Qed.

(** ** rsvg_free_handle *)

Lemma rsvg_free_handle_unfold (params : rsvg_free_params) (g : unix_globals) :
  rsvg_free_handle params g =
    Returned STATUS_SUCCESS g
      (if non_null (free_handle params) && non_null (p_g_object_unref g)
       then [Ev_g_object_unref (free_handle params)] else []).
Proof.
  destruct params as [h]. step_monad. unfold non_null, is_null.
  destruct (h =? NULL); [reflexivity|].
  destruct (p_g_object_unref g =? NULL) eqn:Hfp; cbn; [|rewrite Hfp]; reflexivity.
Qed.

(** C10: the Free command returns [STATUS_SUCCESS] on every input and in
    every state, leaves the globals as they are, and never faults; with a
    null handle, or with [p_g_object_unref] unbound, it makes no call at
    all; otherwise its only call is the one [g_object_unref] of the handle. *)
Theorem rsvg_free_handle_always_succeeds (params : rsvg_free_params) (g : unix_globals) :
  rsvg_free_handle params g =
    Returned STATUS_SUCCESS g
      (if non_null (free_handle params) && non_null (p_g_object_unref g)
       then [Ev_g_object_unref (free_handle params)] else [])
  /\ (free_handle params = NULL \/ p_g_object_unref g = NULL ->
      rsvg_free_handle params g = Returned STATUS_SUCCESS g []).
Proof.
  split; [apply rsvg_free_handle_unfold|].
  rewrite rsvg_free_handle_unfold. intros [H|H]; apply non_null_false in H; rewrite H;
    [reflexivity | now rewrite andb_false_r].
Qed.

(** ** rsvg_render: the gates before any load *)

(** C9: a request whose handle or pixel buffer is null gets
    [STATUS_INVALID_PARAMETER] whatever its other fields, the environment
    and the library state are; nothing is loaded, no native call is made
    (the only event is the final [fninit]) and the globals are unchanged. *)
Theorem rsvg_render_null_argument (w : world) (params : rsvg_render_params)
    (g : unix_globals) :
  render_handle params = NULL \/ pixels params = NULL ->
  rsvg_render w params g = Returned STATUS_INVALID_PARAMETER g [Ev_fninit].
Proof.
  intros H.
  assert (E : is_null (render_handle params) || is_null (pixels params) = true).
  { apply orb_true_iff. destruct H as [H|H]; [left|right]; now apply is_null_true. }
  step_monad. now rewrite E.
Qed.

Lemma rsvg_render_null_argument_witness :
  rsvg_render world_ok request_null_pixels initial_globals
  = Returned STATUS_INVALID_PARAMETER initial_globals [Ev_fninit].
Proof. apply (rsvg_render_null_argument world_ok request_null_pixels). right. reflexivity. Defined.

(** C8, as the code has it: a request whose viewport width and height are
    both at most 0.01 gets [STATUS_INVALID_PARAMETER] before any library is
    loaded and before any native call (the only event is the final
    [fninit]), whatever the other fields are. *)
Theorem rsvg_render_viewport_gate (w : world) (params : rsvg_render_params)
    (g : unix_globals) :
  viewport_rejected params = true ->
  rsvg_render w params g = Returned STATUS_INVALID_PARAMETER g [Ev_fninit].
Proof.
  intros H. step_monad. rewrite H. now destruct (_ || _).
Qed.

(** The zero viewport of the claim. *)
Lemma rsvg_render_viewport_gate_witness :
  svg_width request_zero_viewport = 0%float /\
  svg_height request_zero_viewport = 0%float /\
  rsvg_render world_ok request_zero_viewport initial_globals
  = Returned STATUS_INVALID_PARAMETER initial_globals [Ev_fninit].
Proof.
  split; [reflexivity|]. split; [reflexivity|].
  apply (rsvg_render_viewport_gate world_ok request_zero_viewport). reflexivity.
Defined.

(** C8 as stated fails: the width 1/128 does not exceed the threshold, the
    height does, and the request is rendered with status
    [STATUS_SUCCESS]. *)
Lemma rsvg_render_thin_viewport_accepted :
  viewport_exceeds_threshold request_thin_viewport = false /\
  exists t,
    rsvg_render world_ok request_thin_viewport loaded_globals
    = Returned STATUS_SUCCESS loaded_globals t /\
    count is_drawing_call t = 2%nat.
Proof. split; [reflexivity|]. eexists. split; reflexivity. Qed.


(** ** rsvg_render: the whole function *)

Section Render.
Variable w : world.

Lemma load_librsvg_trace g ok g' t :
  load_librsvg w g = Returned ok g' t -> forallb is_loader_call t = true.
Proof.
  destruct (Z.eq_dec (librsvg_so g) NULL) as [E|E].
  - rewrite (load_librsvg_attempt w g E); cbv zeta.
    repeat case_head; intros [= <- <- <-]; reflexivity.
  - rewrite (load_librsvg_loaded w g E). now intros [= <- <- <-].
Qed.

Lemma load_cairo_trace g ok g' t :
  load_cairo w g = Returned ok g' t -> forallb is_loader_call t = true.
Proof.
  destruct (Z.eq_dec (libcairo g) NULL) as [E|E].
  - rewrite (load_cairo_attempt w g E); cbv zeta.
    repeat case_head; intros [= <- <- <-]; reflexivity.
  - rewrite (load_cairo_loaded w g E). now intros [= <- <- <-].
Qed.

(** The load phase of a render: it always returns, calls nothing but the
    loader, and when it reports both libraries available both handles are
    non-null and the symbols the loaders check are bound. *)
Lemma libraries_unavailable_spec g :
  librsvg_inv g -> cairo_inv g ->
  exists unavailable g2 tl,
    libraries_unavailable w g = Returned unavailable g2 tl /\
    forallb is_loader_call tl = true /\
    librsvg_inv g2 /\ cairo_inv g2 /\
    (unavailable = false ->
     librsvg_so g2 <> NULL /\ libcairo g2 <> NULL /\
     librsvg_symbol_missing g2 = false /\ cairo_symbol_missing g2 = false).
Proof.
  intros Hr Hc. unfold libraries_unavailable, bind.
  destruct (loader_returns _ _ _ _ load_librsvg_contract w g) as (ok1 & g1 & t1 & E1).
  rewrite E1.
  pose proof (load_librsvg_trace _ _ _ _ E1) as T1.
  destruct (load_librsvg_inv w g ok1 g1 t1 Hr E1)
    as (Hr1 & Hok1 & Ec & Ec1 & Ec2 & _).
  assert (Hc1 : cairo_inv g1).
  { unfold cairo_inv, cairo_symbol_missing in *. rewrite Ec, Ec1, Ec2. exact Hc. }
  destruct ok1; cbn [negb].
  - destruct (loader_returns _ _ _ _ load_cairo_contract w g1) as (ok2 & g2 & t2 & E2).
    rewrite E2. cbn [ret].
    pose proof (load_cairo_trace _ _ _ _ E2) as T2.
    destruct (load_cairo_inv w g1 ok2 g2 t2 Hc1 E2)
      as (Hc2 & Hok2 & Er & Er1 & Er2 & Er3 & Er4).
    assert (Hr2 : librsvg_symbol_missing g2 = librsvg_symbol_missing g1).
    { unfold librsvg_symbol_missing. now rewrite Er1, Er2, Er3, Er4. }
    exists (negb ok2), g2, (t1 ++ t2 ++ []). split; [reflexivity|].
    split; [rewrite !forallb_app, T1, T2; reflexivity|].
    split; [unfold librsvg_inv; rewrite Er, Hr2; exact Hr1|].
    split; [exact Hc2|].
    intros H. apply negb_false_iff in H. destruct (Hok1 eq_refl) as [A B].
    destruct (Hok2 H) as [C D]. rewrite Er, Hr2. auto.
  - exists true, g1, (t1 ++ []). split; [reflexivity|].
    split; [rewrite forallb_app, T1; reflexivity|].
    split; [exact Hr1|]. split; [exact Hc1|]. discriminate.
Qed.

End Render.
Section RenderPaths.
Variable w : world.
Variable params : rsvg_render_params.

Lemma libraries_unavailable_returns g :
  exists unavailable g2 tl,
    libraries_unavailable w g = Returned unavailable g2 tl /\
    forallb is_loader_call tl = true.
Proof.
  unfold libraries_unavailable, bind.
  destruct (loader_returns _ _ _ _ load_librsvg_contract w g) as (ok1 & g1 & t1 & E1).
  rewrite E1. pose proof (load_librsvg_trace _ _ _ _ _ E1) as T1.
  destruct ok1; cbn [negb].
  - destruct (loader_returns _ _ _ _ load_cairo_contract w g1) as (ok2 & g2 & t2 & E2).
    rewrite E2. pose proof (load_cairo_trace _ _ _ _ _ E2) as T2.
    do 3 eexists. split; [reflexivity|]. now rewrite !forallb_app, T1, T2.
  - do 3 eexists. split; [reflexivity|]. now rewrite forallb_app, T1.
Qed.

Lemma rsvg_render_paths g status g' t :
  rsvg_render w params g = Returned status g' t ->
  exists tl rest,
    t = tl ++ rest /\ forallb is_loader_call tl = true /\
    render_path w params status rest.
Proof.
  destruct (early_rejected params) eqn:Early.
  - assert (E : rsvg_render w params g = Returned STATUS_INVALID_PARAMETER g [Ev_fninit]).
    { unfold early_rejected in Early. step_monad.
      destruct (is_null (render_handle params) || is_null (pixels params)); [reflexivity|].
      destruct (viewport_rejected params); [reflexivity|].
      cbn in Early. now rewrite Early. }
    rewrite E. intros [= <- <- <-]. exists [], [Ev_fninit].
    repeat split. now constructor.
  - pose proof Early as Early'. unfold early_rejected in Early'.
    apply orb_false_iff in Early' as [Early' G3].
    apply orb_false_iff in Early' as [G1 G2].
    destruct (libraries_unavailable_returns g) as (b & g2 & tl & E & T).
    step_monad. rewrite G1, G2, G3, E.
    fold (request_surface w params). fold (request_context w params).
    repeat (case_head; step_monad); try discriminate; norm_trace;
      intros [= <- <- <-];
      exists tl; eexists; (split; [reflexivity|]); (split; [exact T|]);
      null_facts; try solve [exfalso; congruence];
      solve [constructor; solve [assumption | congruence]].
Qed.
End RenderPaths.

Lemma count_app f (t1 t2 : trace) : count f (t1 ++ t2) = (count f t1 + count f t2)%nat.
Proof. unfold count. now rewrite List.filter_app, List.length_app. Qed.

(** Events of one kind do not occur in a trace made of events of a
    disjoint kind. *)
Lemma count_disjoint (f h : event -> bool) (t : trace) :
  (forall e, f e = true -> h e = false) ->
  forallb f t = true -> count h t = 0%nat.
Proof.
  intros D. induction t as [|e t IH]; [reflexivity|].
  cbn. intros H. apply andb_true_iff in H as [He Ht].
  unfold count in *. cbn. rewrite (D e He). now apply IH.
Qed.


Lemma loader_not_drawing e : is_loader_call e = true -> is_drawing_call e = false.
Proof. now destruct e. Qed.

Lemma loader_not_native e : is_loader_call e = true -> is_native_call e = false.
Proof. now destruct e. Qed.

Lemma loader_not_cairo_destroy e : is_loader_call e = true -> is_cairo_destroy e = false.
Proof. now destruct e. Qed.

Lemma loader_not_surface_destroy e :
  is_loader_call e = true -> is_cairo_surface_destroy e = false.
Proof. now destruct e. Qed.


(** Two runs that fail, an early gate and unavailable libraries: the reset
    ends them. *)
Example rsvg_render_resets_fpu_on_failure :
  rsvg_render world_ok request_zero_viewport initial_globals
  = Returned STATUS_INVALID_PARAMETER initial_globals [Ev_fninit] /\
  exists g',
    rsvg_render world_no_libraries request_50x50 initial_globals
    = Returned STATUS_NOT_SUPPORTED g' [Ev_dlopen "librsvg-2.so.2" NULL; Ev_fninit].
Proof. split; [vm_compute; reflexivity|]. eexists. vm_compute. reflexivity. Qed.

(** The teardown where a context was created: the context is destroyed,
    then the surface, then the x87 state is reset; each destroy happens
    once. *)
Lemma rsvg_render_teardown (w : world) (params : rsvg_render_params)
    (g g' : unix_globals) (status : NTSTATUS) (t : trace) :
  rsvg_render w params g = Returned status g' t ->
  In (create_context w params) t -> request_context w params <> NULL ->
  (exists t', t = t' ++ [Ev_cairo_destroy (request_context w params);
                         Ev_cairo_surface_destroy (request_surface w params);
                         Ev_fninit]) /\
  count is_cairo_destroy t = 1%nat /\ count is_cairo_surface_destroy t = 1%nat.
Proof.
  intros H Hin Hcr. apply rsvg_render_paths in H as (tl & rest & -> & T & P).
  pose proof (count_disjoint _ _ tl loader_not_cairo_destroy T) as C1.
  pose proof (count_disjoint _ _ tl loader_not_surface_destroy T) as C2.
  assert (Hrest : In (create_context w params) rest).
  { apply in_app_or in Hin as [Hin|Hin]; [|assumption].
    rewrite forallb_forall in T. apply T in Hin. discriminate Hin. }
  rewrite !count_app, C1, C2.
  inversion P; subst; try contradiction;
    try (cbn in Hrest;
         repeat (destruct Hrest as [Hrest|Hrest]; [discriminate Hrest|]); now destruct Hrest).
  - split; [|split; reflexivity].
    exists (tl ++ [create_surface w params; create_context w params]).
    now rewrite <- app_assoc.
  - split; [|split; reflexivity].
    exists (tl ++ [create_surface w params; create_context w params] ++ draw w params).
    now rewrite <- !app_assoc.
Qed.

(** Where the context cannot be created the surface is destroyed twice. *)
Lemma rsvg_render_no_context (w : world) (params : rsvg_render_params)
    (g g' : unix_globals) (status : NTSTATUS) (t : trace) :
  rsvg_render w params g = Returned status g' t ->
  In (create_context w params) t -> request_context w params = NULL ->
  status = STATUS_UNSUCCESSFUL /\
  count is_cairo_destroy t = 0%nat /\ count is_cairo_surface_destroy t = 2%nat.
Proof.
  intros H Hin Hcr. apply rsvg_render_paths in H as (tl & rest & -> & T & P).
  pose proof (count_disjoint _ _ tl loader_not_cairo_destroy T) as C1.
  pose proof (count_disjoint _ _ tl loader_not_surface_destroy T) as C2.
  assert (Hrest : In (create_context w params) rest).
  { apply in_app_or in Hin as [Hin|Hin]; [|assumption].
    rewrite forallb_forall in T. apply T in Hin. discriminate Hin. }
  rewrite !count_app, C1, C2.
  inversion P; subst; try contradiction;
    try (cbn in Hrest;
         repeat (destruct Hrest as [Hrest|Hrest]; [discriminate Hrest|]); now destruct Hrest).
Qed.

(** C3, evaluated where it fails: both libraries are loaded, cairo creates
    the surface [0x6000] and then cannot create a context.  The handler
    destroys the surface before jumping to the teardown, and the teardown
    destroys it again: two [cairo_surface_destroy] calls on one surface in
    one Render call. *)
Theorem rsvg_render_destroys_surface_twice :
  rsvg_render world_no_context request_50x50 loaded_globals
  = Returned STATUS_UNSUCCESSFUL loaded_globals
      [Ev_cairo_image_surface_create_for_data 0xa000 0 50 50 200 0x6000;
       Ev_cairo_create 0x6000 NULL;
       Ev_cairo_surface_destroy 0x6000;
       Ev_cairo_surface_destroy 0x6000;
       Ev_fninit]
  /\ count is_cairo_surface_destroy
       [Ev_cairo_image_surface_create_for_data 0xa000 0 50 50 200 0x6000;
        Ev_cairo_create 0x6000 NULL;
        Ev_cairo_surface_destroy 0x6000;
        Ev_cairo_surface_destroy 0x6000;
        Ev_fninit] = 2%nat.
Proof. split; vm_compute; reflexivity. Qed.

(** ** rsvg_render: the scale gate *)

Section ScaleGate.
Variable w : world.
Variable params : rsvg_render_params.
Hypothesis rejected : scale_rejected params = true.

(** No run of a request with a rejected scale draws, even one that faults. *)
Lemma rsvg_render_scale_rejected_no_drawing g :
  match rsvg_render w params g with
  | Returned status _ t => status <> STATUS_SUCCESS /\ count is_drawing_call t = 0%nat
  | Fault t => count is_drawing_call t = 0%nat
  end.
Proof using rejected.
  destruct (libraries_unavailable_returns w g) as (b & g2 & tl & E & T).
  pose proof (count_disjoint _ _ tl loader_not_drawing T) as C.
  step_monad.
  destruct (is_null (render_handle params) || is_null (pixels params));
    [split; [discriminate|reflexivity]|].
  destruct (viewport_rejected params); [split; [discriminate|reflexivity]|].
  destruct (dimensions_rejected params); [split; [discriminate|reflexivity]|].
  rewrite E, rejected.
  repeat (case_head; step_monad); norm_trace; rewrite ?count_app, ?C;
    try split; try discriminate; reflexivity.
Qed.

(** Once the earlier gates are passed, the libraries are loaded with their
    entry points bound and cairo has created the surface and the context,
    the request is rejected and what was created is destroyed. *)
Lemma rsvg_render_scale_rejected_after_creation g g2 tl :
  early_rejected params = false ->
  libraries_unavailable w g = Returned false g2 tl ->
  non_null (p_rsvg_handle_render_document g2) = true ->
  cairo_complete g2 = true ->
  non_null (request_surface w params) = true ->
  non_null (request_context w params) = true ->
  rsvg_render w params g =
    Returned STATUS_INVALID_PARAMETER g2
      (tl ++ [create_surface w params; create_context w params;
              Ev_cairo_destroy (request_context w params);
              Ev_cairo_surface_destroy (request_surface w params);
              Ev_fninit]).
Proof using rejected.
  intros Early E Hr Hc Hs Hcr.
  unfold early_rejected in Early.
  apply orb_false_iff in Early as [Early G3].
  apply orb_false_iff in Early as [G1 G2].
  unfold cairo_complete in Hc. rewrite !andb_true_iff in Hc.
  destruct Hc as [[[[C1 C2] C3] C4] C5].
  rewrite non_null_is_null, negb_true_iff in Hr, C1, C2, C3, C4, C5, Hs.
  pose proof Hcr as Hcr'. rewrite non_null_is_null, negb_true_iff in Hcr'.
  step_monad. rewrite G1, G2, G3, E, rejected.
  fold (request_surface w params). fold (request_context w params).
  repeat (case_head; step_monad); norm_trace; unfold request_context in *;
    first [reflexivity | congruence | rewrite non_null_is_null in *; congruence].
Qed.

End ScaleGate.

(** C1, as the code has it: a request whose computed scale compares at most
    0 or above 1000 on either axis never makes a drawing call (the context
    is not scaled, the document is not rendered) and never gets
    [STATUS_SUCCESS]; the check comes after the surface and the context are
    created, so a request that passes the earlier gates, with the libraries
    loaded and their entry points bound and with cairo creating the surface
    and the context, gets [STATUS_INVALID_PARAMETER] after exactly those two
    creations followed by the destruction of the context and of the
    surface. *)
Theorem rsvg_render_scale_gate (w : world) (params : rsvg_render_params)
    (g : unix_globals) :
  scale_rejected params = true ->
  match rsvg_render w params g with
  | Returned status _ t => status <> STATUS_SUCCESS /\ count is_drawing_call t = 0%nat
  | Fault t => count is_drawing_call t = 0%nat
  end
  /\
  forall g2 tl,
    early_rejected params = false ->
    libraries_unavailable w g = Returned false g2 tl ->
    non_null (p_rsvg_handle_render_document g2) = true ->
    cairo_complete g2 = true ->
    non_null (request_surface w params) = true ->
    non_null (request_context w params) = true ->
    rsvg_render w params g =
      Returned STATUS_INVALID_PARAMETER g2
        (tl ++ [create_surface w params; create_context w params;
                Ev_cairo_destroy (request_context w params);
                Ev_cairo_surface_destroy (request_surface w params);
                Ev_fninit]).
Proof.
  intros H. split.
  - now apply rsvg_render_scale_rejected_no_drawing.
  - intros g2 tl. now apply rsvg_render_scale_rejected_after_creation.
Qed.

Lemma rsvg_render_scale_gate_witness :
  scale_rejected request_scale_3200 = true /\
  rsvg_render world_ok request_scale_3200 loaded_globals =
    Returned STATUS_INVALID_PARAMETER loaded_globals
      [Ev_cairo_image_surface_create_for_data 0xa000 0 50 50 200 0x6000;
       Ev_cairo_create 0x6000 0x6100;
       Ev_cairo_destroy 0x6100;
       Ev_cairo_surface_destroy 0x6000;
       Ev_fninit].
Proof.
  split; [vm_compute; reflexivity|].
  apply (proj2 (rsvg_render_scale_gate world_ok request_scale_3200 loaded_globals eq_refl)
           loaded_globals []); vm_compute; reflexivity.
Defined.

(** C1 as stated fails: the horizontal scale 3200 is outside (0, 1000],
    the request is rejected with [STATUS_INVALID_PARAMETER], and by then
    four native calls have been made, the first of them creating the
    drawing surface. *)
Lemma rsvg_render_scale_checked_after_creation :
  scale_in_range (scale_x request_scale_3200) = false /\
  exists t,
    rsvg_render world_ok request_scale_3200 loaded_globals
    = Returned STATUS_INVALID_PARAMETER loaded_globals t /\
    List.filter is_native_call t =
      [Ev_cairo_image_surface_create_for_data 0xa000 0 50 50 200 0x6000;
       Ev_cairo_create 0x6000 0x6100;
       Ev_cairo_destroy 0x6100;
       Ev_cairo_surface_destroy 0x6000].
Proof. split; [vm_compute; reflexivity|]. eexists. split; vm_compute; reflexivity. Qed.

(** ** Resources *)

Lemma held_after_app held t1 t2 :
  held_after held (t1 ++ t2) = held_after (held_after held t1) t2.
Proof. revert held. induction t1 as [|e t1 IH]; intros held; [reflexivity|]. cbn. apply IH. Qed.

(** Calls to the loader neither hand out nor take back a resource. *)
Lemma held_after_loader held tl :
  forallb is_loader_call tl = true -> held_after held tl = held.
Proof.
  revert held. induction tl as [|e tl IH]; intros held; [reflexivity|].
  cbn. intros H. apply andb_true_iff in H as [He Ht].
  destruct e; try discriminate He; cbn; rewrite app_nil_r; now apply IH.
Qed.

(** ** rsvg_create_handle *)

Section CreateHandle.
Variable w : world.

(** The handler, once the outcome of the load is known.  In a state the
    loaders produce, a loaded librsvg has its four symbols bound, so the
    calls through them do not fault. *)
Lemma rsvg_create_handle_unfold (params : rsvg_create_params) (g : unix_globals) :
  librsvg_inv g ->
  exists ok g1 tl,
    load_librsvg w g = Returned ok g1 tl /\
    forallb is_loader_call tl = true /\
    librsvg_inv g1 /\
    (ok = true -> librsvg_symbol_missing g1 = false) /\
    rsvg_create_handle w params g =
      let data := create_data params in
      let size := create_size params in
      if negb ok then Returned (STATUS_NOT_SUPPORTED, mkCreateParams data size NULL) g1 tl
      else
        let r := w_rsvg_handle_new_from_data w data size in
        let parse := Ev_rsvg_handle_new_from_data data size (fst r) (snd r) in
        if is_null (fst r) then
          Returned (STATUS_UNSUCCESSFUL, mkCreateParams data size (fst r)) g1
            (tl ++ parse :: (if non_null (snd r) then [Ev_g_error_free (snd r)] else []))
        else
          Returned (STATUS_SUCCESS, mkCreateParams data size (fst r)) g1 (tl ++ [parse]).
Proof.
  intros Hinv.
  destruct (loader_returns _ _ _ _ load_librsvg_contract w g) as (ok & g1 & tl & E).
  exists ok, g1, tl. split; [exact E|].
  split; [exact (load_librsvg_trace w _ _ _ _ E)|].
  destruct (load_librsvg_inv w g ok g1 tl Hinv E) as (Hinv1 & Hok & _).
  split; [exact Hinv1|].
  split; [intros Hok'; now apply Hok|].
  step_monad. rewrite E. destruct ok; cbn [negb]; [|now rewrite app_nil_r].
  destruct (Hok eq_refl) as [_ Hm]. unfold librsvg_symbol_missing in Hm.
  rewrite !orb_false_iff in Hm. destruct Hm as [[[M1 M2] M3] M4].
  destruct (w_rsvg_handle_new_from_data w (create_data params) (create_size params))
    as [h e]; cbn [fst snd].
  repeat (case_head; step_monad); norm_trace; first [reflexivity | congruence].
Qed.

End CreateHandle.

(** What the handler guarantees when it does not succeed: the out handle
    is null, nothing is left allocated, and an error object the parser
    produced is freed by the very next call, the last of the handler. *)
Lemma rsvg_create_handle_failure (w : world) (params : rsvg_create_params)
    (g : unix_globals) :
  librsvg_inv g ->
  match rsvg_create_handle w params g with
  | Fault _ => False
  | Returned (status, params') g' t =>
      librsvg_inv g' /\
      (status <> STATUS_SUCCESS ->
       create_handle params' = NULL /\ leaked t = [] /\
       forall data len h e,
         In (Ev_rsvg_handle_new_from_data data len h e) t ->
         h = NULL /\
         (e <> NULL ->
          exists t0, t = t0 ++ [Ev_rsvg_handle_new_from_data data len h e;
                                Ev_g_error_free e]))
  end.
Proof.
  intros Hinv.
  destruct (rsvg_create_handle_unfold w params g Hinv) as (ok & g1 & tl & _ & T & Hinv1 & _ & ->).
  cbv zeta.
  assert (NoParse : forall data len h e,
             ~ In (Ev_rsvg_handle_new_from_data data len h e) tl).
  { intros data len h e Hin. rewrite forallb_forall in T. apply T in Hin.
    discriminate Hin. }
  destruct ok; cbn [negb].
  - destruct (w_rsvg_handle_new_from_data w (create_data params) (create_size params))
      as [h e]; cbn [fst snd].
    destruct (is_null h) eqn:Hh; (split; [exact Hinv1|]); [|congruence].
    intros _. apply is_null_true in Hh. subst h. split; [reflexivity|].
    split.
    + unfold leaked. rewrite held_after_app, (held_after_loader _ _ T).
      rewrite non_null_is_null.
      destruct (is_null e) eqn:He; cbn; rewrite ?He; cbn; rewrite ?Z.eqb_refl; reflexivity.
    + intros data len h' e' Hin. apply in_app_or in Hin as [Hin|Hin];
        [now apply NoParse in Hin|].
      destruct Hin as [[= <- <- <- <-]|Hin].
      * split; [reflexivity|]. intros He. apply non_null_true in He. rewrite He.
        now exists tl.
      * destruct (non_null e); [|destruct Hin].
        destruct Hin as [Hin|[]]. discriminate Hin.
  - split; [exact Hinv1|]. intros _. split; [reflexivity|]. split.
    + unfold leaked. apply (held_after_loader _ _ T).
    + intros data len h e Hin. now apply NoParse in Hin.
Qed.

(** ** The states a process reaches *)

(** A render leaves the globals as the load phase left them, or untouched. *)
Lemma rsvg_render_globals (w : world) (params : rsvg_render_params)
    (g g' : unix_globals) (status : NTSTATUS) (t : trace) :
  rsvg_render w params g = Returned status g' t ->
  g' = g \/ exists unavailable tl, libraries_unavailable w g = Returned unavailable g' tl.
Proof.
  destruct (libraries_unavailable_returns w g) as (b & g2 & tl & E & _).
  step_monad.
  destruct (is_null (render_handle params) || is_null (pixels params));
    [intros [= <- <- <-]; now left|].
  destruct (viewport_rejected params); [intros [= <- <- <-]; now left|].
  destruct (dimensions_rejected params); [intros [= <- <- <-]; now left|].
  rewrite E.
  repeat (case_head; step_monad); try discriminate;
    intros [= <- <- <-]; right; eauto.
Qed.

(** In every reachable state a loaded librsvg has its four symbols bound,
    and a loaded cairo the two symbols its loader checks. *)
Lemma reachable_inv g : reachable g -> librsvg_inv g /\ cairo_inv g.
Proof.
  induction 1 as [|w code args g g' r t Hreach [Hr Hc] Hcall].
  - split; [apply librsvg_inv_initial | apply cairo_inv_initial].
  - destruct code; cbv beta iota delta [__wine_unix_call_funcs unix_args unix_result] in *.
    + destruct (rsvg_create_handle_unfold w args g Hr)
        as (ok & g1 & tl & Hload & _ & Hr1 & _ & E).
      assert (g' = g1) as ->.
      { revert Hcall. rewrite E. cbv zeta.
        repeat case_head; now intros [= <- <- <-]. }
      split; [exact Hr1|].
      destruct (load_librsvg_inv w g ok g1 tl Hr Hload) as (_ & _ & Ec & Ec1 & Ec2 & _).
      unfold cairo_inv, cairo_symbol_missing in *. now rewrite Ec, Ec1, Ec2.
    + rewrite rsvg_free_handle_unfold in Hcall. injection Hcall as <- <- <-. now split.
    + apply rsvg_render_globals in Hcall as [->|(b & tl & E)]; [now split|].
      destruct (libraries_unavailable_spec w g Hr Hc) as (b' & g2 & tl' & E' & _ & Hr2 & Hc2 & _).
      rewrite E in E'. injection E' as <- <- <-. now split.
Qed.





(** * The PE side *)

(** Unfolds the PE-side operations down to the Unix-side handlers. *)
Ltac step_pe :=
  cbv beta iota zeta delta
    [bind ret gets modify emit when call_through fault
     d2d_svg_document_create d2d_svg_document_AddRef d2d_svg_document_Release
     InterlockedIncrement_refcount InterlockedDecrement_refcount load_document
     IStream_Stat IStream_Read heap_alloc heap_alloc_zero heap_free
     UNIX_CALL on_unix __wine_unix_call_funcs unix_args unix_result
     set_objects unix objects fst snd create_handle NTSTATUS_nonzero];
  change (non_null NULL) with false;
  change (is_null NULL) with true;
  cbv beta iota.

Ltac no_parse :=
  let Hin := fresh "Hin" in
  intros ? ? ? ? Hin; cbn in Hin;
  repeat (destruct Hin as [Hin|Hin]; [discriminate Hin|]); destruct Hin.

Section Create.
Variable w : world.
Variable sizeof_d2d_svg_document : Z.

Lemma d2d_svg_document_create_failure (context_factory stream : ptr)
    (viewport : float * float) (s : process) :
  librsvg_inv (unix s) ->
  match d2d_svg_document_create w sizeof_d2d_svg_document context_factory stream viewport s with
  | Fault t =>
      (stream = NULL /\ t = []) \/ (stream <> NULL /\ context_factory = NULL)
  | Returned (hr, out) s' t =>
      librsvg_inv (unix s') /\
      (hr <> S_OK ->
       out = None /\ leaked t = [] /\
       forall data len h e,
         In (Ev_rsvg_handle_new_from_data data len h e) t ->
         (h = NULL -> e <> NULL ->
          followed_at_once (Ev_rsvg_handle_new_from_data data len h e) (Ev_g_error_free e) t)
         /\ (h <> NULL -> hr = E_OUTOFMEMORY /\ In (Ev_g_object_unref h) t))
  end.
Proof.
  intros Hinv. destruct s as [g os]. cbn [unix] in Hinv.
  step_pe.
  destruct (w_unixlib_handle w =? 0).
  { split; [assumption|]. intros _. split; [reflexivity|]. split; [reflexivity|no_parse]. }
  destruct (is_null stream) eqn:Hstream.
  { left. split; [now apply is_null_true|reflexivity]. }
  apply is_null_false in Hstream.
  destruct (w_IStream_Stat w stream) as [cbSize|]; cycle 1.
  { split; [assumption|]. intros _. split; [reflexivity|]. split; [reflexivity|no_parse]. }
  step_pe.
  destruct (is_null (w_HeapAlloc w false cbSize)) eqn:Hbuf.
  { split; [assumption|]. intros _. split; [reflexivity|].
    split; [cbn; now rewrite Hbuf|no_parse]. }
  step_pe.
  destruct (w_IStream_Read w stream (w_HeapAlloc w false cbSize) (wrap32 cbSize))
    as [read_len|]; cycle 1.
  { split; [assumption|]. intros _. split; [reflexivity|].
    split; [cbn; rewrite Hbuf; cbn; now rewrite Z.eqb_refl|no_parse]. }
  step_pe.
  destruct (rsvg_create_handle_unfold w
              (mkCreateParams (w_HeapAlloc w false cbSize) read_len NULL) g Hinv)
    as (ok & g1 & tl & _ & T & Hinv1 & Hok & ->).
  cbv zeta; cbn [create_data create_size].
  assert (NoParse : forall data len h e,
             ~ In (Ev_rsvg_handle_new_from_data data len h e) tl).
  { intros data len h e Hin. rewrite forallb_forall in T. apply T in Hin.
    discriminate Hin. }
  set (buffer := w_HeapAlloc w false cbSize) in *.
  destruct ok; cbn [negb];
    [destruct (w_rsvg_handle_new_from_data w buffer read_len)
       as [h e]; cbn [fst snd]; destruct (is_null h) eqn:Hh|]; step_pe.
  - (* the parse failed *)
    rewrite non_null_is_null.
    destruct (is_null e) eqn:He; cbn [negb]; norm_trace;
      (split; [exact Hinv1|]); intros _; (split; [reflexivity|]); split.
    + unfold leaked. cbn. rewrite Hbuf. cbn.
      rewrite held_after_app, (held_after_loader _ _ T). cbn.
      rewrite Hh, He. cbn. now rewrite Z.eqb_refl.
    + intros data len h0 e0 Hin.
      do 3 (destruct Hin as [Hin|Hin]; [discriminate Hin|]).
      apply in_app_or in Hin as [Hin|Hin]; [now apply NoParse in Hin|].
      destruct Hin as [[= <- <- <- <-]|[Hin|[]]]; [|discriminate Hin].
      null_facts. split; [intros _ Hne; contradiction|intros Hne; contradiction].
    + unfold leaked. cbn. rewrite Hbuf. cbn.
      rewrite held_after_app, (held_after_loader _ _ T). cbn.
      rewrite Hh, He. cbn. now rewrite !Z.eqb_refl.
    + intros data len h0 e0 Hin.
      do 3 (destruct Hin as [Hin|Hin]; [discriminate Hin|]).
      apply in_app_or in Hin as [Hin|Hin]; [now apply NoParse in Hin|].
      destruct Hin as [[= <- <- <- <-]|[Hin|[Hin|[]]]]; try discriminate Hin.
      null_facts. split; [intros _ _|intros Hne; contradiction].
      exists (Ev_IStream_Stat stream :: Ev_HeapAlloc false cbSize buffer
              :: Ev_IStream_Read stream buffer (wrap32 cbSize) :: tl),
             [Ev_HeapFree buffer].
      cbn. reflexivity.
  - (* the document parsed *)
    specialize (Hok eq_refl). unfold librsvg_symbol_missing in Hok.
    rewrite !orb_false_iff in Hok. destruct Hok as [[[M1 M2] M3] M4].
    destruct (is_null (w_HeapAlloc w true sizeof_d2d_svg_document)) eqn:Hobj; step_pe.
    + (* no memory for the object *)
      rewrite rsvg_free_handle_unfold. cbn [free_handle].
      rewrite !non_null_is_null, Hh, M2. cbn [negb andb]. norm_trace.
      split; [exact Hinv1|]. intros _. split; [reflexivity|]. split.
      * unfold leaked. cbn. rewrite Hbuf. cbn.
        rewrite held_after_app, (held_after_loader _ _ T). cbn.
        rewrite Hh, Hobj. cbn. rewrite !Z.eqb_refl. cbn. now rewrite !Z.eqb_refl.
      * intros data len h0 e0 Hin.
        do 3 (destruct Hin as [Hin|Hin]; [discriminate Hin|]).
        apply in_app_or in Hin as [Hin|Hin]; [now apply NoParse in Hin|].
        destruct Hin as [[= <- <- <- <-]|Hin];
          [|repeat (destruct Hin as [Hin|Hin]; [discriminate Hin|]); destruct Hin].
        null_facts. split; [intros Hn; contradiction|]. intros _. split; [reflexivity|].
        do 3 right. apply in_or_app. right. cbn. tauto.
    + (* the object is built *)
      destruct (is_null context_factory) eqn:Hf; cbv beta iota.
      * right. split; [exact Hstream|now apply is_null_true].
      * split; [exact Hinv1|]. intros Hne. now contradiction Hne.
  - (* librsvg is unavailable *)
    norm_trace. split; [exact Hinv1|]. intros _. split; [reflexivity|]. split.
    + unfold leaked. cbn. rewrite Hbuf. cbn.
      rewrite held_after_app, (held_after_loader _ _ T). cbn. now rewrite Z.eqb_refl.
    + intros data len h0 e0 Hin.
      do 3 (destruct Hin as [Hin|Hin]; [discriminate Hin|]).
      apply in_app_or in Hin as [Hin|Hin]; [now apply NoParse in Hin|].
      destruct Hin as [Hin|[]]. discriminate Hin.
Qed.
End Create.

(** C6: a failing Create leaks nothing, in a process whose librsvg state is
    one the loader produces (every reachable state is, [reachable_inv]).
    At the Unix boundary: when
    [rsvg_create_handle] does not succeed, the out handle is null, nothing
    acquired during the call is still held, and an error object produced
    by the parser is freed by the very next call.  On the PE side: when
    [d2d_svg_document_create] returns a failure, no object is stored
    through [document], every heap block and every native object acquired
    during the call has been given back, a parser error is freed at once,
    and a handle that was obtained (the failure is then the allocation of
    the object, [E_OUTOFMEMORY]) is released with [g_object_unref].  The
    call does not return in two cases only: when [stream] is null, where it
    stops at [IStream_Stat] before anything was called or acquired, and on
    its success path, when [context->factory] is null. *)
Theorem create_failure_leaks_nothing (w : world) (sizeof_d2d_svg_document : Z)
    (context_factory stream : ptr) (viewport : float * float) (s : process) :
  librsvg_inv (unix s) ->
  (forall params,
     match rsvg_create_handle w params (unix s) with
     | Fault _ => False
     | Returned (status, params') g' t =>
         status <> STATUS_SUCCESS ->
         create_handle params' = NULL /\ leaked t = [] /\
         forall data len h e,
           In (Ev_rsvg_handle_new_from_data data len h e) t ->
           h = NULL /\
           (e <> NULL ->
            exists t0, t = t0 ++ [Ev_rsvg_handle_new_from_data data len h e;
                                  Ev_g_error_free e])
     end)
  /\
  match d2d_svg_document_create w sizeof_d2d_svg_document context_factory stream viewport s with
  | Fault t =>
      (stream = NULL /\ t = []) \/ (stream <> NULL /\ context_factory = NULL)
  | Returned (hr, out) s' t =>
      hr <> S_OK ->
      out = None /\ leaked t = [] /\
      forall data len h e,
        In (Ev_rsvg_handle_new_from_data data len h e) t ->
        (h = NULL -> e <> NULL ->
         followed_at_once (Ev_rsvg_handle_new_from_data data len h e) (Ev_g_error_free e) t)
        /\ (h <> NULL -> hr = E_OUTOFMEMORY /\ In (Ev_g_object_unref h) t)
  end.
Proof.
  intros Hinv. split.
  - intros params. pose proof (rsvg_create_handle_failure w params (unix s) Hinv) as H.
    destruct (rsvg_create_handle w params (unix s)) as [[status params'] g' t|t];
      [|exact H]. now destruct H.
  - pose proof (d2d_svg_document_create_failure w sizeof_d2d_svg_document
                  context_factory stream viewport s Hinv) as H.
    destruct (d2d_svg_document_create _ _ _ _ _ _) as [[hr out] s' t|t]; [|exact H].
    now destruct H.
Qed.

(** Create in a fresh process where the heap cannot serve the object: the
    document parses to the handle [0x5000], the allocation fails, and the
    handle is released before [E_OUTOFMEMORY] is returned. *)
Lemma create_failure_leaks_nothing_witness :
  d2d_svg_document_create world_no_object_memory 64 0xf000 0x100 (100%float, 100%float)
    (mkProcess initial_globals ∅)
  = Returned (E_OUTOFMEMORY, None)
      (mkProcess (with_librsvg_symbols world_ok addr_librsvg initial_globals) ∅)
      [Ev_IStream_Stat 0x100;
       Ev_HeapAlloc false 100 0x8000;
       Ev_IStream_Read 0x100 0x8000 100;
       Ev_dlopen "librsvg-2.so.2" addr_librsvg;
       Ev_dlsym addr_librsvg "rsvg_handle_new_from_data" 0x7f1010;
       Ev_dlsym addr_librsvg "g_object_unref" 0x7f1020;
       Ev_dlsym addr_librsvg "g_error_free" 0x7f1030;
       Ev_dlsym addr_librsvg "rsvg_handle_render_document" 0x7f1040;
       Ev_rsvg_handle_new_from_data 0x8000 100 0x5000 NULL;
       Ev_HeapFree 0x8000;
       Ev_HeapAlloc true 64 NULL;
       Ev_g_object_unref 0x5000]
  /\ leaked
       [Ev_IStream_Stat 0x100;
        Ev_HeapAlloc false 100 0x8000;
        Ev_IStream_Read 0x100 0x8000 100;
        Ev_dlopen "librsvg-2.so.2" addr_librsvg;
        Ev_dlsym addr_librsvg "rsvg_handle_new_from_data" 0x7f1010;
        Ev_dlsym addr_librsvg "g_object_unref" 0x7f1020;
        Ev_dlsym addr_librsvg "g_error_free" 0x7f1030;
        Ev_dlsym addr_librsvg "rsvg_handle_render_document" 0x7f1040;
        Ev_rsvg_handle_new_from_data 0x8000 100 0x5000 NULL;
        Ev_HeapFree 0x8000;
        Ev_HeapAlloc true 64 NULL;
        Ev_g_object_unref 0x5000] = [].
Proof.
  assert (E : d2d_svg_document_create world_no_object_memory 64 0xf000 0x100
                (100%float, 100%float) (mkProcess initial_globals ∅)
              = Returned (E_OUTOFMEMORY, None)
                  (mkProcess (with_librsvg_symbols world_ok addr_librsvg initial_globals) ∅)
                  [Ev_IStream_Stat 0x100;
                   Ev_HeapAlloc false 100 0x8000;
                   Ev_IStream_Read 0x100 0x8000 100;
                   Ev_dlopen "librsvg-2.so.2" addr_librsvg;
                   Ev_dlsym addr_librsvg "rsvg_handle_new_from_data" 0x7f1010;
                   Ev_dlsym addr_librsvg "g_object_unref" 0x7f1020;
                   Ev_dlsym addr_librsvg "g_error_free" 0x7f1030;
                   Ev_dlsym addr_librsvg "rsvg_handle_render_document" 0x7f1040;
                   Ev_rsvg_handle_new_from_data 0x8000 100 0x5000 NULL;
                   Ev_HeapFree 0x8000;
                   Ev_HeapAlloc true 64 NULL;
                   Ev_g_object_unref 0x5000]).
  { vm_compute. reflexivity. }
  split; [exact E|].
  pose proof (proj2 (create_failure_leaks_nothing world_no_object_memory 64 0xf000 0x100
                       (100%float, 100%float) (mkProcess initial_globals ∅)
                       librsvg_inv_initial)) as H.
  assert (Hne : E_OUTOFMEMORY <> S_OK) by discriminate.
  destruct (H Hne) as (_ & L & _). vm_compute in L. vm_compute. exact L.
Defined.

(** An empty stream: the parser fails with an error object, which is freed
    at once; Create returns [E_FAIL] with nothing held. *)
Example create_empty_stream :
  d2d_svg_document_create world_empty_stream 64 0xf000 0x100 (100%float, 100%float)
    (mkProcess loaded_globals ∅)
  = Returned (E_FAIL, None) (mkProcess loaded_globals ∅)
      [Ev_IStream_Stat 0x100;
       Ev_HeapAlloc false 0 0x8000;
       Ev_IStream_Read 0x100 0x8000 0;
       Ev_rsvg_handle_new_from_data 0x8000 0 NULL 0xe000;
       Ev_g_error_free 0xe000;
       Ev_HeapFree 0x8000].
Proof. vm_compute. reflexivity. Qed.

(** ** Reference counting *)

Lemma set_refcount_set_refcount a b d : set_refcount a (set_refcount b d) = set_refcount a d.
Proof. reflexivity. Qed.

Lemma set_refcount_id d : set_refcount (refcount d) d = d.
Proof. now destruct d. Qed.

Lemma wrap32_small z : 0 <= z < 2 ^ 32 -> wrap32 z = z.
Proof. intros H. unfold wrap32. now apply Z.mod_small. Qed.

Lemma wrap32_add_l a b : wrap32 (wrap32 a + b) = wrap32 (a + b).
Proof. unfold wrap32. apply Zplus_mod_idemp_l. Qed.

Lemma wrap32_sub_l a b : wrap32 (wrap32 a - b) = wrap32 (a - b).
Proof. unfold wrap32. apply Zminus_mod_idemp_l. Qed.

Section Refcount.
Variable w : world.

Lemma d2d_svg_document_AddRef_unfold iface s d :
  objects s !! iface = Some d ->
  d2d_svg_document_AddRef iface s =
    Returned (wrap32 (refcount d + 1)) (with_refcount iface (wrap32 (refcount d + 1)) d s) [].
Proof.
  intros H. destruct s as [g os]. cbn [objects] in H.
  step_pe. rewrite H. reflexivity.
Qed.

Lemma d2d_svg_document_Release_unfold iface s d :
  objects s !! iface = Some d ->
  d2d_svg_document_Release w iface s =
    let n := wrap32 (refcount d - 1) in
    if n =? 0 then Returned 0 (without_document iface s) (teardown_events w (unix s) iface d)
    else Returned n (with_refcount iface n d s) [].
Proof.
  intros H. destruct s as [g os]. cbn [objects] in H. cbv zeta.
  step_pe. rewrite H. cbv beta iota.
  destruct (wrap32 (refcount d - 1) =? 0) eqn:Hz; cbv beta iota; [|reflexivity].
  rewrite lookup_insert_eq. cbv beta iota. cbn [rsvg_handle factory set_refcount].
  unfold teardown_events, without_document. cbn [unix objects].
  apply Z.eqb_eq in Hz. rewrite Hz.
  destruct (non_null (rsvg_handle d) && negb (w_unixlib_handle w =? 0)) eqn:Hfree;
    cbv beta iota; cbn [andb].
  - rewrite rsvg_free_handle_unfold. cbn [free_handle].
    apply andb_true_iff in Hfree as [Hh _]. rewrite Hh. cbn [andb].
    destruct (non_null (p_g_object_unref g)), (non_null (factory d));
      cbv beta iota; rewrite delete_insert_eq; reflexivity.
  - destruct (non_null (factory d)); cbv beta iota; rewrite delete_insert_eq; reflexivity.
Qed.

End Refcount.

Section RefcountRuns.
Variable w : world.

Lemma with_refcount_id iface s d :
  objects s !! iface = Some d -> with_refcount iface (refcount d) d s = s.
Proof.
  intros H. destruct s as [g os]. unfold with_refcount. cbn [unix objects] in *.
  now rewrite set_refcount_id, insert_id.
Qed.

Lemma with_refcount_twice iface a b d d' s :
  d' = set_refcount b d ->
  with_refcount iface a d' (with_refcount iface b d s) = with_refcount iface a d s.
Proof.
  intros ->. unfold with_refcount. cbn [unix objects].
  now rewrite insert_insert_eq, set_refcount_set_refcount.
Qed.

Lemma without_document_with_refcount iface n d s :
  without_document iface (with_refcount iface n d s) = without_document iface s.
Proof. unfold without_document, with_refcount. cbn [unix objects]. now rewrite delete_insert_eq. Qed.

Lemma lookup_with_refcount iface n d s :
  objects (with_refcount iface n d s) !! iface = Some (set_refcount n d).
Proof. unfold with_refcount. cbn [objects]. apply lookup_insert_eq. Qed.

(** [K] AddRefs in a row add [K] to the 32-bit count and do nothing else. *)
Lemma times_AddRef (K : nat) iface s d :
  objects s !! iface = Some d -> 0 <= refcount d < 2 ^ 32 ->
  times K (d2d_svg_document_AddRef iface) s =
    Returned tt (with_refcount iface (wrap32 (refcount d + Z.of_nat K)) d s) [].
Proof.
  revert s d. induction K as [|K IH]; intros s d H R.
  - cbn [times ret]. rewrite Z.add_0_r, (wrap32_small _ R).
    now rewrite with_refcount_id.
  - cbn [times]. unfold bind at 1.
    rewrite (d2d_svg_document_AddRef_unfold iface s d H).
    rewrite (IH _ _ (lookup_with_refcount iface _ d s)).
    + cbn [app set_refcount refcount].
      rewrite (with_refcount_twice iface _ _ d _ s eq_refl).
      rewrite wrap32_add_l.
      now replace (refcount d + 1 + Z.of_nat K) with (refcount d + Z.of_nat (S K)) by lia.
    + cbn [set_refcount refcount]. unfold wrap32. apply Z.mod_pos_bound. lia.
Qed.

(** [K+1] Releases in a row on a count of [K+1]: the last one tears the
    document down, the others only count. *)
Lemma times_Release_last (K : nat) iface s d :
  objects s !! iface = Some d ->
  refcount d = wrap32 (Z.of_nat (S K)) -> Z.of_nat (S K) <= 2 ^ 32 ->
  times (S K) (d2d_svg_document_Release w iface) s =
    Returned tt (without_document iface s) (teardown_events w (unix s) iface d).
Proof.
  revert s d. induction K as [|K IH]; intros s d H R B.
  - cbn [times]. unfold bind.
    rewrite (d2d_svg_document_Release_unfold w iface s d H). cbv zeta.
    rewrite R. change (wrap32 (wrap32 (Z.of_nat 1) - 1) =? 0) with true.
    cbv beta iota. unfold ret. now rewrite app_nil_r.
  - remember (S K) as K' eqn:EK. cbn [times]. unfold bind at 1.
    rewrite (d2d_svg_document_Release_unfold w iface s d H). cbv zeta.
    assert (E : wrap32 (refcount d - 1) = Z.of_nat K').
    { rewrite R, wrap32_sub_l.
      replace (Z.of_nat (S K') - 1) with (Z.of_nat K') by lia.
      apply wrap32_small. lia. }
    rewrite E. destruct (Z.of_nat K' =? 0) eqn:Hz; [apply Z.eqb_eq in Hz; lia|].
    subst K'.
    rewrite (IH _ _ (lookup_with_refcount iface _ d s)).
    + rewrite without_document_with_refcount. reflexivity.
    + cbn [set_refcount refcount]. symmetry. apply wrap32_small. lia.
    + lia.
Qed.

End RefcountRuns.

(** C4, as the code has it.  For a live document whose 32-bit reference
    count [n] is at least 1: AddRef stores and returns [n + 1] as long as
    [n + 1] fits in 32 bits; Release stores and returns [n - 1]; an AddRef
    followed by a Release gives back the state it started from; Release
    tears the document down exactly when the count goes from 1 to 0, the
    teardown frees the object's memory once, and for a document as Create
    builds it consists of releasing the native handle, releasing the
    factory reference and freeing the memory, in that order; and on a
    document whose count is 1, [N] AddRefs followed by [N + 1] Releases
    perform exactly that one teardown, for every [N] below 2^32. *)
Theorem refcount_contract (w : world) (iface : ptr) (s : process) (d : d2d_svg_document) :
  objects s !! iface = Some d ->
  1 <= refcount d < 2 ^ 32 ->
  let n := refcount d in
  (n < 2 ^ 32 - 1 ->
   d2d_svg_document_AddRef iface s =
     Returned (n + 1) (with_refcount iface (n + 1) d s) [])
  /\ d2d_svg_document_Release w iface s =
       (if n =? 1
        then Returned 0 (without_document iface s) (teardown_events w (unix s) iface d)
        else Returned (n - 1) (with_refcount iface (n - 1) d s) [])
  /\ (d2d_svg_document_AddRef iface ;;; d2d_svg_document_Release w iface) s
     = Returned n s []
  /\ count is_HeapFree (teardown_events w (unix s) iface d) = 1%nat
  /\ (created_document w s d ->
      teardown_events w (unix s) iface d =
        [Ev_g_object_unref (rsvg_handle d);
         Ev_ID2D1Factory_Release (factory d);
         Ev_HeapFree iface])
  /\ (forall N : nat,
        n = 1 -> Z.of_nat N < 2 ^ 32 ->
        (times N (d2d_svg_document_AddRef iface) ;;;
         times (S N) (d2d_svg_document_Release w iface)) s
        = Returned tt (without_document iface s) (teardown_events w (unix s) iface d)).
Proof.
  intros H R n. subst n. repeat apply conj.
  - intros Hmax. rewrite (d2d_svg_document_AddRef_unfold iface s d H).
    now rewrite wrap32_small by lia.
  - rewrite (d2d_svg_document_Release_unfold w iface s d H). cbv zeta.
    rewrite wrap32_small by lia.
    destruct (Z.eqb_spec (refcount d) 1) as [E|E].
    + rewrite E. reflexivity.
    + destruct (Z.eqb_spec (refcount d - 1) 0); [lia|reflexivity].
  - unfold bind. rewrite (d2d_svg_document_AddRef_unfold iface s d H).
    rewrite (d2d_svg_document_Release_unfold w iface _ _
               (lookup_with_refcount iface _ d s)).
    cbv zeta. cbn [set_refcount refcount].
    rewrite wrap32_sub_l. replace (refcount d + 1 - 1) with (refcount d) by lia.
    rewrite wrap32_small by lia.
    destruct (Z.eqb_spec (refcount d) 0); [lia|].
    rewrite (with_refcount_twice iface _ _ d _ s eq_refl).
    now rewrite with_refcount_id.
  - unfold teardown_events. rewrite !count_app.
    destruct (_ && _), (non_null (factory d)); reflexivity.
  - intros (Hh & Hf & Hu & Hp). unfold teardown_events.
    apply non_null_true in Hh, Hf, Hp. apply Z.eqb_neq in Hu.
    now rewrite Hh, Hf, Hp, Hu.
  - intros N E B. unfold bind.
    rewrite (times_AddRef N iface s d H) by lia.
    rewrite E.
    rewrite (times_Release_last w N iface _ _ (lookup_with_refcount iface _ d s)).
    + now rewrite without_document_with_refcount.
    + cbn [set_refcount refcount]. f_equal. lia.
    + lia.
Qed.

(** A document fresh from Create, count 1: three AddRefs and four Releases
    end in the one teardown. *)
Lemma refcount_contract_witness :
  (times 3 (d2d_svg_document_AddRef 0x9000) ;;;
   times 4 (d2d_svg_document_Release world_ok 0x9000)) process_fresh
  = Returned tt (without_document 0x9000 process_fresh)
      [Ev_g_object_unref 0x5000; Ev_ID2D1Factory_Release 0xf000; Ev_HeapFree 0x9000].
Proof.
  assert (L : objects process_fresh !! 0x9000 = Some document_fresh) by reflexivity.
  assert (R : 1 <= refcount document_fresh < 2 ^ 32) by (cbn; lia).
  destruct (refcount_contract world_ok 0x9000 process_fresh document_fresh L R)
    as (_ & _ & _ & _ & _ & H).
  apply (H 3%nat); [reflexivity | cbn; lia].
Defined.

Lemma d2d_svg_document_Release_freed (w : world) iface s :
  objects s !! iface = None -> d2d_svg_document_Release w iface s = Fault [].
Proof.
  intros H. destruct s as [g os]. cbn [objects] in H. step_pe. now rewrite H.
Qed.

(** C4 as stated fails where the 32-bit count wraps.  AddRef on a count of
    2^32 - 1 stores and returns 0, not 2^32.  And on a fresh document
    (count 1), 2^32 AddRefs bring the count back to 1: of the 2^32 + 1
    Releases that follow, the first one already tears the document down and
    the second one touches the freed object. *)
Lemma d2d_svg_document_AddRef_wraps :
  objects process_max_refcount !! 0x9000 = Some (set_refcount 4294967295 document_fresh) /\
  d2d_svg_document_AddRef 0x9000 process_max_refcount
  = Returned 0 (with_refcount 0x9000 0 document_fresh process_max_refcount) [] /\
  0 <> 4294967295 + 1 /\
  (times (Z.to_nat (2 ^ 32)) (d2d_svg_document_AddRef 0x9000) ;;;
   times (S (Z.to_nat (2 ^ 32))) (d2d_svg_document_Release world_ok 0x9000)) process_fresh
  = Fault [Ev_g_object_unref 0x5000; Ev_ID2D1Factory_Release 0xf000; Ev_HeapFree 0x9000].
Proof.
  split; [reflexivity|]. split; [|split; [discriminate|]].
  - rewrite (d2d_svg_document_AddRef_unfold 0x9000 process_max_refcount
               (set_refcount 4294967295 document_fresh) eq_refl).
    reflexivity.
  - assert (L : objects process_fresh !! 0x9000 = Some document_fresh) by reflexivity.
    remember (Z.to_nat (2 ^ 32)) as N eqn:EN.
    assert (HN : Z.of_nat N = 2 ^ 32) by (subst N; apply Z2Nat.id; lia).
    unfold bind at 1.
    rewrite (times_AddRef N 0x9000 process_fresh document_fresh L) by (cbn; lia).
    rewrite HN.
    change (wrap32 (refcount document_fresh + 2 ^ 32)) with 1.
    change 1 with (refcount document_fresh) at 1.
    rewrite (with_refcount_id 0x9000 process_fresh document_fresh L).
    destruct N as [|N']; [cbn in HN; lia|].
    cbn [times]. unfold bind.
    rewrite (d2d_svg_document_Release_unfold world_ok 0x9000 process_fresh document_fresh L).
    cbv zeta.
    change (wrap32 (refcount document_fresh - 1) =? 0) with true. cbv beta iota.
    rewrite (d2d_svg_document_Release_freed world_ok 0x9000
               (without_document 0x9000 process_fresh)).
    + reflexivity.
    + unfold without_document. cbn [objects]. apply lookup_delete_eq.
Qed.

(** * Further properties of the Unix side *)

(** ** rsvg_render, path by path *)

Lemma set_librsvg_so_id g : librsvg_so g = NULL -> set_librsvg_so NULL g = g.
Proof. destruct g. cbn. now intros ->. Qed.

Lemma set_libcairo_id g : libcairo g = NULL -> set_libcairo NULL g = g.
Proof. destruct g. cbn. now intros ->. Qed.

(** X1: a request whose bitmap width, height or row stride is zero gets
    [STATUS_INVALID_PARAMETER] before any library is loaded and before any
    native call; the globals are unchanged and the only event is the final
    [fninit]. *)
Theorem rsvg_render_dimension_gate (w : world) (params : rsvg_render_params)
    (g : unix_globals) :
  width params = 0 \/ height params = 0 \/ stride params = 0 ->
  rsvg_render w params g = Returned STATUS_INVALID_PARAMETER g [Ev_fninit].
Proof.
  intros H.
  assert (E : dimensions_rejected params = true).
  { unfold dimensions_rejected. rewrite !orb_true_iff, !Z.eqb_eq. tauto. }
  step_monad. rewrite E.
  destruct (is_null (render_handle params) || is_null (pixels params)); [reflexivity|].
  now destruct (viewport_rejected params).
Qed.

Lemma rsvg_render_dimension_gate_witness :
  rsvg_render world_ok request_zero_stride initial_globals
  = Returned STATUS_INVALID_PARAMETER initial_globals [Ev_fninit].
Proof.
  apply (rsvg_render_dimension_gate world_ok request_zero_stride). right. right. reflexivity.
Defined.

Section RenderOutcomes.
Variable w : world.
Variable params : rsvg_render_params.
Hypothesis gates_passed : early_rejected params = false.

Lemma early_gates_passed :
  is_null (render_handle params) || is_null (pixels params) = false /\
  viewport_rejected params = false /\ dimensions_rejected params = false.
Proof using gates_passed.
  unfold early_rejected in gates_passed.
  apply orb_false_iff in gates_passed as [H G3].
  apply orb_false_iff in H as [G1 G2]. auto.
Qed.

(** Libraries unavailable. *)
Lemma rsvg_render_unavailable g g2 tl :
  libraries_unavailable w g = Returned true g2 tl ->
  rsvg_render w params g = Returned STATUS_NOT_SUPPORTED g2 (tl ++ [Ev_fninit]).
Proof using gates_passed.
  intros E. destruct early_gates_passed as (G1 & G2 & G3).
  step_monad. rewrite G1, G2, G3, E. cbv beta iota. norm_trace. reflexivity.
Qed.

(** The surface cannot be created. *)
Lemma rsvg_render_no_surface g g2 tl :
  libraries_unavailable w g = Returned false g2 tl ->
  non_null (p_rsvg_handle_render_document g2) = true ->
  non_null (p_cairo_image_surface_create_for_data g2) = true ->
  is_null (request_surface w params) = true ->
  rsvg_render w params g =
    Returned STATUS_UNSUCCESSFUL g2 (tl ++ [create_surface w params; Ev_fninit]).
Proof using gates_passed.
  intros E Hr Hc Hs. destruct early_gates_passed as (G1 & G2 & G3).
  rewrite non_null_is_null, negb_true_iff in Hr, Hc.
  step_monad. rewrite G1, G2, G3, E.
  fold (request_surface w params).
  repeat (case_head; step_monad); norm_trace;
    first [reflexivity | congruence | (null_facts; congruence)].
Qed.

(** The document is rendered. *)
Lemma rsvg_render_rendered g g2 tl :
  libraries_unavailable w g = Returned false g2 tl ->
  non_null (p_rsvg_handle_render_document g2) = true ->
  cairo_complete g2 = true ->
  non_null (request_surface w params) = true ->
  non_null (request_context w params) = true ->
  scale_rejected params = false ->
  rsvg_render w params g =
    Returned STATUS_SUCCESS g2
      (tl ++ [create_surface w params; create_context w params] ++ draw w params ++
       [Ev_cairo_destroy (request_context w params);
        Ev_cairo_surface_destroy (request_surface w params);
        Ev_fninit]).
Proof using gates_passed.
  intros E Hr Hc Hs Hcr Hscale. destruct early_gates_passed as (G1 & G2 & G3).
  unfold cairo_complete in Hc. rewrite !andb_true_iff in Hc.
  destruct Hc as [[[[C1 C2] C3] C4] C5].
  rewrite non_null_is_null, negb_true_iff in Hr, C1, C2, C3, C4, C5, Hs.
  pose proof Hcr as Hcr'. rewrite non_null_is_null, negb_true_iff in Hcr'.
  step_monad. rewrite G1, G2, G3, E, Hscale.
  fold (request_surface w params). fold (request_context w params).
  repeat (case_head; step_monad); norm_trace; unfold request_context in *;
    first [reflexivity | congruence | (null_facts; congruence)].
Qed.

End RenderOutcomes.

Lemma filter_disjoint (f h : event -> bool) (t : trace) :
  (forall e, f e = true -> h e = false) ->
  forallb f t = true -> List.filter h t = [].
Proof.
  intros D. induction t as [|e t IH]; [reflexivity|].
  cbn. intros H. apply andb_true_iff in H as [He Ht].
  rewrite (D e He). now apply IH.
Qed.

Lemma loader_not_parser e : is_loader_call e = true -> is_parser_call e = false.
Proof. now destruct e. Qed.

Lemma libraries_unavailable_no_librsvg (w : world) g :
  librsvg_so g = NULL -> w_dlopen w "librsvg-2.so.2" = NULL ->
  libraries_unavailable w g = Returned true g [Ev_dlopen "librsvg-2.so.2" NULL].
Proof.
  intros E D. unfold libraries_unavailable, bind.
  rewrite (load_librsvg_attempt w g E). cbv zeta. rewrite D.
  change (is_null NULL) with true. cbv beta iota. cbn [negb ret app].
  now rewrite set_librsvg_so_id.
Qed.

Lemma libraries_unavailable_no_cairo (w : world) g :
  librsvg_so g <> NULL -> libcairo g = NULL -> w_dlopen w "libcairo.so.2" = NULL ->
  libraries_unavailable w g = Returned true g [Ev_dlopen "libcairo.so.2" NULL].
Proof.
  intros L E D. unfold libraries_unavailable, bind.
  rewrite (load_librsvg_loaded w g L). cbn [negb].
  rewrite (load_cairo_attempt w g E). cbv zeta. rewrite D.
  change (is_null NULL) with true. cbv beta iota. cbn [negb ret app].
  now rewrite set_libcairo_id.
Qed.

Lemma libraries_unavailable_loaded (w : world) g :
  librsvg_so g <> NULL -> libcairo g <> NULL ->
  libraries_unavailable w g = Returned false g [].
Proof.
  intros L C. unfold libraries_unavailable, bind.
  rewrite (load_librsvg_loaded w g L). cbn [negb].
  now rewrite (load_cairo_loaded w g C).
Qed.

(** X2: a request that passes the parameter gates while a library is
    missing gets [STATUS_NOT_SUPPORTED] and no native call is made.  If
    librsvg cannot be opened, cairo is not even tried: the run is the one
    failed [dlopen] and the x87 reset.  If librsvg is loaded and cairo
    cannot be opened, the run is the failed [dlopen] of cairo and the
    reset.  Either way the globals are as before. *)
Theorem rsvg_render_libraries_missing (w : world) (params : rsvg_render_params)
    (g : unix_globals) :
  early_rejected params = false ->
  (librsvg_so g = NULL -> w_dlopen w "librsvg-2.so.2" = NULL ->
   rsvg_render w params g =
     Returned STATUS_NOT_SUPPORTED g [Ev_dlopen "librsvg-2.so.2" NULL; Ev_fninit])
  /\
  (librsvg_so g <> NULL -> libcairo g = NULL -> w_dlopen w "libcairo.so.2" = NULL ->
   rsvg_render w params g =
     Returned STATUS_NOT_SUPPORTED g [Ev_dlopen "libcairo.so.2" NULL; Ev_fninit]).
Proof.
  intros Early. split.
  - intros E D.
    now rewrite (rsvg_render_unavailable w params Early g g _
                   (libraries_unavailable_no_librsvg w g E D)).
  - intros L E D.
    now rewrite (rsvg_render_unavailable w params Early g g _
                   (libraries_unavailable_no_cairo w g L E D)).
Qed.

Lemma rsvg_render_libraries_missing_witness :
  rsvg_render world_no_libraries request_50x50 initial_globals
  = Returned STATUS_NOT_SUPPORTED initial_globals
      [Ev_dlopen "librsvg-2.so.2" NULL; Ev_fninit]
  /\
  rsvg_render world_no_cairo request_50x50 librsvg_loaded_globals
  = Returned STATUS_NOT_SUPPORTED librsvg_loaded_globals
      [Ev_dlopen "libcairo.so.2" NULL; Ev_fninit].
Proof.
  split.
  - apply (proj1 (rsvg_render_libraries_missing world_no_libraries request_50x50
                    initial_globals eq_refl)); reflexivity.
  - apply (proj2 (rsvg_render_libraries_missing world_no_cairo request_50x50
                    librsvg_loaded_globals eq_refl));
      [discriminate | reflexivity | reflexivity].
Defined.

(** X3: the successful render.  When the request passes the parameter
    gates, both libraries are available with their entry points bound,
    cairo creates the surface and the context and the scale is accepted,
    Render returns [STATUS_SUCCESS] after exactly these calls, in order:
    the surface is created over the caller's pixels in format 0 with the
    caller's width, height and stride, the context is created on it and
    scaled by (width / svg_width, height / svg_height), the document is
    rendered into the viewport (0, 0, svg_width, svg_height), the context
    and then the surface are destroyed, and the x87 state is reset. *)
Theorem rsvg_render_success (w : world) (params : rsvg_render_params)
    (g g2 : unix_globals) (tl : trace) :
  early_rejected params = false ->
  libraries_unavailable w g = Returned false g2 tl ->
  non_null (p_rsvg_handle_render_document g2) = true ->
  cairo_complete g2 = true ->
  non_null (request_surface w params) = true ->
  non_null (request_context w params) = true ->
  scale_rejected params = false ->
  rsvg_render w params g =
    Returned STATUS_SUCCESS g2
      (tl ++
       [Ev_cairo_image_surface_create_for_data (pixels params) 0
          (int_of_UINT32 (width params)) (int_of_UINT32 (height params))
          (int_of_UINT32 (stride params)) (request_surface w params);
        Ev_cairo_create (request_surface w params) (request_context w params);
        Ev_cairo_scale (request_context w params)
          (double_of_UINT32 (width params) / svg_width params)%float
          (double_of_UINT32 (height params) / svg_height params)%float;
        Ev_rsvg_handle_render_document (render_handle params) (request_context w params)
          (mkRsvgRectangle 0 0 (svg_width params) (svg_height params));
        Ev_cairo_destroy (request_context w params);
        Ev_cairo_surface_destroy (request_surface w params);
        Ev_fninit]).
Proof.
  intros Early E Hr Hc Hs Hcr Hscale.
  now rewrite (rsvg_render_rendered w params Early g g2 tl E Hr Hc Hs Hcr Hscale).
Qed.

Lemma rsvg_render_success_witness :
  rsvg_render world_ok request_50x50 loaded_globals
  = Returned STATUS_SUCCESS loaded_globals
      [Ev_cairo_image_surface_create_for_data 0xa000 0 50 50 200 0x6000;
       Ev_cairo_create 0x6000 0x6100;
       Ev_cairo_scale 0x6100 0.5 0.5;
       Ev_rsvg_handle_render_document 0x5000 0x6100 (mkRsvgRectangle 0 0 100 100);
       Ev_cairo_destroy 0x6100;
       Ev_cairo_surface_destroy 0x6000;
       Ev_fninit].
Proof.
  apply (rsvg_render_success world_ok request_50x50 loaded_globals loaded_globals []);
    vm_compute; reflexivity.
Defined.

(** X4: when cairo cannot create the surface, Render returns
    [STATUS_UNSUCCESSFUL]; no context is created, nothing is drawn and
    nothing is destroyed: after the loading, the run is the failed creation
    and the x87 reset. *)
Theorem rsvg_render_surface_failure (w : world) (params : rsvg_render_params)
    (g g2 : unix_globals) (tl : trace) :
  early_rejected params = false ->
  libraries_unavailable w g = Returned false g2 tl ->
  non_null (p_rsvg_handle_render_document g2) = true ->
  non_null (p_cairo_image_surface_create_for_data g2) = true ->
  is_null (request_surface w params) = true ->
  rsvg_render w params g =
    Returned STATUS_UNSUCCESSFUL g2
      (tl ++
       [Ev_cairo_image_surface_create_for_data (pixels params) 0
          (int_of_UINT32 (width params)) (int_of_UINT32 (height params))
          (int_of_UINT32 (stride params)) NULL;
        Ev_fninit]).
Proof.
  intros Early E Hr Hc Hs.
  rewrite (rsvg_render_no_surface w params Early g g2 tl E Hr Hc Hs).
  unfold create_surface. apply is_null_true in Hs. now rewrite Hs.
Qed.

Lemma rsvg_render_surface_failure_witness :
  rsvg_render world_no_surface request_50x50 loaded_globals
  = Returned STATUS_UNSUCCESSFUL loaded_globals
      [Ev_cairo_image_surface_create_for_data 0xa000 0 50 50 200 NULL; Ev_fninit].
Proof.
  apply (rsvg_render_surface_failure world_no_surface request_50x50
           loaded_globals loaded_globals []); vm_compute; reflexivity.
Defined.

(** X5: Render draws exactly when it succeeds.  In a run that returns
    [STATUS_SUCCESS] the drawing calls are the one scaling of the context
    followed by the one rendering of the document; in a run that returns
    any other status there is no drawing call at all. *)
Theorem rsvg_render_draws_iff_success (w : world) (params : rsvg_render_params)
    (g g' : unix_globals) (status : NTSTATUS) (t : trace) :
  rsvg_render w params g = Returned status g' t ->
  List.filter is_drawing_call t =
    match status with
    | STATUS_SUCCESS => draw w params
    | _ => []
    end.
Proof.
  intros H. apply rsvg_render_paths in H as (tl & rest & -> & T & P).
  rewrite List.filter_app, (filter_disjoint _ _ tl loader_not_drawing T).
  inversion P; subst; reflexivity.
Qed.

Lemma rsvg_render_draws_iff_success_witness :
  List.filter is_drawing_call
    [Ev_cairo_image_surface_create_for_data 0xa000 0 50 50 200 0x6000;
     Ev_cairo_create 0x6000 0x6100;
     Ev_cairo_destroy 0x6100;
     Ev_cairo_surface_destroy 0x6000;
     Ev_fninit] = [].
Proof.
  apply (rsvg_render_draws_iff_success world_ok request_scale_3200 loaded_globals
           loaded_globals STATUS_INVALID_PARAMETER).
  vm_compute. reflexivity.
Defined.

(** X6: Render never creates, consumes or releases a document handle: no
    run that returns contains a call to the parser, to [g_error_free] or to
    [g_object_unref].  The handle a request carries is as valid after the
    call as before. *)
Theorem rsvg_render_keeps_handle (w : world) (params : rsvg_render_params)
    (g g' : unix_globals) (status : NTSTATUS) (t : trace) :
  rsvg_render w params g = Returned status g' t ->
  List.filter is_parser_call t = [].
Proof.
  intros H. apply rsvg_render_paths in H as (tl & rest & -> & T & P).
  rewrite List.filter_app, (filter_disjoint _ _ tl loader_not_parser T).
  inversion P; subst; reflexivity.
Qed.

Lemma rsvg_render_keeps_handle_witness :
  List.filter is_parser_call
    [Ev_cairo_image_surface_create_for_data 0xa000 0 50 50 200 0x6000;
     Ev_cairo_create 0x6000 0x6100;
     Ev_cairo_scale 0x6100 0.5 0.5;
     Ev_rsvg_handle_render_document 0x5000 0x6100 (mkRsvgRectangle 0 0 100 100);
     Ev_cairo_destroy 0x6100;
     Ev_cairo_surface_destroy 0x6000;
     Ev_fninit] = [].
Proof.
  apply (rsvg_render_keeps_handle world_ok request_50x50 loaded_globals loaded_globals
           STATUS_SUCCESS).
  vm_compute. reflexivity.
Defined.

(** ** The library state across commands *)

(** X7: in every state the Unix side can reach from the zeroed statics by
    any sequence of create, free and render commands, in any environment,
    a loaded librsvg has all four of its entry points bound and a loaded
    cairo has the two entry points its loader checks (surface creation and
    context creation). *)
Theorem reachable_libraries_bound (g : unix_globals) :
  reachable g ->
  (librsvg_so g <> NULL ->
   p_rsvg_handle_new_from_data g <> NULL /\ p_g_object_unref g <> NULL /\
   p_g_error_free g <> NULL /\ p_rsvg_handle_render_document g <> NULL)
  /\
  (libcairo g <> NULL ->
   p_cairo_image_surface_create_for_data g <> NULL /\ p_cairo_create g <> NULL).
Proof.
  intros H. destruct (reachable_inv g H) as [Hr Hc]. split.
  - intros L. specialize (Hr L). unfold librsvg_symbol_missing in Hr.
    rewrite !orb_false_iff, !is_null_false in Hr. tauto.
  - intros L. specialize (Hc L). unfold cairo_symbol_missing in Hc.
    rewrite !orb_false_iff, !is_null_false in Hc. tauto.
Qed.

(** The state after a first render in [world_ok] is reachable and has both
    libraries loaded. *)
Lemma reachable_libraries_bound_witness :
  reachable loaded_globals /\
  p_g_object_unref loaded_globals <> NULL /\ p_cairo_create loaded_globals <> NULL.
Proof.
  assert (R : reachable loaded_globals).
  { apply (reachable_call world_ok unix_rsvg_render request_50x50 initial_globals
             loaded_globals STATUS_SUCCESS
             [Ev_dlopen "librsvg-2.so.2" addr_librsvg;
              Ev_dlsym addr_librsvg "rsvg_handle_new_from_data" 0x7f1010;
              Ev_dlsym addr_librsvg "g_object_unref" 0x7f1020;
              Ev_dlsym addr_librsvg "g_error_free" 0x7f1030;
              Ev_dlsym addr_librsvg "rsvg_handle_render_document" 0x7f1040;
              Ev_dlopen "libcairo.so.2" addr_libcairo;
              Ev_dlsym addr_libcairo "cairo_image_surface_create_for_data" 0x7f2010;
              Ev_dlsym addr_libcairo "cairo_create" 0x7f2020;
              Ev_dlsym addr_libcairo "cairo_destroy" 0x7f2030;
              Ev_dlsym addr_libcairo "cairo_surface_destroy" 0x7f2040;
              Ev_dlsym addr_libcairo "cairo_scale" 0x7f2050;
              Ev_cairo_image_surface_create_for_data 0xa000 0 50 50 200 0x6000;
              Ev_cairo_create 0x6000 0x6100;
              Ev_cairo_scale 0x6100 0.5 0.5;
              Ev_rsvg_handle_render_document 0x5000 0x6100 (mkRsvgRectangle 0 0 100 100);
              Ev_cairo_destroy 0x6100;
              Ev_cairo_surface_destroy 0x6000;
              Ev_fninit]).
    - apply reachable_initial.
    - vm_compute. reflexivity. }
  split; [exact R|].
  destruct (reachable_libraries_bound loaded_globals R) as [Hr Hc].
  split.
  - apply Hr. discriminate.
  - apply Hc. discriminate.
Defined.

(** What each loader leaves alone. *)
Lemma load_librsvg_frame (w : world) g ok g' t :
  load_librsvg w g = Returned ok g' t ->
  cairo_part g' = cairo_part g /\ (librsvg_so g <> NULL -> g' = g /\ t = []).
Proof.
  destruct (Z.eq_dec (librsvg_so g) NULL) as [E|E].
  - rewrite (load_librsvg_attempt w g E); cbv zeta.
    repeat case_head; intros [= <- <- <-]; (split; [reflexivity|contradiction]).
  - rewrite (load_librsvg_loaded w g E). intros [= <- <- <-]. auto.
Qed.

Lemma load_cairo_frame (w : world) g ok g' t :
  load_cairo w g = Returned ok g' t ->
  librsvg_part g' = librsvg_part g /\ (libcairo g <> NULL -> g' = g /\ t = []).
Proof.
  destruct (Z.eq_dec (libcairo g) NULL) as [E|E].
  - rewrite (load_cairo_attempt w g E); cbv zeta.
    repeat case_head; intros [= <- <- <-]; (split; [reflexivity|contradiction]).
  - rewrite (load_cairo_loaded w g E). intros [= <- <- <-]. auto.
Qed.

Lemma libraries_unavailable_frame (w : world) g b g' t :
  libraries_unavailable w g = Returned b g' t ->
  (librsvg_so g <> NULL -> librsvg_part g' = librsvg_part g) /\
  (libcairo g <> NULL -> cairo_part g' = cairo_part g).
Proof.
  unfold libraries_unavailable, bind.
  destruct (loader_returns _ _ _ _ load_librsvg_contract w g) as (ok1 & g1 & t1 & E1).
  rewrite E1. destruct (load_librsvg_frame w g ok1 g1 t1 E1) as [Fc Fr].
  destruct ok1; cbn [negb].
  - destruct (loader_returns _ _ _ _ load_cairo_contract w g1) as (ok2 & g2 & t2 & E2).
    rewrite E2. destruct (load_cairo_frame w g1 ok2 g2 t2 E2) as [Gr Gc].
    intros [= <- <- <-]. split.
    + intros L. rewrite Gr. now destruct (Fr L) as [-> _].
    + intros L. assert (L1 : libcairo g1 <> NULL).
      { unfold cairo_part in Fc. injection Fc as -> _ _ _ _ _. exact L. }
      destruct (Gc L1) as [-> _]. exact Fc.
  - intros [= <- <- <-]. split.
    + intros L. now destruct (Fr L) as [-> _].
    + intros _. exact Fc.
Qed.

Lemma rsvg_create_handle_globals (w : world) params g r g' t :
  rsvg_create_handle w params g = Returned r g' t ->
  exists ok tl, load_librsvg w g = Returned ok g' tl.
Proof.
  destruct (loader_returns _ _ _ _ load_librsvg_contract w g) as (ok & g1 & tl & E).
  step_monad. rewrite E.
  destruct (w_rsvg_handle_new_from_data w (create_data params) (create_size params))
    as [h e]; cbn [fst snd].
  repeat (case_head; step_monad); try discriminate; intros [= <- <- <-]; eauto.
Qed.

Lemma rsvg_render_loaded_globals (w : world) params g status g' t :
  librsvg_so g <> NULL -> libcairo g <> NULL ->
  rsvg_render w params g = Returned status g' t ->
  g' = g /\ List.filter is_loader_call t = [].
Proof.
  intros L C. step_monad.
  destruct (is_null (render_handle params) || is_null (pixels params));
    [intros [= <- <- <-]; now split|].
  destruct (viewport_rejected params); [intros [= <- <- <-]; now split|].
  destruct (dimensions_rejected params); [intros [= <- <- <-]; now split|].
  rewrite (libraries_unavailable_loaded w g L C).
  repeat (case_head; step_monad); try discriminate; intros [= <- <- <-];
    split; reflexivity.
Qed.

(** X8: a library that is loaded stays loaded, with the same entry points:
    no command of the dispatch table, in any environment, changes the
    handle or a cached pointer of a library whose handle is non-null; and
    once both libraries are loaded no command changes the globals or calls
    the dynamic loader again. *)
Theorem loaded_libraries_are_kept (w : world) (code : d2d1_unix_funcs)
    (args : unix_args code) (g g' : unix_globals) (r : unix_result code) (t : trace) :
  __wine_unix_call_funcs w code args g = Returned r g' t ->
  (librsvg_so g <> NULL -> librsvg_part g' = librsvg_part g) /\
  (libcairo g <> NULL -> cairo_part g' = cairo_part g) /\
  (librsvg_so g <> NULL -> libcairo g <> NULL ->
   g' = g /\ List.filter is_loader_call t = []).
Proof.
  destruct code; cbv beta iota delta [__wine_unix_call_funcs unix_args unix_result] in *.
  - (* create *)
    intros H. pose proof H as H'.
    apply rsvg_create_handle_globals in H' as (ok & tl & E).
    destruct (load_librsvg_frame w g ok g' tl E) as [Fc Fr].
    split; [intros L; now destruct (Fr L) as [-> _]|].
    split; [intros _; exact Fc|].
    intros L _. destruct (Fr L) as [-> _]. split; [reflexivity|].
    revert H. step_monad. rewrite (load_librsvg_loaded w g L).
    destruct (w_rsvg_handle_new_from_data w (create_data args) (create_size args))
      as [h e]; cbn [fst snd].
    repeat (case_head; step_monad); try discriminate; intros [= <- <-]; reflexivity.
  - (* free *)
    rewrite rsvg_free_handle_unfold. intros [= <- <- <-].
    repeat split. now destruct (_ && _).
  - (* render *)
    intros H. split; [|split].
    + intros L. apply rsvg_render_globals in H as [->|(b & tl & E)]; [reflexivity|].
      now apply (libraries_unavailable_frame w g b g' tl E).
    + intros C. apply rsvg_render_globals in H as [->|(b & tl & E)]; [reflexivity|].
      now apply (libraries_unavailable_frame w g b g' tl E).
    + intros L C. exact (rsvg_render_loaded_globals w args g r g' t L C H).
Qed.

(** A second render in a process where the first one loaded the libraries. *)
Lemma loaded_libraries_are_kept_witness :
  librsvg_part loaded_globals = librsvg_part loaded_globals /\
  List.filter is_loader_call
    [Ev_cairo_image_surface_create_for_data 0xa000 0 50 50 200 0x6000;
     Ev_cairo_create 0x6000 0x6100;
     Ev_cairo_scale 0x6100 0.5 0.5;
     Ev_rsvg_handle_render_document 0x5000 0x6100 (mkRsvgRectangle 0 0 100 100);
     Ev_cairo_destroy 0x6100;
     Ev_cairo_surface_destroy 0x6000;
     Ev_fninit] = [].
Proof.
  assert (E : __wine_unix_call_funcs world_ok unix_rsvg_render request_50x50 loaded_globals
              = Returned STATUS_SUCCESS loaded_globals
                  [Ev_cairo_image_surface_create_for_data 0xa000 0 50 50 200 0x6000;
                   Ev_cairo_create 0x6000 0x6100;
                   Ev_cairo_scale 0x6100 0.5 0.5;
                   Ev_rsvg_handle_render_document 0x5000 0x6100
                     (mkRsvgRectangle 0 0 100 100);
                   Ev_cairo_destroy 0x6100;
                   Ev_cairo_surface_destroy 0x6000;
                   Ev_fninit]) by (vm_compute; reflexivity).
  destruct (loaded_libraries_are_kept world_ok unix_rsvg_render request_50x50
              loaded_globals loaded_globals STATUS_SUCCESS _ E) as (Hr & _ & Hb).
  split.
  - apply Hr. discriminate.
  - apply Hb; discriminate.
Defined.

(** ** rsvg_create_handle and rsvg_free_handle *)

(** X9: the outcomes of the create command, in a library state the loaders
    produce.  It always returns, with the caller's data and size fields
    untouched.  The status is [STATUS_SUCCESS] exactly when the handle it
    hands out is non-null, and then that handle is the parser's result for
    the caller's data and size, obtained by the only native call of the
    run.  The status is [STATUS_NOT_SUPPORTED] exactly when librsvg is not
    loaded when the command returns, and then no native call was made.  The
    command never answers [STATUS_INVALID_PARAMETER]. *)
Theorem rsvg_create_handle_outcomes (w : world) (params : rsvg_create_params)
    (g : unix_globals) :
  librsvg_inv g ->
  exists status handle g' t,
    rsvg_create_handle w params g =
      Returned (status, mkCreateParams (create_data params) (create_size params) handle) g' t
    /\ (status = STATUS_SUCCESS <-> handle <> NULL)
    /\ (status = STATUS_SUCCESS ->
        handle = fst (w_rsvg_handle_new_from_data w (create_data params) (create_size params))
        /\ List.filter is_native_call t =
             [Ev_rsvg_handle_new_from_data (create_data params) (create_size params)
                handle
                (snd (w_rsvg_handle_new_from_data w (create_data params)
                        (create_size params)))])
    /\ (status = STATUS_NOT_SUPPORTED <-> librsvg_so g' = NULL)
    /\ (status = STATUS_NOT_SUPPORTED -> List.filter is_native_call t = [])
    /\ status <> STATUS_INVALID_PARAMETER.
Proof.
  intros Hinv.
  destruct (rsvg_create_handle_unfold w params g Hinv)
    as (ok & g1 & tl & Hload & T & _ & _ & ->).
  pose proof (filter_disjoint _ _ tl loader_not_native T) as N.
  cbv zeta. destruct ok; cbn [negb].
  - pose proof (loader_success _ _ _ _ load_librsvg_contract w g g1 tl Hload) as L.
    destruct (w_rsvg_handle_new_from_data w (create_data params) (create_size params))
      as [h e]; cbn [fst snd].
    destruct (is_null h) eqn:Hh.
    + do 4 eexists. split; [reflexivity|]. null_facts.
      repeat split; try discriminate; try congruence.
    + do 4 eexists. split; [reflexivity|]. null_facts.
      repeat split; try discriminate; try congruence.
      rewrite List.filter_app, N. reflexivity.
  - destruct (loader_failure _ _ _ _ load_librsvg_contract w g g1 tl Hload) as [L _].
    do 4 eexists. split; [reflexivity|].
    repeat split; try discriminate; try congruence.
Qed.

Lemma rsvg_create_handle_outcomes_witness :
  exists status handle g' t,
    rsvg_create_handle world_ok (mkCreateParams 0x8000 100 0x1234) loaded_globals =
      Returned (status, mkCreateParams 0x8000 100 handle) g' t
    /\ (status = STATUS_SUCCESS <-> handle <> NULL)
    /\ (status = STATUS_SUCCESS ->
        handle = fst (w_rsvg_handle_new_from_data world_ok 0x8000 100)
        /\ List.filter is_native_call t =
             [Ev_rsvg_handle_new_from_data 0x8000 100 handle
                (snd (w_rsvg_handle_new_from_data world_ok 0x8000 100))])
    /\ (status = STATUS_NOT_SUPPORTED <-> librsvg_so g' = NULL)
    /\ (status = STATUS_NOT_SUPPORTED -> List.filter is_native_call t = [])
    /\ status <> STATUS_INVALID_PARAMETER.
Proof.
  apply (rsvg_create_handle_outcomes world_ok (mkCreateParams 0x8000 100 0x1234)
           loaded_globals).
  intros _. vm_compute. reflexivity.
Defined.

(** X10: the free command looks at the cached [g_object_unref] pointer
    only, not at the library handle.  After a load of librsvg that resolved
    [g_object_unref] and failed on another symbol, the library is closed
    and the handle is null, yet a free of a non-null handle still calls
    through the pointer that was resolved from the closed library. *)
Theorem rsvg_free_handle_after_failed_load (w : world) (g g1 : unix_globals)
    (t : trace) (params : rsvg_free_params) :
  librsvg_so g = NULL ->
  load_librsvg w g = Returned false g1 t ->
  non_null (w_dlopen w "librsvg-2.so.2") = true ->
  non_null (w_dlsym w (w_dlopen w "librsvg-2.so.2") "g_object_unref") = true ->
  non_null (free_handle params) = true ->
  librsvg_so g1 = NULL /\
  In (Ev_dlclose (w_dlopen w "librsvg-2.so.2")) t /\
  rsvg_free_handle params g1 =
    Returned STATUS_SUCCESS g1 [Ev_g_object_unref (free_handle params)].
Proof.
  intros E Hload Hso Hsym Hh.
  rewrite (load_librsvg_attempt w g E) in Hload. cbv zeta in Hload.
  rewrite non_null_is_null, negb_true_iff in Hso. rewrite Hso in Hload.
  destruct (librsvg_symbol_missing _); [|discriminate].
  injection Hload as <- <-.
  split; [reflexivity|]. split; [cbn; tauto|].
  rewrite rsvg_free_handle_unfold. cbn. now rewrite Hh, Hsym.
Qed.

Lemma rsvg_free_handle_after_failed_load_witness :
  rsvg_free_handle (mkFreeParams 0x5000)
    (set_librsvg_so NULL
       (with_librsvg_symbols world_rsvg_without_render addr_librsvg initial_globals))
  = Returned STATUS_SUCCESS
      (set_librsvg_so NULL
         (with_librsvg_symbols world_rsvg_without_render addr_librsvg initial_globals))
      [Ev_g_object_unref 0x5000].
Proof.
  assert (L : load_librsvg world_rsvg_without_render initial_globals
              = Returned false
                  (set_librsvg_so NULL
                     (with_librsvg_symbols world_rsvg_without_render addr_librsvg
                        initial_globals))
                  [Ev_dlopen "librsvg-2.so.2" addr_librsvg;
                   Ev_dlsym addr_librsvg "rsvg_handle_new_from_data" 0x7f1010;
                   Ev_dlsym addr_librsvg "g_object_unref" 0x7f1020;
                   Ev_dlsym addr_librsvg "g_error_free" 0x7f1030;
                   Ev_dlsym addr_librsvg "rsvg_handle_render_document" NULL;
                   Ev_dlclose addr_librsvg]) by (vm_compute; reflexivity).
  apply (rsvg_free_handle_after_failed_load world_rsvg_without_render initial_globals _ _
           (mkFreeParams 0x5000) eq_refl L); reflexivity.
Defined.

(** * Further properties of the PE side *)

(** ** d2d_svg_document_create *)

Section CreatePaths.
Variable w : world.
Variable sizeof_d2d_svg_document : Z.
Variables context_factory stream : ptr.
Variable viewport : float * float.

(** Create up to the call into the Unix side, and what follows it. *)
Lemma d2d_svg_document_create_unfold (s : process) cbSize read_len :
  (w_unixlib_handle w =? 0) = false ->
  is_null stream = false ->
  w_IStream_Stat w stream = Some cbSize ->
  is_null (w_HeapAlloc w false cbSize) = false ->
  w_IStream_Read w stream (w_HeapAlloc w false cbSize) (wrap32 cbSize) = Some read_len ->
  let buffer := w_HeapAlloc w false cbSize in
  let object := w_HeapAlloc w true sizeof_d2d_svg_document in
  let before :=
    [Ev_IStream_Stat stream; Ev_HeapAlloc false cbSize buffer;
     Ev_IStream_Read stream buffer (wrap32 cbSize)] in
  d2d_svg_document_create w sizeof_d2d_svg_document context_factory stream viewport s =
    match rsvg_create_handle w (mkCreateParams buffer read_len NULL) (unix s) with
    | Fault tu => Fault (before ++ tu)
    | Returned (status, params') g1 tu =>
        let os := delete buffer (objects s) in
        if NTSTATUS_nonzero status then
          Returned (E_FAIL, None) (mkProcess g1 os) (before ++ tu ++ [Ev_HeapFree buffer])
        else if is_null object then
          Returned (E_OUTOFMEMORY, None) (mkProcess g1 os)
            (before ++ tu ++
             [Ev_HeapFree buffer; Ev_HeapAlloc true sizeof_d2d_svg_document object] ++
             (if non_null (create_handle params') && non_null (p_g_object_unref g1)
              then [Ev_g_object_unref (create_handle params')] else []))
        else if is_null context_factory then
          Fault (before ++ tu ++
                 [Ev_HeapFree buffer; Ev_HeapAlloc true sizeof_d2d_svg_document object])
        else
          Returned (S_OK, Some object)
            (mkProcess g1
               (<[object := mkDocument 1 viewport (create_handle params') context_factory]> os))
            (before ++ tu ++
             [Ev_HeapFree buffer; Ev_HeapAlloc true sizeof_d2d_svg_document object;
              Ev_ID2D1Factory_AddRef context_factory])
    end.
Proof.
  intros Hu Hstream Hstat Hbuf Hread. cbv zeta. destruct s as [g os].
  step_pe. rewrite Hu, Hstream, Hstat. step_pe. rewrite Hbuf. step_pe. rewrite Hread.
  step_pe.
  destruct (rsvg_create_handle w _ g) as [[status params'] g1 tu|tu]; [|reflexivity].
  step_pe.
  destruct (NTSTATUS_nonzero status) eqn:Hst.
  - destruct status; try discriminate Hst; cbv beta iota; norm_trace; reflexivity.
  - destruct status; try discriminate Hst. cbv beta iota.
    destruct (is_null (w_HeapAlloc w true sizeof_d2d_svg_document)); step_pe.
    + rewrite rsvg_free_handle_unfold. cbn [free_handle]. norm_trace.
      destruct (_ && _); reflexivity.
    + destruct (is_null context_factory); cbv beta iota; norm_trace; reflexivity.
Qed.

End CreatePaths.

(** X11: the successful Create.  With the unix library present, a stream
    that is not null read into a heap buffer, the Unix side answering [STATUS_SUCCESS] and
    the heap serving the object, Create returns [S_OK] and stores the new
    object through [document]; the object starts with reference count 1 and
    holds the viewport it was given, the handle the Unix side returned and
    the context's factory, on which it takes exactly one reference; the
    stream buffer is freed right after the Unix call and the handle is not
    released. *)
Theorem d2d_svg_document_create_success (w : world) (sizeof_d2d_svg_document : Z)
    (context_factory stream : ptr) (viewport : float * float) (s : process)
    (cbSize read_len : Z) (params' : rsvg_create_params) (g1 : unix_globals) (tu : trace) :
  (w_unixlib_handle w =? 0) = false ->
  is_null stream = false ->
  w_IStream_Stat w stream = Some cbSize ->
  is_null (w_HeapAlloc w false cbSize) = false ->
  w_IStream_Read w stream (w_HeapAlloc w false cbSize) (wrap32 cbSize) = Some read_len ->
  rsvg_create_handle w (mkCreateParams (w_HeapAlloc w false cbSize) read_len NULL) (unix s)
    = Returned (STATUS_SUCCESS, params') g1 tu ->
  is_null (w_HeapAlloc w true sizeof_d2d_svg_document) = false ->
  is_null context_factory = false ->
  d2d_svg_document_create w sizeof_d2d_svg_document context_factory stream viewport s =
    Returned (S_OK, Some (w_HeapAlloc w true sizeof_d2d_svg_document))
      (mkProcess g1
         (<[w_HeapAlloc w true sizeof_d2d_svg_document :=
              mkDocument 1 viewport (create_handle params') context_factory]>
            (delete (w_HeapAlloc w false cbSize) (objects s))))
      ([Ev_IStream_Stat stream;
        Ev_HeapAlloc false cbSize (w_HeapAlloc w false cbSize);
        Ev_IStream_Read stream (w_HeapAlloc w false cbSize) (wrap32 cbSize)]
       ++ tu ++
       [Ev_HeapFree (w_HeapAlloc w false cbSize);
        Ev_HeapAlloc true sizeof_d2d_svg_document
          (w_HeapAlloc w true sizeof_d2d_svg_document);
        Ev_ID2D1Factory_AddRef context_factory]).
Proof.
  intros Hu Hstream Hstat Hbuf Hread Hunix Hobj Hf.
  rewrite (d2d_svg_document_create_unfold w sizeof_d2d_svg_document context_factory
             stream viewport s cbSize read_len Hu Hstream Hstat Hbuf Hread).
  cbv zeta. rewrite Hunix. cbn [NTSTATUS_nonzero]. now rewrite Hobj, Hf.
Qed.

Lemma d2d_svg_document_create_success_witness :
  d2d_svg_document_create world_ok 64 0xf000 0x100 (100%float, 100%float)
    (mkProcess loaded_globals ∅)
  = Returned (S_OK, Some 0x9000)
      (mkProcess loaded_globals
         (<[0x9000 := mkDocument 1 (100%float, 100%float) 0x5000 0xf000]> (delete 0x8000 ∅)))
      [Ev_IStream_Stat 0x100;
       Ev_HeapAlloc false 100 0x8000;
       Ev_IStream_Read 0x100 0x8000 100;
       Ev_rsvg_handle_new_from_data 0x8000 100 0x5000 NULL;
       Ev_HeapFree 0x8000;
       Ev_HeapAlloc true 64 0x9000;
       Ev_ID2D1Factory_AddRef 0xf000].
Proof.
  apply (d2d_svg_document_create_success world_ok 64 0xf000 0x100 (100%float, 100%float)
           (mkProcess loaded_globals ∅) 100 100 (mkCreateParams 0x8000 100 0x5000)
           loaded_globals [Ev_rsvg_handle_new_from_data 0x8000 100 0x5000 NULL]);
    vm_compute; reflexivity.
Defined.

(** X12: how Create ends before the parser.  Without the unix library it
    returns [E_NOTIMPL] and touches nothing, not even the stream, be it
    null.  With the unix library and a null stream it does not return: it
    stops at [IStream_Stat] with no call made.  With a stream that is not
    null: if the stream cannot be sized it returns [E_FAIL] without
    allocating; if the buffer cannot be allocated it returns
    [E_OUTOFMEMORY] without reading; if the read fails it frees the buffer
    and returns [E_FAIL].  In none of these runs is the Unix side called,
    and none stores an object. *)
Theorem d2d_svg_document_create_early_failures (w : world) (sizeof_d2d_svg_document : Z)
    (context_factory stream : ptr) (viewport : float * float) (s : process) :
  let create :=
    d2d_svg_document_create w sizeof_d2d_svg_document context_factory stream viewport s in
  (w_unixlib_handle w = 0 -> create = Returned (E_NOTIMPL, None) s [])
  /\ (w_unixlib_handle w <> 0 -> stream = NULL -> create = Fault [])
  /\ (w_unixlib_handle w <> 0 -> stream <> NULL -> w_IStream_Stat w stream = None ->
      create = Returned (E_FAIL, None) s [Ev_IStream_Stat stream])
  /\ (forall cbSize,
        w_unixlib_handle w <> 0 -> stream <> NULL ->
        w_IStream_Stat w stream = Some cbSize ->
        w_HeapAlloc w false cbSize = NULL ->
        create = Returned (E_OUTOFMEMORY, None) s
                   [Ev_IStream_Stat stream; Ev_HeapAlloc false cbSize NULL])
  /\ (forall cbSize,
        w_unixlib_handle w <> 0 -> stream <> NULL ->
        w_IStream_Stat w stream = Some cbSize ->
        w_HeapAlloc w false cbSize <> NULL ->
        w_IStream_Read w stream (w_HeapAlloc w false cbSize) (wrap32 cbSize) = None ->
        create = Returned (E_FAIL, None)
                   (without_document (w_HeapAlloc w false cbSize) s)
                   [Ev_IStream_Stat stream;
                    Ev_HeapAlloc false cbSize (w_HeapAlloc w false cbSize);
                    Ev_IStream_Read stream (w_HeapAlloc w false cbSize) (wrap32 cbSize);
                    Ev_HeapFree (w_HeapAlloc w false cbSize)]).
Proof.
  cbv zeta. destruct s as [g os]. repeat apply conj.
  - intros Hu. step_pe. now rewrite Hu.
  - intros Hu ->. apply Z.eqb_neq in Hu. step_pe. now rewrite Hu.
  - intros Hu Hs Hstat. apply Z.eqb_neq in Hu. apply is_null_false in Hs.
    step_pe. now rewrite Hu, Hs, Hstat.
  - intros cbSize Hu Hs Hstat Hbuf. apply Z.eqb_neq in Hu. apply is_null_false in Hs.
    step_pe. rewrite Hu, Hs, Hstat. step_pe. now rewrite Hbuf.
  - intros cbSize Hu Hs Hstat Hbuf Hread. apply Z.eqb_neq in Hu.
    apply is_null_false in Hs, Hbuf.
    step_pe. rewrite Hu, Hs, Hstat. step_pe. rewrite Hbuf. step_pe. now rewrite Hread.
Qed.

(** Create on a null stream: with the unix library it stops before any
    call; without it, it returns [E_NOTIMPL] as for any other stream. *)
Lemma d2d_svg_document_create_early_failures_witness :
  d2d_svg_document_create world_ok 64 0xf000 NULL (100%float, 100%float)
    (mkProcess initial_globals ∅) = Fault []
  /\
  d2d_svg_document_create world_no_unixlib 64 0xf000 NULL (100%float, 100%float)
    (mkProcess initial_globals ∅) = Returned (E_NOTIMPL, None) (mkProcess initial_globals ∅) [].
Proof.
  split.
  - apply (proj1 (proj2 (d2d_svg_document_create_early_failures world_ok 64 0xf000 NULL
                           (100%float, 100%float) (mkProcess initial_globals ∅))));
      [discriminate|reflexivity].
  - apply (proj1 (d2d_svg_document_create_early_failures world_no_unixlib 64 0xf000 NULL
                    (100%float, 100%float) (mkProcess initial_globals ∅))).
    reflexivity.
Defined.

(** X13: every failure of the Unix side is reported by Create as [E_FAIL],
    after the stream buffer is freed (the stream is not null, so that Create
    gets as far as the Unix side): a document the parser rejects and a
    librsvg that cannot be loaded give the same result, and no object is
    stored. *)
Theorem d2d_svg_document_create_unix_failure (w : world) (sizeof_d2d_svg_document : Z)
    (context_factory stream : ptr) (viewport : float * float) (s : process)
    (cbSize read_len : Z) (status : NTSTATUS) (params' : rsvg_create_params)
    (g1 : unix_globals) (tu : trace) :
  (w_unixlib_handle w =? 0) = false ->
  is_null stream = false ->
  w_IStream_Stat w stream = Some cbSize ->
  is_null (w_HeapAlloc w false cbSize) = false ->
  w_IStream_Read w stream (w_HeapAlloc w false cbSize) (wrap32 cbSize) = Some read_len ->
  rsvg_create_handle w (mkCreateParams (w_HeapAlloc w false cbSize) read_len NULL) (unix s)
    = Returned (status, params') g1 tu ->
  status <> STATUS_SUCCESS ->
  d2d_svg_document_create w sizeof_d2d_svg_document context_factory stream viewport s =
    Returned (E_FAIL, None)
      (mkProcess g1 (delete (w_HeapAlloc w false cbSize) (objects s)))
      ([Ev_IStream_Stat stream;
        Ev_HeapAlloc false cbSize (w_HeapAlloc w false cbSize);
        Ev_IStream_Read stream (w_HeapAlloc w false cbSize) (wrap32 cbSize)]
       ++ tu ++ [Ev_HeapFree (w_HeapAlloc w false cbSize)]).
Proof.
  intros Hu Hstream Hstat Hbuf Hread Hunix Hst.
  rewrite (d2d_svg_document_create_unfold w sizeof_d2d_svg_document context_factory
             stream viewport s cbSize read_len Hu Hstream Hstat Hbuf Hread).
  cbv zeta. rewrite Hunix. destruct status; [contradiction|reflexivity..].
Qed.

(** Create where librsvg cannot be opened: [E_FAIL]. *)
Lemma d2d_svg_document_create_unix_failure_witness :
  d2d_svg_document_create world_no_libraries 64 0xf000 0x100 (100%float, 100%float)
    (mkProcess initial_globals ∅)
  = Returned (E_FAIL, None) (mkProcess initial_globals (delete 0x8000 ∅))
      [Ev_IStream_Stat 0x100;
       Ev_HeapAlloc false 100 0x8000;
       Ev_IStream_Read 0x100 0x8000 100;
       Ev_dlopen "librsvg-2.so.2" NULL;
       Ev_HeapFree 0x8000].
Proof.
  apply (d2d_svg_document_create_unix_failure world_no_libraries 64 0xf000 0x100
           (100%float, 100%float) (mkProcess initial_globals ∅) 100 100
           STATUS_NOT_SUPPORTED (mkCreateParams 0x8000 100 NULL) initial_globals
           [Ev_dlopen "librsvg-2.so.2" NULL]);
    try (vm_compute; reflexivity). discriminate.
Defined.

(** ** A document from creation to its last release *)

Lemma factory_references_app f (t1 t2 : trace) :
  factory_references f (t1 ++ t2) = factory_references f t1 + factory_references f t2.
Proof.
  induction t1 as [|e t1 IH]; [reflexivity|].
  destruct e; cbn; rewrite ?IH; lia.
Qed.

Lemma factory_references_loader f (tl : trace) :
  forallb is_loader_call tl = true -> factory_references f tl = 0.
Proof.
  induction tl as [|e tl IH]; [reflexivity|].
  cbn. intros H. apply andb_true_iff in H as [He Ht].
  destruct e; try discriminate He; cbn; now apply IH.
Qed.

(** What a Create that returned [S_OK] has done. *)
Lemma d2d_svg_document_create_S_OK (w : world) (sizeof_d2d_svg_document : Z)
    (context_factory stream : ptr) (viewport : float * float) (s s1 : process)
    (object : ptr) (t1 : trace) :
  librsvg_inv (unix s) ->
  d2d_svg_document_create w sizeof_d2d_svg_document context_factory stream viewport s
    = Returned (S_OK, Some object) s1 t1 ->
  exists cbSize read_len h tl,
    let buffer := w_HeapAlloc w false cbSize in
    forallb is_loader_call tl = true /\
    buffer <> NULL /\ h <> NULL /\ object <> NULL /\ context_factory <> NULL /\
    w_unixlib_handle w <> 0 /\ p_g_object_unref (unix s1) <> NULL /\
    objects s1 !! object = Some (mkDocument 1 viewport h context_factory) /\
    t1 = [Ev_IStream_Stat stream; Ev_HeapAlloc false cbSize buffer;
          Ev_IStream_Read stream buffer (wrap32 cbSize)]
         ++ tl ++
         [Ev_rsvg_handle_new_from_data buffer read_len h
            (snd (w_rsvg_handle_new_from_data w buffer read_len));
          Ev_HeapFree buffer;
          Ev_HeapAlloc true sizeof_d2d_svg_document object;
          Ev_ID2D1Factory_AddRef context_factory].
Proof.
  intros Hinv H.
  destruct (w_unixlib_handle w =? 0) eqn:Hu.
  { revert H. destruct s. step_pe. rewrite Hu. discriminate. }
  destruct (is_null stream) eqn:Hstream.
  { revert H. destruct s. step_pe. rewrite Hu, Hstream. discriminate. }
  destruct (w_IStream_Stat w stream) as [cbSize|] eqn:Hstat; cycle 1.
  { revert H. destruct s. step_pe. rewrite Hu, Hstream, Hstat. discriminate. }
  destruct (is_null (w_HeapAlloc w false cbSize)) eqn:Hbuf.
  { revert H. destruct s. step_pe. rewrite Hu, Hstream, Hstat. step_pe. rewrite Hbuf.
    discriminate. }
  destruct (w_IStream_Read w stream (w_HeapAlloc w false cbSize) (wrap32 cbSize))
    as [read_len|] eqn:Hread; cycle 1.
  { revert H. destruct s. step_pe. rewrite Hu, Hstream, Hstat. step_pe. rewrite Hbuf.
    step_pe. rewrite Hread. discriminate. }
  rewrite (d2d_svg_document_create_unfold w sizeof_d2d_svg_document context_factory
             stream viewport s cbSize read_len Hu Hstream Hstat Hbuf Hread) in H.
  cbv zeta in H.
  destruct (rsvg_create_handle_unfold w
              (mkCreateParams (w_HeapAlloc w false cbSize) read_len NULL) (unix s) Hinv)
    as (ok & g1 & tl & _ & T & _ & Hok & E).
  rewrite E in H. cbv zeta in H. cbn [create_data create_size] in H.
  destruct ok; cbn [negb] in H; [|discriminate H].
  destruct (w_rsvg_handle_new_from_data w (w_HeapAlloc w false cbSize) read_len)
    as [h e] eqn:Hparse; cbn [fst snd] in H.
  destruct (is_null h) eqn:Hh; [discriminate H|].
  cbn [NTSTATUS_nonzero create_handle] in H.
  destruct (is_null (w_HeapAlloc w true sizeof_d2d_svg_document)) eqn:Hobj;
    [discriminate H|].
  destruct (is_null context_factory) eqn:Hf; [discriminate H|].
  injection H as <- <- <-.
  specialize (Hok eq_refl). unfold librsvg_symbol_missing in Hok.
  rewrite !orb_false_iff in Hok. destruct Hok as [[[_ M2] _] _].
  null_facts. apply Z.eqb_neq in Hu.
  exists cbSize, read_len, h, tl. cbv zeta. cbn [unix objects snd].
  repeat split; try assumption.
  - apply lookup_insert_eq.
  - rewrite Hparse. cbn [snd]. now rewrite <- !app_assoc.
Qed.

(** X14: Create followed by Release leaves nothing behind.  In a process
    whose librsvg state is one the loader produces, after a Create that
    returned [S_OK] the first Release of the new object returns 0 and tears
    it down: the object is gone, every heap block and the native handle
    acquired by the two calls have been given back, and the reference taken
    on the factory has been released. *)
Theorem create_then_release (w : world) (sizeof_d2d_svg_document : Z)
    (context_factory stream : ptr) (viewport : float * float) (s s1 : process)
    (object : ptr) (t1 : trace) :
  librsvg_inv (unix s) ->
  d2d_svg_document_create w sizeof_d2d_svg_document context_factory stream viewport s
    = Returned (S_OK, Some object) s1 t1 ->
  exists s2 t2,
    d2d_svg_document_Release w object s1 = Returned 0 s2 t2 /\
    objects s2 !! object = None /\
    unix s2 = unix s1 /\
    leaked (t1 ++ t2) = [] /\
    factory_references context_factory (t1 ++ t2) = 0.
Proof.
  intros Hinv H.
  destruct (d2d_svg_document_create_S_OK w sizeof_d2d_svg_document context_factory
              stream viewport s s1 object t1 Hinv H)
    as (cbSize & read_len & h & tl & T & Hbuf & Hh & Hobj & Hf & Hu & Hp & Hdoc & ->).
  rewrite (d2d_svg_document_Release_unfold w object s1 _ Hdoc). cbv zeta.
  change (wrap32 (refcount (mkDocument 1 viewport h context_factory) - 1) =? 0) with true.
  cbv beta iota.
  do 2 eexists. split; [reflexivity|].
  split; [apply lookup_delete_eq|]. split; [reflexivity|].
  unfold teardown_events. cbn [rsvg_handle factory].
  apply non_null_true in Hh as Hh', Hf as Hf', Hp as Hp'. apply Z.eqb_neq in Hu as Hu'.
  rewrite Hh', Hf', Hp', Hu'. cbn [negb andb app].
  apply is_null_false in Hbuf as Hbuf', Hh as Hh'', Hobj as Hobj'.
  split.
  - unfold leaked. rewrite <- !app_assoc. cbn [app held_after released acquired].
    rewrite Hbuf'. cbn [app]. rewrite held_after_app, (held_after_loader _ _ T).
    cbn. rewrite Hh'', Hobj'.
    repeat (progress (cbn; rewrite ?Z.eqb_refl)). reflexivity.
  - rewrite <- !app_assoc. cbn [app factory_references].
    rewrite factory_references_app, (factory_references_loader _ _ T).
    cbn. rewrite Z.eqb_refl. reflexivity.
Qed.

Lemma create_then_release_witness :
  exists s2 t2,
    d2d_svg_document_Release world_ok 0x9000
      (mkProcess loaded_globals
         (<[0x9000 := mkDocument 1 (100%float, 100%float) 0x5000 0xf000]> (delete 0x8000 ∅)))
    = Returned 0 s2 t2 /\
    objects s2 !! 0x9000 = None /\
    unix s2 = loaded_globals /\
    leaked ([Ev_IStream_Stat 0x100;
             Ev_HeapAlloc false 100 0x8000;
             Ev_IStream_Read 0x100 0x8000 100;
             Ev_rsvg_handle_new_from_data 0x8000 100 0x5000 NULL;
             Ev_HeapFree 0x8000;
             Ev_HeapAlloc true 64 0x9000;
             Ev_ID2D1Factory_AddRef 0xf000] ++ t2) = [] /\
    factory_references 0xf000
      ([Ev_IStream_Stat 0x100;
        Ev_HeapAlloc false 100 0x8000;
        Ev_IStream_Read 0x100 0x8000 100;
        Ev_rsvg_handle_new_from_data 0x8000 100 0x5000 NULL;
        Ev_HeapFree 0x8000;
        Ev_HeapAlloc true 64 0x9000;
        Ev_ID2D1Factory_AddRef 0xf000] ++ t2) = 0.
Proof.
  apply (create_then_release world_ok 64 0xf000 0x100 (100%float, 100%float)
           (mkProcess loaded_globals ∅)).
  - intros _. vm_compute. reflexivity.
  - vm_compute. reflexivity.
Defined.

(** X15: the factory a document was created with is the one GetFactory
    hands out.  After a Create that returned [S_OK], GetFactory on the new
    object returns the context's factory, takes one more reference on it
    and changes nothing in the process. *)
Theorem create_then_GetFactory (w : world) (sizeof_d2d_svg_document : Z)
    (context_factory stream : ptr) (viewport : float * float) (s s1 : process)
    (object : ptr) (t1 : trace) :
  librsvg_inv (unix s) ->
  d2d_svg_document_create w sizeof_d2d_svg_document context_factory stream viewport s
    = Returned (S_OK, Some object) s1 t1 ->
  d2d_svg_document_GetFactory object s1
    = Returned context_factory s1 [Ev_ID2D1Factory_AddRef context_factory].
Proof.
  intros Hinv H.
  destruct (d2d_svg_document_create_S_OK w sizeof_d2d_svg_document context_factory
              stream viewport s s1 object t1 Hinv H)
    as (cbSize & read_len & h & tl & _ & _ & _ & _ & Hf & _ & _ & Hdoc & _).
  destruct s1 as [u1 o1]. cbn [objects] in Hdoc.
  unfold d2d_svg_document_GetFactory. step_pe. rewrite Hdoc. cbn [factory].
  apply is_null_false in Hf. rewrite Hf. reflexivity.
Qed.

Lemma create_then_GetFactory_witness :
  d2d_svg_document_GetFactory 0x9000
    (mkProcess loaded_globals
       (<[0x9000 := mkDocument 1 (100%float, 100%float) 0x5000 0xf000]> (delete 0x8000 ∅)))
  = Returned 0xf000
      (mkProcess loaded_globals
         (<[0x9000 := mkDocument 1 (100%float, 100%float) 0x5000 0xf000]> (delete 0x8000 ∅)))
      [Ev_ID2D1Factory_AddRef 0xf000].
Proof.
  apply (create_then_GetFactory world_ok 64 0xf000 0x100 (100%float, 100%float)
           (mkProcess loaded_globals ∅) _ _
           [Ev_IStream_Stat 0x100;
            Ev_HeapAlloc false 100 0x8000;
            Ev_IStream_Read 0x100 0x8000 100;
            Ev_rsvg_handle_new_from_data 0x8000 100 0x5000 NULL;
            Ev_HeapFree 0x8000;
            Ev_HeapAlloc true 64 0x9000;
            Ev_ID2D1Factory_AddRef 0xf000]).
  - intros _. vm_compute. reflexivity.
  - vm_compute. reflexivity.
Defined.

(** ** QueryInterface *)

Lemma IsEqualGUID_true a b : IsEqualGUID a b = true <-> a = b.
Proof.
  destruct a as [a1 a2 a3 a4], b as [b1 b2 b3 b4]. unfold IsEqualGUID. cbn.
  rewrite !andb_true_iff, !Z.eqb_eq, bool_decide_eq_true. split.
  - intros [[[-> ->] ->] ->]. reflexivity.
  - intros [= -> -> -> ->]. auto.
Qed.

(** X16: QueryInterface.  Asked for [ID2D1Resource] or [IUnknown] it
    returns [S_OK], hands out the interface pointer it was called on and
    has added one reference to the document, which a Release gives back,
    restoring the state.  Asked for any other interface it returns
    [E_NOINTERFACE], stores a null pointer and touches nothing. *)
Theorem d2d_svg_document_QueryInterface_contract (IID_ID2D1Resource IID_IUnknown : GUID)
    (w : world) (iface : ptr) (iid : GUID) (s : process) (d : d2d_svg_document) :
  objects s !! iface = Some d ->
  1 <= refcount d < 2 ^ 32 - 1 ->
  let query := d2d_svg_document_QueryInterface IID_ID2D1Resource IID_IUnknown iface iid in
  (iid = IID_ID2D1Resource \/ iid = IID_IUnknown ->
   query s = Returned (S_OK, iface) (with_refcount iface (refcount d + 1) d s) []
   /\ (query ;;; d2d_svg_document_Release w iface) s = Returned (refcount d) s [])
  /\
  (iid <> IID_ID2D1Resource -> iid <> IID_IUnknown ->
   query s = Returned (E_NOINTERFACE, NULL) s []).
Proof.
  intros H R query. subst query. unfold d2d_svg_document_QueryInterface. split.
  - intros Hiid.
    assert (E : IsEqualGUID iid IID_ID2D1Resource || IsEqualGUID iid IID_IUnknown = true).
    { apply orb_true_iff. rewrite !IsEqualGUID_true. exact Hiid. }
    rewrite E.
    assert (Q : (d2d_svg_document_AddRef iface ;;; ret (S_OK, iface)) s
                = Returned (S_OK, iface) (with_refcount iface (refcount d + 1) d s) []).
    { unfold bind. rewrite (d2d_svg_document_AddRef_unfold iface s d H).
      now rewrite wrap32_small by lia. }
    split; [exact Q|].
    unfold bind at 1. rewrite Q.
    rewrite (d2d_svg_document_Release_unfold w iface _ _
               (lookup_with_refcount iface _ d s)).
    cbv zeta. cbn [set_refcount refcount].
    replace (refcount d + 1 - 1) with (refcount d) by lia.
    rewrite wrap32_small by lia.
    destruct (Z.eqb_spec (refcount d) 0); [lia|].
    rewrite (with_refcount_twice iface _ _ d _ s eq_refl).
    now rewrite with_refcount_id.
  - intros N1 N2.
    assert (E : IsEqualGUID iid IID_ID2D1Resource || IsEqualGUID iid IID_IUnknown = false).
    { apply orb_false_iff. split; apply not_true_is_false; rewrite IsEqualGUID_true;
        assumption. }
    now rewrite E.
Qed.

Lemma d2d_svg_document_QueryInterface_contract_witness :
  d2d_svg_document_QueryInterface iid_ID2D1Resource iid_IUnknown 0x9000 iid_IUnknown
    process_fresh
  = Returned (S_OK, 0x9000) (with_refcount 0x9000 2 document_fresh process_fresh) []
  /\
  d2d_svg_document_QueryInterface iid_ID2D1Resource iid_IUnknown 0x9000 iid_ID2D1Bitmap
    process_fresh
  = Returned (E_NOINTERFACE, NULL) process_fresh [].
Proof.
  assert (L : objects process_fresh !! 0x9000 = Some document_fresh) by reflexivity.
  assert (R : 1 <= refcount document_fresh < 2 ^ 32 - 1) by (cbn; lia).
  destruct (d2d_svg_document_QueryInterface_contract iid_ID2D1Resource iid_IUnknown
              world_ok 0x9000 iid_IUnknown process_fresh document_fresh L R) as [A _].
  destruct (d2d_svg_document_QueryInterface_contract iid_ID2D1Resource iid_IUnknown
              world_ok 0x9000 iid_ID2D1Bitmap process_fresh document_fresh L R) as [_ B].
  split.
  - apply A. right. reflexivity.
  - apply B; discriminate.
Defined.

(** ** Balanced reference counting *)

(** [K] Releases on a count above [K] only count down. *)
Lemma times_Release_above (w : world) (K : nat) iface s d :
  objects s !! iface = Some d ->
  Z.of_nat K < refcount d < 2 ^ 32 ->
  times K (d2d_svg_document_Release w iface) s =
    Returned tt (with_refcount iface (refcount d - Z.of_nat K) d s) [].
Proof.
  revert s d. induction K as [|K IH]; intros s d H R.
  - cbn [times ret]. rewrite Z.sub_0_r. now rewrite with_refcount_id.
  - cbn [times]. unfold bind at 1.
    rewrite (d2d_svg_document_Release_unfold w iface s d H). cbv zeta.
    rewrite wrap32_small by lia.
    destruct (Z.eqb_spec (refcount d - 1) 0); [lia|].
    rewrite (IH _ _ (lookup_with_refcount iface _ d s)) by (cbn [set_refcount refcount]; lia).
    cbn [app set_refcount refcount].
    rewrite (with_refcount_twice iface _ _ d _ s eq_refl).
    now replace (refcount d - 1 - Z.of_nat K) with (refcount d - Z.of_nat (S K)) by lia.
Qed.

(** X17: balanced reference counting.  On a live document with count [n]
    at least 1, [K] AddRefs followed by [K] Releases give back the very
    state they started from and make no call outside the object, as long
    as [n + K] fits in 32 bits; and [K] Releases on a count above [K] lower
    the count by [K] without tearing the document down. *)
Theorem refcount_balanced (w : world) (K : nat) (iface : ptr) (s : process)
    (d : d2d_svg_document) :
  objects s !! iface = Some d ->
  1 <= refcount d ->
  refcount d + Z.of_nat K < 2 ^ 32 ->
  (times K (d2d_svg_document_AddRef iface) ;;;
   times K (d2d_svg_document_Release w iface)) s = Returned tt s []
  /\ (Z.of_nat K < refcount d ->
      times K (d2d_svg_document_Release w iface) s =
        Returned tt (with_refcount iface (refcount d - Z.of_nat K) d s) []).
Proof.
  intros H R B. split.
  - unfold bind. rewrite (times_AddRef K iface s d H) by lia.
    rewrite wrap32_small by lia.
    rewrite (times_Release_above w K iface _ _ (lookup_with_refcount iface _ d s))
      by (cbn [set_refcount refcount]; lia).
    cbn [app set_refcount refcount].
    rewrite (with_refcount_twice iface _ _ d _ s eq_refl).
    replace (refcount d + Z.of_nat K - Z.of_nat K) with (refcount d) by lia.
    now rewrite with_refcount_id.
  - intros A. apply times_Release_above; [assumption|lia].
Qed.

Lemma refcount_balanced_witness :
  (times 5 (d2d_svg_document_AddRef 0x9000) ;;;
   times 5 (d2d_svg_document_Release world_ok 0x9000)) process_fresh
  = Returned tt process_fresh [].
Proof.
  apply (proj1 (refcount_balanced world_ok 5 0x9000 process_fresh document_fresh
                  eq_refl ltac:(cbn; lia) ltac:(cbn; lia))).
Defined.

(** ** Viewports that are not numbers *)

Lemma is_nan_Prim2SF (x : float) :
  PrimFloat.is_nan x = true -> Prim2SF x = S754_nan.
Proof.
  unfold PrimFloat.is_nan. rewrite FloatAxioms.eqb_spec.
  destruct (Prim2SF x) as [s| s | |s m e]; try reflexivity; unfold SFeqb; cbn.
  - discriminate.
  - destruct s; discriminate.
  - destruct s; rewrite Z.compare_refl, Pos.compare_cont_refl; discriminate.
Qed.

Lemma leb_nan_l (x y : float) : Prim2SF x = S754_nan -> (x <=? y)%float = false.
Proof. intros H. rewrite leb_spec, H. reflexivity. Qed.

Lemma ltb_nan_r (x y : float) : Prim2SF y = S754_nan -> (x <? y)%float = false.
Proof.
  intros H. rewrite ltb_spec, H. unfold SFltb, SFcompare.
  now destruct (Prim2SF x).
Qed.

Lemma div_nan_r (x y : float) : Prim2SF y = S754_nan -> Prim2SF (x / y)%float = S754_nan.
Proof.
  intros H. rewrite div_spec, H. unfold SF64div, SFdiv.
  now destruct (Prim2SF x).
Qed.

(** X18: a viewport width that is not a number is invisible to both
    gates of Render.  The viewport gate lets the request through whatever
    the height is, and the scale gate decides on the vertical scale alone:
    neither of its two tests on the horizontal scale can fire. *)
Theorem nan_viewport_passes_gates (params : rsvg_render_params) :
  PrimFloat.is_nan (svg_width params) = true ->
  viewport_rejected params = false /\
  scale_rejected params =
    (scale_y params <=? 0)%float || (1000 <? scale_y params)%float.
Proof.
  intros H. apply is_nan_Prim2SF in H. split.
  - unfold viewport_rejected. now rewrite (leb_nan_l _ _ H).
  - unfold scale_rejected.
    assert (S : Prim2SF (scale_x params) = S754_nan) by (apply div_nan_r, H).
    now rewrite (leb_nan_l _ _ S), (ltb_nan_r _ _ S).
Qed.

Lemma nan_viewport_passes_gates_witness :
  viewport_rejected request_nan_viewport = false /\
  scale_rejected request_nan_viewport = false.
Proof.
  destruct (nan_viewport_passes_gates request_nan_viewport eq_refl) as [A B].
  split; [exact A|]. rewrite B. vm_compute. reflexivity.
Defined.
